(** * Cloudflare -> registry synchronisation scripts

    A shallow embedding of the Python sources

    - [lib/cloudflare_fetcher.py]  (class [CloudflareFetcher]),
    - [lib/registry_updater.py]    (class [RegistryUpdater]),
    - [python/sync_all.py]         (the orchestrator),
    - [python/webhook_listener.py] (the Flask handlers),
    - [python/simple_sync.py]      (the script that fills the KV store),

    followed by the properties of the specification that concern them,
    and by further properties of the code.

    Conventions of the embedding.

    - Python values that travel as JSON are the inductive [pyval].  JSON
      numbers are integers ([Z]); fractional numbers are not represented.
    - A Python [str] is a Rocq [string] whose characters are the code points
      0..255; [bytes] are Rocq strings as well.  The texts printed by
      [sync_all.py] are kept as the bytes of the literals of the source.
    - A dictionary is an association list in insertion order, as Python
      dictionaries (and [json.dumps]) keep it.
    - Everything outside the process is a field of [world]: the outcomes of
      the HTTP calls still to come, the requests sent so far, the console,
      the files, the clock and the threads that were started.  Code is
      written in the state-and-exception monad [M].  Reading the clock and
      writing a file always succeed; a started thread is recorded, not run.
    - Functions of Python and of the [requests], [hmac], [json] and Flask
      libraries are modelled by what their documentation says; [json.loads]
      is a parameter of the listener, and so is the HMAC function, for which
      [Sha256] gives the standard one.
    - What is outside the process and is read once only is an argument of
      the code that reads it: the [op] command and the environment of the
      constructor of the fetcher (the record [host]), and the programs that
      [sync_all.py] starts with [subprocess].
    - The only loop without a bound in the source, [while True] in
      [_paginated_fetch], is given the number of outcomes left on the
      network plus one as its bound: every iteration consumes one. *)

From Stdlib Require Import List String Ascii ZArith Lia Bool Arith.
From Stdlib Require Import DecimalString FinFun.
Import ListNotations.

Local Open Scope string_scope.
Local Open Scope Z_scope.

Set Warnings "-register-all".

(* ===================================================================== *)
(** * Python values                                                       *)
(* ===================================================================== *)

Module Py.

(** A dictionary with string keys, in insertion order. *)
Definition dict (V : Type) : Type := list (string * V).

Inductive pyval : Type :=
| PNone
| PBool (b : bool)
| PInt (z : Z)
| PStr (s : string)
| PList (l : list pyval)
| PDict (d : dict pyval).

Section Dict.
Context {V : Type}.

(** [d.get(k)] as an option. *)
Fixpoint dict_get (d : dict V) (k : string) : option V :=
  match d with
  | [] => None
  | (k', v) :: d' => if String.eqb k' k then Some v else dict_get d' k
  end.

(** [k in d]. *)
Definition dict_mem (d : dict V) (k : string) : bool :=
  match dict_get d k with Some _ => true | None => false end.

(** [d[k] = v]: an existing key keeps its place, a new key goes last. *)
Fixpoint dict_set (d : dict V) (k : string) (v : V) : dict V :=
  match d with
  | [] => [(k, v)]
  | (k', v') :: d' =>
      if String.eqb k' k then (k, v) :: d' else (k', v') :: dict_set d' k v
  end.

Definition dict_keys (d : dict V) : list string := map fst d.
Definition dict_values (d : dict V) : list V := map snd d.

(** [d.update(e)]. *)
Definition dict_update (d e : dict V) : dict V :=
  fold_left (fun acc kv => dict_set acc (fst kv) (snd kv)) e d.
End Dict.

(** [len(l)]. *)
Definition len {A : Type} (l : list A) : Z := Z.of_nat (List.length l).

(** [sum(xs)] over integers. *)
Definition sum (xs : list Z) : Z := fold_left Z.add xs 0.

(** Truth value of an object ([if x], [not x]). *)
Definition truthy (v : pyval) : bool :=
  match v with
  | PNone => false
  | PBool b => b
  | PInt z => negb (z =? 0)
  | PStr s => negb (String.eqb s "")
  | PList l => match l with [] => false | _ => true end
  | PDict d => match d with [] => false | _ => true end
  end.

(** [type(v).__name__]. *)
Definition type_name (v : pyval) : string :=
  match v with
  | PNone => "NoneType"
  | PBool _ => "bool"
  | PInt _ => "int"
  | PStr _ => "str"
  | PList _ => "list"
  | PDict _ => "dict"
  end.

(** ** Text of values: [str], [repr] *)

(** Decimal text of an integer. *)
Definition str_int (z : Z) : string := NilZero.string_of_int (Z.to_int z).

Definition chr (n : N) : string := String (ascii_of_N n) EmptyString.
Definition quote : string := chr 39.
Definition dquote : string := chr 34.
Definition backslash : string := chr 92.
Definition newline : string := chr 10.

Definition hex_digit (n : N) : string :=
  match n with
  | 0%N => "0" | 1%N => "1" | 2%N => "2" | 3%N => "3" | 4%N => "4"
  | 5%N => "5" | 6%N => "6" | 7%N => "7" | 8%N => "8" | 9%N => "9"
  | 10%N => "a" | 11%N => "b" | 12%N => "c" | 13%N => "d" | 14%N => "e"
  | _ => "f"
  end.

(** Two lowercase hexadecimal digits of a character. *)
Definition hex2 (c : ascii) : string :=
  let n := N_of_ascii c in
  hex_digit (N.div n 16) ++ hex_digit (N.modulo n 16).

(** [str.isprintable] on one character of the range 0..255. *)
Definition printable (c : ascii) : bool :=
  let n := N_of_ascii c in
  ((32 <=? n) && (n <? 127) || (161 <=? n) && negb (n =? 173))%N.

Fixpoint contains_char (c : ascii) (s : string) : bool :=
  match s with
  | EmptyString => false
  | String c' s' => Ascii.eqb c c' || contains_char c s'
  end.

(** Body of [repr(s)] when [q] is the chosen quote character. *)
Fixpoint repr_chars (q : ascii) (s : string) : string :=
  match s with
  | EmptyString => ""
  | String c s' =>
      (if Ascii.eqb c "\" then backslash ++ backslash
       else if Ascii.eqb c q then backslash ++ String q ""
       else if Ascii.eqb c "009" then backslash ++ "t"
       else if Ascii.eqb c "010" then backslash ++ "n"
       else if Ascii.eqb c "013" then backslash ++ "r"
       else if printable c then String c ""
       else backslash ++ "x" ++ hex2 c)
      ++ repr_chars q s'
  end.

(** [repr(s)]: single quotes, unless the text has a single quote and no
    double quote. *)
Definition repr_str (s : string) : string :=
  let q := if contains_char "039" s && negb (contains_char "034" s)
           then "034"%char else "039"%char in
  String q "" ++ repr_chars q s ++ String q "".

Fixpoint join (sep : string) (l : list string) : string :=
  match l with
  | [] => ""
  | [x] => x
  | x :: l' => x ++ sep ++ join sep l'
  end.

Fixpoint repr (v : pyval) : string :=
  match v with
  | PNone => "None"
  | PBool true => "True"
  | PBool false => "False"
  | PInt z => str_int z
  | PStr s => repr_str s
  | PList l => "[" ++ join ", " (map repr l) ++ "]"
  | PDict d =>
      "{" ++ join ", " (map (fun kv => repr_str (fst kv) ++ ": " ++ repr (snd kv)) d)
          ++ "}"
  end.

(** [str(v)], also what an f-string inserts for [{v}]. *)
Definition str (v : pyval) : string :=
  match v with
  | PStr s => s
  | _ => repr v
  end.

(** ** [json.dumps] *)

(** Escapes of [json.dumps] with its default [ensure_ascii=True]: the
    characters from space to tilde stay, except the double quote and the
    backslash. *)
Fixpoint json_escape (s : string) : string :=
  match s with
  | EmptyString => ""
  | String c s' =>
      (if Ascii.eqb c "034" then backslash ++ dquote
       else if Ascii.eqb c "\" then backslash ++ backslash
       else if Ascii.eqb c "010" then backslash ++ "n"
       else if Ascii.eqb c "013" then backslash ++ "r"
       else if Ascii.eqb c "009" then backslash ++ "t"
       else if Ascii.eqb c "008" then backslash ++ "b"
       else if Ascii.eqb c "012" then backslash ++ "f"
       else if ((32 <=? N_of_ascii c) && (N_of_ascii c <=? 126))%N
            then String c ""
       else backslash ++ "u00" ++ hex2 c)
      ++ json_escape s'
  end.

Definition json_string (s : string) : string :=
  dquote ++ json_escape s ++ dquote.

Fixpoint spaces (n : nat) : string :=
  match n with
  | O => ""
  | S n' => " " ++ spaces n'
  end.

(** [json.dumps(v, indent=indent)] at nesting depth [depth].  Without
    [indent] the separators are [", "] and [": "]; with it they are [","]
    and [": "], every item starts a line of its own, and an empty list or
    dictionary is still written [[]] or [{}]. *)
Fixpoint dumps_at (indent : option nat) (depth : nat) (v : pyval) : string :=
  let open_line :=
    match indent with
    | None => ""
    | Some n => newline ++ spaces (n * S depth)
    end in
  let close_line :=
    match indent with
    | None => ""
    | Some n => newline ++ spaces (n * depth)
    end in
  let item_sep :=
    match indent with
    | None => ", "
    | Some _ => "," ++ open_line
    end in
  match v with
  | PNone => "null"
  | PBool true => "true"
  | PBool false => "false"
  | PInt z => str_int z
  | PStr s => json_string s
  | PList [] => "[]"
  | PList l =>
      "[" ++ open_line
          ++ join item_sep (map (dumps_at indent (S depth)) l)
          ++ close_line ++ "]"
  | PDict [] => "{}"
  | PDict d =>
      "{" ++ open_line
          ++ join item_sep
               (map (fun kv => json_string (fst kv) ++ ": "
                               ++ dumps_at indent (S depth) (snd kv)) d)
          ++ close_line ++ "}"
  end.

Definition json_dumps (indent : option nat) (v : pyval) : string :=
  dumps_at indent 0 v.

End Py.

(* ===================================================================== *)
(** * The environment and the monad of effects                            *)
(* ===================================================================== *)

Module Env.
Import Py.

(** ** Exceptions *)

(** The exception classes that occur.  [RequestException] stands for
    [requests.exceptions.RequestException] and all its subclasses
    ([ConnectionError], [HTTPError], [JSONDecodeError], ...); the other
    classes are Python's own ([ValueError] also stands for its subclass
    [json.JSONDecodeError]). *)
Inductive exn_class : Type :=
| Exception
| KeyError
| TypeError
| AttributeError
| ValueError
| RequestException.

(** An exception object: its class and [str(e)]. *)
Record exn : Type := Exn { exn_type : exn_class; exn_str : string }.

(** [except Exception]: every class above derives from [Exception]. *)
Definition is_Exception (c : exn_class) : bool := true.

(** [except requests.exceptions.RequestException]. *)
Definition is_RequestException (c : exn_class) : bool :=
  match c with RequestException => true | _ => false end.

(** ** HTTP *)

Record request : Type := Request {
  req_method : string;
  req_url : string;
  req_headers : dict string;
  req_params : dict pyval;
  req_json : option pyval
}.

(** What arrives: [body] is the decoded JSON document, or the message of
    the decoding error when the text is not JSON. *)
Record response : Type := Response {
  status_code : Z;
  reason : string;
  url : string;
  text : string;
  body : string + pyval
}.

(** What one HTTP call meets: an answer, or a failure of the transport
    ([requests] raises [ConnectionError], [Timeout], ...) with its text. *)
Inductive outcome : Type :=
| Answer (r : response)
| Failure (msg : string).

(** ** Threads *)

(** A started thread is kept as its target and arguments; it is not run
    inside the handler that started it. *)
Inductive task : Type :=
| HandleResourceUpdate (resource_type : string) (resource_data : pyval)
                       (action : string)
| RunSync (resource_type : string).

(** ** The world *)

Record world : Type := World {
  network : list outcome;   (* outcomes of the HTTP calls still to come *)
  sent : list request;      (* HTTP requests made so far, oldest first *)
  console : list string;    (* lines printed so far *)
  files : dict string;      (* path |-> content *)
  clock : nat -> string;    (* the n-th reading of the clock, as ISO text *)
  ticks : nat;              (* readings taken so far *)
  threads : list task       (* threads started so far *)
}.

(** ** The monad *)

(** A computation returns, raises, or exceeds the bound of a loop of the
    model ([Diverge]; the loops below are given a bound that is shown to
    suffice).  The world it leaves behind is kept in all three cases. *)
Inductive result (A : Type) : Type :=
| Return (a : A)
| Raise (e : exn)
| Diverge.
Arguments Return {A} a.
Arguments Raise {A} e.
Arguments Diverge {A}.

Definition M (A : Type) : Type := world -> result A * world.

Definition ret {A : Type} (a : A) : M A := fun w => (Return a, w).

Definition bind {A B : Type} (m : M A) (f : A -> M B) : M B :=
  fun w =>
    match m w with
    | (Return a, w') => f a w'
    | (Raise e, w') => (Raise e, w')
    | (Diverge, w') => (Diverge, w')
    end.

Definition raise {A : Type} (c : exn_class) (msg : string) : M A :=
  fun w => (Raise (Exn c msg), w).

Definition diverge {A : Type} : M A := fun w => (Diverge, w).

(** [try: m  except <classes> as e: handler e]. *)
Definition try_except {A : Type} (m : M A) (classes : exn_class -> bool)
    (handler : exn -> M A) : M A :=
  fun w =>
    match m w with
    | (Raise e, w') =>
        if classes (exn_type e) then handler e w' else (Raise e, w')
    | r => r
    end.

Declare Scope monad_scope.
Delimit Scope monad_scope with monad.
Notation "x <- m ;; k" := (bind m (fun x => k))
  (at level 100, m at next level, right associativity) : monad_scope.
Notation "m ;;; k" := (bind m (fun _ => k))
  (at level 100, right associativity) : monad_scope.
Local Open Scope monad_scope.

(** [for x in xs: acc = body(acc, x)]. *)
Fixpoint for_each {A B : Type} (xs : list A) (acc : B) (body : B -> A -> M B)
    : M B :=
  match xs with
  | [] => ret acc
  | x :: xs' => acc' <- body acc x ;; for_each xs' acc' body
  end.

(** [[f(x) for x in xs]]. *)
Definition comprehension {A B : Type} (f : A -> M B) (xs : list A) : M (list B) :=
  for_each xs [] (fun acc x => y <- f x ;; ret (acc ++ [y])%list).

(** ** Operations on the world *)

Definition print (line : string) : M unit :=
  fun w => (Return tt,
            World (network w) (sent w) (console w ++ [line])%list (files w)
                  (clock w) (ticks w) (threads w)).

(** [datetime.now().isoformat()] (and [utcnow]). *)
Definition now_isoformat : M string :=
  fun w => (Return (clock w (ticks w)),
            World (network w) (sent w) (console w) (files w)
                  (clock w) (S (ticks w)) (threads w)).

(** [open(path, 'a').write(s)]. *)
Definition append_file (path s : string) : M unit :=
  fun w =>
    let old := match dict_get (files w) path with Some c => c | None => "" end in
    (Return tt,
     World (network w) (sent w) (console w) (dict_set (files w) path (old ++ s))
           (clock w) (ticks w) (threads w)).

(** [open(path, 'w').write(s)]. *)
Definition write_file (path s : string) : M unit :=
  fun w =>
    (Return tt,
     World (network w) (sent w) (console w) (dict_set (files w) path s)
           (clock w) (ticks w) (threads w)).

(** [threading.Thread(target=..., args=...).start()]. *)
Definition start_thread (t : task) : M unit :=
  fun w =>
    (Return tt,
     World (network w) (sent w) (console w) (files w)
           (clock w) (ticks w) (threads w ++ [t])%list).

(** One HTTP call: the request is recorded and the next outcome of the
    network is consumed; when none is left the connection fails. *)
Definition http (r : request) : M response :=
  fun w =>
    let w' out := World out (sent w ++ [r])%list (console w) (files w)
                        (clock w) (ticks w) (threads w) in
    match network w with
    | Answer a :: rest => (Return a, w' rest)
    | Failure msg :: rest => (Raise (Exn RequestException msg), w' rest)
    | [] => (Raise (Exn RequestException "Connection refused"), w' [])
    end.

(** [response.json()]; the decoding error of [requests] is a
    [RequestException] ([requests.exceptions.JSONDecodeError]). *)
Definition response_json (r : response) : M pyval :=
  match body r with
  | inr v => ret v
  | inl msg => raise RequestException msg
  end.

(** [response.raise_for_status()]. *)
Definition raise_for_status (r : response) : M unit :=
  if (400 <=? status_code r) && (status_code r <? 500) then
    raise RequestException
          (str_int (status_code r) ++ " Client Error: " ++ reason r
           ++ " for url: " ++ url r)
  else if (500 <=? status_code r) && (status_code r <? 600) then
    raise RequestException
          (str_int (status_code r) ++ " Server Error: " ++ reason r
           ++ " for url: " ++ url r)
  else ret tt.

(** ** Operations on values that can raise *)

(** [v[k]] for a string [k]. *)
Definition getitem (v : pyval) (k : string) : M pyval :=
  match v with
  | PDict d =>
      match dict_get d k with
      | Some x => ret x
      | None => raise KeyError (repr_str k)
      end
  | PList _ => raise TypeError "list indices must be integers or slices, not str"
  | PStr _ => raise TypeError "string indices must be integers, not 'str'"
  | _ => raise TypeError ("'" ++ type_name v ++ "' object is not subscriptable")
  end.

(** [v.get(k, default)]. *)
Definition get (v : pyval) (k : string) (default : pyval) : M pyval :=
  match v with
  | PDict d =>
      match dict_get d k with
      | Some x => ret x
      | None => ret default
      end
  | _ => raise AttributeError
               ("'" ++ type_name v ++ "' object has no attribute 'get'")
  end.

Fixpoint chars (s : string) : list pyval :=
  match s with
  | EmptyString => []
  | String c s' => PStr (String c "") :: chars s'
  end.

(** The items [for x in v] goes through. *)
Definition iter (v : pyval) : M (list pyval) :=
  match v with
  | PList l => ret l
  | PDict d => ret (map PStr (dict_keys d))
  | PStr s => ret (chars s)
  | _ => raise TypeError ("'" ++ type_name v ++ "' object is not iterable")
  end.

(** [n >= v] for an integer [n]. *)
Definition int_ge (n : Z) (v : pyval) : M bool :=
  match v with
  | PInt z => ret (z <=? n)
  | PBool b => ret ((if b then 1 else 0) <=? n)
  | _ => raise TypeError
               ("'>=' not supported between instances of 'int' and '"
                ++ type_name v ++ "'")
  end.

End Env.

(* ===================================================================== *)
(** * lib/cloudflare_fetcher.py                                           *)
(* ===================================================================== *)

Module CloudflareFetcher.
Import Py Env.
Local Open Scope monad_scope.

(** The attributes of a constructed [CloudflareFetcher].  How [__init__]
    finds them (the [op] command line tool, then the process environment)
    is not modelled: a run starts with a constructed object. *)
Record fetcher : Type := Fetcher {
  api_key : string;
  email : string;
  account_id : string
}.

Definition headers (self : fetcher) : dict string :=
  [("X-Auth-Email", email self);
   ("X-Auth-Key", api_key self);
   ("Content-Type", "application/json")].

Definition base_url : string := "https://api.cloudflare.com/client/v4".

(** [requests.get(url, headers=headers, params=params)]. *)
Definition requests_get (url : string) (headers : dict string)
    (params : dict pyval) : M response :=
  http (Request "GET" url headers params None).

(** The [while True] loop of [_paginated_fetch], with its variables [page]
    and [all_results] as arguments; [per_page] never changes.  [bound]
    limits the number of iterations of the model. *)
Fixpoint paginated_fetch_loop (self : fetcher) (endpoint : string)
    (params : option (dict pyval)) (per_page : Z)
    (bound : nat) (page : Z) (all_results : list pyval) : M (list pyval) :=
  match bound with
  | O => diverge
  | S bound' =>
      let request_params := [("page", PInt page); ("per_page", PInt per_page)] in
      let request_params :=
        match params with
        | Some (p :: ps) => dict_update request_params (p :: ps)
        | _ => request_params
        end in
      response <- requests_get (base_url ++ "/" ++ endpoint) (headers self)
                               request_params ;;
      if negb (status_code response =? 200) then
        raise Exception ("API error: " ++ str_int (status_code response)
                         ++ " - " ++ text response)
      else
        data <- response_json response ;;
        success <- getitem data "success" ;;
        if negb (truthy success) then
          errors <- get data "errors" (PStr "Unknown error") ;;
          raise Exception ("API request failed: " ++ str errors)
        else
          result <- getitem data "result" ;;
          items <- iter result ;;
          let all_results := (all_results ++ items)%list in
          result_info <- get data "result_info" (PDict []) ;;
          total_count <- get result_info "total_count" (PInt 0) ;;
          stop <- int_ge (page * per_page) total_count ;;
          if stop then ret all_results
          else paginated_fetch_loop self endpoint params per_page
                                    bound' (page + 1) all_results
  end.

(** Every iteration consumes one outcome of the network, and a call on an
    exhausted network raises: one more iteration than there are outcomes
    left is a bound that is never reached. *)
Definition _paginated_fetch (self : fetcher) (endpoint : string)
    (params : option (dict pyval)) : M (list pyval) :=
  fun w =>
    paginated_fetch_loop self endpoint params 50
                         (S (List.length (network w))) 1 [] w.

Definition get_domains (self : fetcher) : M (list pyval) :=
  let params := [("account.id", PStr (account_id self));
                 ("status", PStr "active,pending,initializing,moved")] in
  zones <- _paginated_fetch self "zones" (Some params) ;;
  comprehension (fun zone =>
    id <- getitem zone "id" ;;
    name <- getitem zone "name" ;;
    status <- getitem zone "status" ;;
    type <- getitem zone "type" ;;
    name_servers <- get zone "name_servers" (PList []) ;;
    created_on <- getitem zone "created_on" ;;
    modified_on <- getitem zone "modified_on" ;;
    plan <- get zone "plan" (PDict []) ;;
    plan_name <- get plan "name" (PStr "free") ;;
    ret (PDict [("id", id); ("name", name); ("status", status);
                ("type", type); ("name_servers", name_servers);
                ("created_on", created_on); ("modified_on", modified_on);
                ("plan", plan_name); ("resource_type", PStr "domain")]))
    zones.

Definition get_workers (self : fetcher) : M (list pyval) :=
  let endpoint := "accounts/" ++ account_id self ++ "/workers/scripts" in
  scripts <- _paginated_fetch self endpoint None ;;
  for_each scripts [] (fun workers script =>
    script_id <- getitem script "id" ;;
    detail_response <-
      requests_get (base_url ++ "/accounts/" ++ account_id self
                    ++ "/workers/scripts/" ++ str script_id)
                   (headers self) [] ;;
    if status_code detail_response =? 200 then
      detail_data <- response_json detail_response ;;
      success <- getitem detail_data "success" ;;
      if truthy success then
        script_detail <- getitem detail_data "result" ;;
        id <- getitem script "id" ;;
        name <- getitem script "id" ;;
        created_on <- get script "created_on" (PStr "") ;;
        modified_on <- get script "modified_on" (PStr "") ;;
        usage_model <- get script "usage_model" (PStr "bundled") ;;
        routes <- get script_detail "routes" (PList []) ;;
        handlers <- get script_detail "handlers" (PList []) ;;
        ret (workers ++
             [PDict [("id", id); ("name", name); ("created_on", created_on);
                     ("modified_on", modified_on);
                     ("usage_model", usage_model); ("routes", routes);
                     ("handlers", handlers);
                     ("resource_type", PStr "worker")]])%list
      else ret workers
    else ret workers).

Definition get_pages (self : fetcher) : M (list pyval) :=
  let endpoint := "accounts/" ++ account_id self ++ "/pages/projects" in
  projects <- _paginated_fetch self endpoint None ;;
  comprehension (fun project =>
    id <- getitem project "id" ;;
    name <- getitem project "name" ;;
    subdomain <- get project "subdomain" (PStr "") ;;
    domains <- get project "domains" (PList []) ;;
    created_on <- get project "created_on" (PStr "") ;;
    deployments <- get project "production_deployments" (PDict []) ;;
    latest <- get deployments "latest_deployment" (PDict []) ;;
    modified_on <- get latest "created_on" (PStr "") ;;
    source <- get project "source" (PDict []) ;;
    build_config <- get project "build_config" (PDict []) ;;
    deployment_configs <- get project "deployment_configs" (PDict []) ;;
    deployments' <- get project "production_deployments" (PDict []) ;;
    latest_deployment <- get deployments' "latest_deployment" (PDict []) ;;
    ret (PDict [("id", id); ("name", name); ("subdomain", subdomain);
                ("domains", domains); ("created_on", created_on);
                ("modified_on", modified_on); ("source", source);
                ("build_config", build_config);
                ("deployment_configs", deployment_configs);
                ("latest_deployment", latest_deployment);
                ("resource_type", PStr "pages")]))
    projects.

Definition get_r2_buckets (self : fetcher) : M (list pyval) :=
  let endpoint := "accounts/" ++ account_id self ++ "/r2/buckets" in
  response <- requests_get (base_url ++ "/" ++ endpoint) (headers self) [] ;;
  if negb (status_code response =? 200) then ret []
  else
    data <- response_json response ;;
    success <- get data "success" PNone ;;
    if negb (truthy success) then ret []
    else
      result <- get data "result" (PDict []) ;;
      buckets <- get result "buckets" (PList []) ;;
      buckets <- iter buckets ;;
      comprehension (fun bucket =>
        id <- getitem bucket "name" ;;
        name <- getitem bucket "name" ;;
        created_on <- get bucket "creation_date" (PStr "") ;;
        location <- get bucket "location" (PDict []) ;;
        location_name <- get location "name" (PStr "auto") ;;
        ret (PDict [("id", id); ("name", name); ("created_on", created_on);
                    ("location", location_name);
                    ("resource_type", PStr "r2_bucket")]))
        buckets.

Definition get_kv_namespaces (self : fetcher) : M (list pyval) :=
  let endpoint := "accounts/" ++ account_id self ++ "/storage/kv/namespaces" in
  namespaces <- _paginated_fetch self endpoint None ;;
  comprehension (fun ns =>
    id <- getitem ns "id" ;;
    name <- getitem ns "title" ;;
    created_on <- get ns "created_on" (PStr "") ;;
    modified_on <- get ns "modified_on" (PStr "") ;;
    ret (PDict [("id", id); ("name", name); ("created_on", created_on);
                ("modified_on", modified_on);
                ("resource_type", PStr "kv_namespace")]))
    namespaces.

Definition get_durable_objects (self : fetcher) : M (list pyval) :=
  let endpoint :=
    "accounts/" ++ account_id self ++ "/workers/durable_objects/namespaces" in
  namespaces <- _paginated_fetch self endpoint None ;;
  comprehension (fun ns =>
    id <- getitem ns "id" ;;
    name <- getitem ns "name" ;;
    script <- get ns "script" (PStr "") ;;
    class <- get ns "class" (PStr "") ;;
    created_on <- get ns "created_on" (PStr "") ;;
    modified_on <- get ns "modified_on" (PStr "") ;;
    ret (PDict [("id", id); ("name", name); ("script", script);
                ("class", class); ("created_on", created_on);
                ("modified_on", modified_on);
                ("resource_type", PStr "durable_object")]))
    namespaces.

(** One block
    [try: resources[key] = get() except Exception as e: print(...)]. *)
Definition try_fetch (key label : string) (get : M (list pyval))
    (resources : dict (list pyval)) : M (dict (list pyval)) :=
  try_except
    (fetched <- get ;; ret (dict_set resources key fetched))
    is_Exception
    (fun e => print ("Error fetching " ++ label ++ ": " ++ exn_str e) ;;;
              ret resources).

(** The body of [get_all_resources] over the six methods it calls. *)
Definition get_all_resources_from
    (domains workers pages r2_buckets kv_namespaces durable_objects
       : M (list pyval)) : M (dict (list pyval)) :=
  let resources :=
    [("domains", []); ("workers", []); ("pages", []); ("r2_buckets", []);
     ("kv_namespaces", []); ("durable_objects", [])] in
  resources <- try_fetch "domains" "domains" domains resources ;;
  resources <- try_fetch "workers" "workers" workers resources ;;
  resources <- try_fetch "pages" "pages" pages resources ;;
  resources <- try_fetch "r2_buckets" "R2 buckets" r2_buckets resources ;;
  resources <- try_fetch "kv_namespaces" "KV namespaces" kv_namespaces
                         resources ;;
  resources <- try_fetch "durable_objects" "Durable Objects" durable_objects
                         resources ;;
  ret resources.

Definition get_all_resources (self : fetcher) : M (dict (list pyval)) :=
  get_all_resources_from
    (get_domains self) (get_workers self) (get_pages self)
    (get_r2_buckets self) (get_kv_namespaces self) (get_durable_objects self).

End CloudflareFetcher.

(* ===================================================================== *)
(** * lib/registry_updater.py                                             *)
(* ===================================================================== *)

Module RegistryUpdater.
Import Py Env.
Local Open Scope monad_scope.

Record updater : Type := Updater {
  api_url : string;
  api_key : option string;
  session_headers : dict string   (* what [__init__] put on the session *)
}.

(** [s.rstrip('/')]. *)
Fixpoint rstrip_slash (s : string) : string :=
  match s with
  | EmptyString => ""
  | String c s' =>
      match rstrip_slash s' with
      | EmptyString => if Ascii.eqb c "/" then "" else String c ""
      | rest => String c rest
      end
  end.

Definition default_api_url : string := "https://chitty.cc/registry".

(** [RegistryUpdater(api_url, api_key)]. *)
Definition __init__ (api_url : string) (api_key : option string) : updater :=
  Updater (rstrip_slash api_url) api_key
          match api_key with
          | Some (String c k) =>
              [("Authorization", "Bearer " ++ String c k);
               ("Content-Type", "application/json")]
          | _ => []
          end.

Definition session_post (self : updater) (endpoint : string) (json : pyval)
    : M response :=
  http (Request "POST" endpoint (session_headers self) [] (Some json)).

Definition session_patch (self : updater) (endpoint : string) (json : pyval)
    : M response :=
  http (Request "PATCH" endpoint (session_headers self) [] (Some json)).

Definition session_delete (self : updater) (endpoint : string) : M response :=
  http (Request "DELETE" endpoint (session_headers self) [] None).

Definition session_get (self : updater) (endpoint : string) : M response :=
  http (Request "GET" endpoint (session_headers self) [] None).

(** [d.get(k)] on a dictionary: [None] when the key is missing. *)
Definition dget (d : dict pyval) (k : string) : pyval :=
  match dict_get d k with Some v => v | None => PNone end.

(** The record sent for one resource, without its time stamp. *)
Definition resource_entry (r : dict pyval) : dict pyval :=
  [("id", dget r "id");
   ("name", dget r "name");
   ("type", dget r "resource_type");
   ("provider", PStr "cloudflare");
   ("metadata", PDict [("status", dget r "status");
                       ("created_on", dget r "created_on");
                       ("modified_on", dget r "modified_on");
                       ("details", PDict r)])].

Definition register_resource (self : updater) (resource : dict pyval)
    : M pyval :=
  let endpoint := api_url self ++ "/api/resources" in
  timestamp <- now_isoformat ;;
  let payload :=
    PDict (resource_entry resource ++ [("timestamp", PStr timestamp)])%list in
  try_except
    (response <- session_post self endpoint payload ;;
     raise_for_status response ;;;
     response_json response)
    is_RequestException
    (fun e => ret (PDict [("success", PBool false);
                          ("error", PStr (exn_str e));
                          ("resource", dget resource "name")])).

Definition update_resource (self : updater) (resource_id : pyval)
    (updates : dict pyval) : M pyval :=
  let endpoint := api_url self ++ "/api/resources/" ++ str resource_id in
  timestamp <- now_isoformat ;;
  let payload :=
    PDict [("updates", PDict updates); ("timestamp", PStr timestamp)] in
  try_except
    (response <- session_patch self endpoint payload ;;
     raise_for_status response ;;;
     response_json response)
    is_RequestException
    (fun e => ret (PDict [("success", PBool false);
                          ("error", PStr (exn_str e));
                          ("resource_id", resource_id)])).

Definition delete_resource (self : updater) (resource_id : pyval) : M pyval :=
  let endpoint := api_url self ++ "/api/resources/" ++ str resource_id in
  try_except
    (response <- session_delete self endpoint ;;
     raise_for_status response ;;;
     response_json response)
    is_RequestException
    (fun e => ret (PDict [("success", PBool false);
                          ("error", PStr (exn_str e));
                          ("resource_id", resource_id)])).

Definition bulk_register (self : updater) (resources : list (dict pyval))
    : M pyval :=
  let endpoint := api_url self ++ "/api/resources/bulk" in
  timestamp <- now_isoformat ;;
  let payload :=
    PDict [("resources",
            PList (map (fun r => PDict (resource_entry r)) resources));
           ("timestamp", PStr timestamp)] in
  try_except
    (response <- session_post self endpoint payload ;;
     raise_for_status response ;;;
     response_json response)
    is_RequestException
    (fun e => ret (PDict [("success", PBool false);
                          ("error", PStr (exn_str e));
                          ("count", PInt (len resources))])).

Definition sync_resources (self : updater) (resource_type : string)
    (resources : list pyval) : M pyval :=
  let endpoint := api_url self ++ "/api/sync/" ++ resource_type in
  timestamp <- now_isoformat ;;
  let payload :=
    PDict [("provider", PStr "cloudflare");
           ("resources", PList resources);
           ("sync_mode", PStr "full");
           ("timestamp", PStr timestamp)] in
  try_except
    (response <- session_post self endpoint payload ;;
     raise_for_status response ;;;
     response_json response)
    is_RequestException
    (fun e => ret (PDict [("success", PBool false);
                          ("error", PStr (exn_str e));
                          ("resource_type", PStr resource_type);
                          ("count", PInt (len resources))])).

(** [health_check]: its bare [except:] catches everything. *)
Definition health_check (self : updater) : M bool :=
  try_except
    (response <- session_get self (api_url self ++ "/health") ;;
     ret (status_code response =? 200))
    (fun _ => true)
    (fun _ => ret false).

End RegistryUpdater.

(* ===================================================================== *)
(** * python/sync_all.py                                                  *)
(* ===================================================================== *)

Module SyncAll.
Import Py Env.
Local Open Scope monad_scope.

(** The dictionary [summary] of [sync_all_resources]. *)
Record summary : Type := Summary {
  timestamp : string;
  synced : dict Z;
  errors : dict pyval;
  total : Z
}.

(** [summary] as the value handed to [json.dumps]. *)
Definition summary_value (s : summary) : pyval :=
  PDict [("timestamp", PStr (timestamp s));
         ("synced", PDict (map (fun kv => (fst kv, PInt (snd kv))) (synced s)));
         ("errors", PDict (errors s));
         ("total", PInt (total s))].

(** [summary['synced'][key] = count]. *)
Definition set_synced (s : summary) (key : string) (count : Z) : summary :=
  Summary (timestamp s) (dict_set (synced s) key count) (errors s) (total s).

(** [summary['errors'][key] = error]. *)
Definition set_error (s : summary) (key : string) (error : pyval) : summary :=
  Summary (timestamp s) (synced s) (dict_set (errors s) key error) (total s).

(** [summary['total'] = n]. *)
Definition set_total (s : summary) (n : Z) : summary :=
  Summary (timestamp s) (synced s) (errors s) n.

Definition available_types : dict string :=
  [("domains", "domain");
   ("workers", "worker");
   ("pages", "pages");
   ("r2_buckets", "r2_bucket");
   ("kv_namespaces", "kv_namespace");
   ("durable_objects", "durable_object")].

Fixpoint repeat_string (s : string) (n : nat) : string :=
  match n with
  | O => ""
  | S n' => s ++ repeat_string s n'
  end.

(** ['='*60]. *)
Definition rule : string := repeat_string "=" 60.

(** One iteration of [for resource_key in types_to_sync].  The console
    texts are the bytes of the source's literals. *)
Definition sync_kind (registry : RegistryUpdater.updater)
    (all_resources : dict (list pyval)) (summary : summary)
    (resource_key : string) : M SyncAll.summary :=
  match dict_get available_types resource_key with
  | None =>
      print ("⚠ Unknown resource type: " ++ resource_key) ;;;
      ret summary
  | Some resource_type =>
      let resources :=
        match dict_get all_resources resource_key with
        | Some l => l
        | None => []
        end in
      match resources with
      | [] =>
          print ("→ No " ++ resource_key ++ " found to sync") ;;;
          ret summary
      | _ :: _ =>
          print (newline ++ "→ Syncing " ++ str_int (len resources) ++ " "
                 ++ resource_key ++ "...") ;;;
          try_except
            (result <- RegistryUpdater.sync_resources registry resource_type
                                                      resources ;;
             success <- get result "success" (PBool false) ;;
             if truthy success then
               print ("  ✓ Successfully synced " ++ str_int (len resources)
                      ++ " " ++ resource_key) ;;;
               ret (set_synced summary resource_key (len resources))
             else
               shown <- get result "error" PNone ;;
               print ("  ✗ Failed to sync " ++ resource_key ++ ": "
                      ++ str shown) ;;;
               error <- get result "error" PNone ;;
               ret (set_error summary resource_key error))
            is_Exception
            (fun e =>
               print ("  ✗ Error syncing " ++ resource_key ++ ": "
                      ++ exn_str e) ;;;
               ret (set_error summary resource_key (PStr (exn_str e))))
      end
  end.

(** The loop [for resource_key in types_to_sync]. *)
Definition sync_kinds (registry : RegistryUpdater.updater)
    (all_resources : dict (list pyval)) (types_to_sync : list string)
    (summary : summary) : M SyncAll.summary :=
  for_each types_to_sync summary (sync_kind registry all_resources).

(** From [summary = {...}] to [summary['total'] = ...]: the summary of
    the resources fetched. *)
Definition sync_fetched (registry : RegistryUpdater.updater)
    (all_resources : dict (list pyval))
    (resource_types : option (list string)) : M summary :=
  stamp <- now_isoformat ;;
  let summary := Summary stamp [] [] 0 in
  let types_to_sync :=
    match resource_types with
    | Some (t :: ts) => t :: ts
    | _ => dict_keys available_types
    end in
  summary <- sync_kinds registry all_resources types_to_sync summary ;;
  ret (set_total summary (sum (dict_values (synced summary)))).

(** [sync_all_resources] up to [summary['total'] = ...], over the call
    [cf.get_all_resources()]: the resources fetched and the finished
    summary. *)
Definition sync_all_resources_summary_with
    (get_all_resources : M (dict (list pyval)))
    (resource_types : option (list string))
    : M (dict (list pyval) * summary) :=
  print (newline ++ rule) ;;;
  print "Cloudflare → Registry.chitty.cc Sync" ;;;
  started <- now_isoformat ;;
  print ("Started at: " ++ started) ;;;
  print (rule ++ newline) ;;;
  let registry :=
    RegistryUpdater.__init__ RegistryUpdater.default_api_url None in
  healthy <- RegistryUpdater.health_check registry ;;
  (if negb healthy
   then print "⚠ Registry health check failed, continuing anyway..."
   else ret tt) ;;;
  all_resources <- get_all_resources ;;
  summary <- sync_fetched registry all_resources resource_types ;;
  ret (all_resources, summary).

(** The same for the constructed [cf = CloudflareFetcher()]. *)
Definition sync_all_resources_summary (cf : CloudflareFetcher.fetcher)
    (resource_types : option (list string))
    : M (dict (list pyval) * summary) :=
  sync_all_resources_summary_with (CloudflareFetcher.get_all_resources cf)
                                  resource_types.

(** The rest of [sync_all_resources]: the log, the snapshot, the report
    and the returned status. *)
Definition sync_all_resources_finish (all_resources : dict (list pyval))
    (summary : summary) : M Z :=
  append_file "sync_all.log"
              (json_dumps (Some 2%nat) (summary_value summary) ++ newline) ;;;
  stamp <- now_isoformat ;;
  write_file "full_sync_snapshot.json"
    (json_dumps (Some 2%nat)
       (PDict [("timestamp", PStr stamp);
               ("resources",
                PDict (map (fun kv => (fst kv, PList (snd kv))) all_resources));
               ("summary", summary_value summary)])) ;;;
  print (newline ++ rule) ;;;
  print "Sync Complete!" ;;;
  print ("✓ Synced: " ++ str_int (total summary) ++ " total resources") ;;;
  for_each (synced summary) tt
    (fun _ kv => print ("  • " ++ fst kv ++ ": " ++ str_int (snd kv))) ;;;
  (match errors summary with
   | [] => ret tt
   | _ :: _ =>
       print (newline ++ "✗ Errors encountered:") ;;;
       for_each (errors summary) tt
         (fun _ kv => print ("  • " ++ fst kv ++ ": " ++ str (snd kv)))
   end) ;;;
  finished <- now_isoformat ;;
  print (newline ++ "Finished at: " ++ finished) ;;;
  print (rule ++ newline) ;;;
  ret (match errors summary with [] => 0 | _ :: _ => 1 end).

Definition sync_all_resources (cf : CloudflareFetcher.fetcher)
    (resource_types : option (list string)) : M Z :=
  run <- sync_all_resources_summary cf resource_types ;;
  sync_all_resources_finish (fst run) (snd run).

End SyncAll.

(* ===================================================================== *)
(** * python/webhook_listener.py                                          *)
(* ===================================================================== *)

Module WebhookListener.
Import Py Env.
Local Open Scope monad_scope.

(** What the handlers read of [flask.request]: the two headers they ask
    for (absent or present) and the raw body. *)
Record flask_request : Type := FlaskRequest {
  x_signature_256 : option string;
  x_api_key : option string;
  get_data : string
}.

(** [request.headers.get(name, '')]. *)
Definition header_or_empty (h : option string) : string :=
  match h with Some v => v | None => "" end.

(** [str.isascii]. *)
Fixpoint isascii (s : string) : bool :=
  match s with
  | EmptyString => true
  | String c s' => (N_of_ascii c <? 128)%N && isascii s'
  end.

(** [hmac.compare_digest] on two [str]: equality, for texts that are
    ASCII only; any other text is refused with a [TypeError]. *)
Definition compare_digest (a b : string) : M bool :=
  if isascii a && isascii b then ret (String.eqb a b)
  else raise TypeError
             "comparing strings with non-ASCII characters is not supported".

(** [digest.hex()]: two lowercase hexadecimal digits per byte. *)
Fixpoint hex (digest : string) : string :=
  match digest with
  | EmptyString => ""
  | String c rest => hex2 c ++ hex rest
  end.

(** [s.encode()]: UTF-8 of a text whose code points are below 256. *)
Fixpoint encode (s : string) : string :=
  match s with
  | EmptyString => ""
  | String c s' =>
      let n := N_of_ascii c in
      (if (n <? 128)%N then String c ""
       else String (ascii_of_N (192 + N.div n 64))
                   (String (ascii_of_N (128 + N.modulo n 64)) ""))
      ++ encode s'
  end.

(** [s.upper()] for the ASCII letters. *)
Fixpoint upper (s : string) : string :=
  match s with
  | EmptyString => ""
  | String c s' =>
      let n := N_of_ascii c in
      String (if ((97 <=? n) && (n <=? 122))%N then ascii_of_N (n - 32) else c)
             (upper s')
  end.

Definition event_mapping : dict (string * string) :=
  [("zone.created", ("domain", "create"));
   ("zone.updated", ("domain", "update"));
   ("zone.deleted", ("domain", "delete"));
   ("worker.deployed", ("worker", "update"));
   ("worker.deleted", ("worker", "delete"));
   ("pages.project.created", ("pages", "create"));
   ("pages.deployment.started", ("pages", "update"));
   ("pages.project.deleted", ("pages", "delete"))].

(** [event_mapping.get(v)] behind the test [v in event_mapping]: the keys
    are strings, a list or a dictionary cannot be hashed. *)
Definition lookup_event (v : pyval) : M (option (string * string)) :=
  match v with
  | PStr s => ret (dict_get event_mapping s)
  | PList _ | PDict _ =>
      raise TypeError ("unhashable type: '" ++ type_name v ++ "'")
  | _ => ret None
  end.

(** [v[k] = x] for a string [k]; the dictionary after the assignment. *)
Definition setitem (v : pyval) (k : string) (x : pyval) : M (dict pyval) :=
  match v with
  | PDict d => ret (dict_set d k x)
  | PList _ => raise TypeError "list indices must be integers or slices, not str"
  | _ => raise TypeError
               ("'" ++ type_name v ++ "' object does not support item assignment")
  end.

Definition valid_types : list string := ["domains"; "workers"; "pages"; "all"].

Section Listener.

(** The two settings read from the process environment when the module
    is loaded. *)
Variable WEBHOOK_SECRET : string.
Variable REGISTRY_API_KEY : string.

(** [hmac.new(key, msg, hashlib.sha256).digest()]: the 32 bytes of
    HMAC-SHA256. *)
Variable hmac_sha256 : string -> string -> string.

(** [json.loads]: the document, or the message of the [ValueError]. *)
Variable json_loads : string -> string + pyval.

Definition verify_signature (payload signature : string) : M bool :=
  let expected_signature :=
    hex (hmac_sha256 (encode WEBHOOK_SECRET) payload) in
  compare_digest expected_signature signature.

(** The target of the thread a recognised event starts. *)
Definition handle_resource_update (resource_type : string)
    (resource_data : pyval) (action : string) : M unit :=
  try_except
    (let registry :=
       RegistryUpdater.__init__ RegistryUpdater.default_api_url
                                (Some REGISTRY_API_KEY) in
     let report (resource_data result : pyval) : M unit :=
       stamp <- now_isoformat ;;
       id <- get resource_data "id" PNone ;;
       name <- get resource_data "name" id ;;
       print ("[" ++ stamp ++ "] " ++ upper action ++ " " ++ resource_type
              ++ ": " ++ str name) ;;;
       stamp <- now_isoformat ;;
       id <- get resource_data "id" PNone ;;
       append_file "webhook_events.log"
         (json_dumps None
            (PDict [("timestamp", PStr stamp);
                    ("action", PStr action);
                    ("resource_type", PStr resource_type);
                    ("resource_id", id);
                    ("result", result)])
          ++ newline) in
     if String.eqb action "delete" then
       id <- get resource_data "id" PNone ;;
       result <- RegistryUpdater.delete_resource registry id ;;
       report resource_data result
     else if String.eqb action "create" || String.eqb action "update" then
       resource <- setitem resource_data "resource_type"
                           (PStr resource_type) ;;
       result <- RegistryUpdater.register_resource registry resource ;;
       report (PDict resource) result
     else
       print ("Unknown action: " ++ action))
    is_Exception
    (fun e => print ("Error handling resource update: " ++ exn_str e)).

(** [POST /webhook/cloudflare]: the JSON body and the status of the
    reply.  An exception that leaves the handler is Flask's to report. *)
Definition cloudflare_webhook (request : flask_request) : M (pyval * Z) :=
  let signature := header_or_empty (x_signature_256 request) in
  let payload := get_data request in
  valid <- verify_signature payload signature ;;
  if negb valid then
    ret (PDict [("error", PStr "Invalid signature")], 403)
  else
    try_except
      (data <- match json_loads payload with
               | inr v => ret v
               | inl msg => raise ValueError msg
               end ;;
       event <- get data "event" (PDict []) ;;
       event_type <- get event "type" (PStr "") ;;
       resource_data <- get data "data" (PDict []) ;;
       entry <- lookup_event event_type ;;
       match entry with
       | Some (resource_type, action) =>
           start_thread
             (HandleResourceUpdate resource_type resource_data action) ;;;
           ret (PDict [("status", PStr "accepted");
                       ("event", event_type);
                       ("resource_type", PStr resource_type);
                       ("action", PStr action)], 202)
       | None =>
           print ("Unhandled event type: " ++ str event_type) ;;;
           ret (PDict [("status", PStr "ignored");
                       ("event", event_type)], 200)
       end)
      is_Exception
      (fun e =>
         print ("Error processing webhook: " ++ exn_str e) ;;;
         ret (PDict [("error", PStr "Processing failed")], 500)).

(** [POST /webhook/manual-sync/<resource_type>]. *)
Definition manual_sync (resource_type : string) (request : flask_request)
    : M (pyval * Z) :=
  let api_key := header_or_empty (x_api_key request) in
  if negb (String.eqb api_key REGISTRY_API_KEY) then
    ret (PDict [("error", PStr "Unauthorized")], 401)
  else if negb (existsb (String.eqb resource_type) valid_types) then
    ret (PDict [("error",
                 PStr ("Invalid resource type. Must be one of: "
                       ++ repr (PList (map PStr valid_types))))], 400)
  else
    start_thread (RunSync resource_type) ;;;
    stamp <- now_isoformat ;;
    ret (PDict [("status", PStr "sync_started");
                ("resource_type", PStr resource_type);
                ("timestamp", PStr stamp)], 202).

End Listener.

End WebhookListener.

(** ** HMAC-SHA256, for concrete requests *)

(** The function the listener gets from [hmac] and [hashlib], after
    FIPS 180-4 and RFC 2104, on texts as strings of bytes.  The theorems
    on the listener hold for any function in its place; this one signs
    the requests of the examples. *)
Module Sha256.

Local Open Scope N_scope.

Definition mask32 : N := 4294967295.

Definition add32 (a b : N) : N := N.land (a + b) mask32.

Definition rotr (n x : N) : N :=
  N.lor (N.shiftr x n) (N.land (N.shiftl x (32 - n)) mask32).

Definition not32 (x : N) : N := N.lxor x mask32.

Definition Ch (x y z : N) : N :=
  N.lxor (N.land x y) (N.land (not32 x) z).

Definition Maj (x y z : N) : N :=
  N.lxor (N.lxor (N.land x y) (N.land x z)) (N.land y z).

Definition Sigma0 (x : N) : N :=
  N.lxor (N.lxor (rotr 2 x) (rotr 13 x)) (rotr 22 x).

Definition Sigma1 (x : N) : N :=
  N.lxor (N.lxor (rotr 6 x) (rotr 11 x)) (rotr 25 x).

Definition sigma0 (x : N) : N :=
  N.lxor (N.lxor (rotr 7 x) (rotr 18 x)) (N.shiftr x 3).

Definition sigma1 (x : N) : N :=
  N.lxor (N.lxor (rotr 17 x) (rotr 19 x)) (N.shiftr x 10).

Definition K : list N :=
  [
   1116352408; 1899447441; 3049323471; 3921009573; 961987163; 1508970993;
   2453635748; 2870763221; 3624381080; 310598401; 607225278; 1426881987;
   1925078388; 2162078206; 2614888103; 3248222580; 3835390401; 4022224774;
   264347078; 604807628; 770255983; 1249150122; 1555081692; 1996064986;
   2554220882; 2821834349; 2952996808; 3210313671; 3336571891; 3584528711;
   113926993; 338241895; 666307205; 773529912; 1294757372; 1396182291;
   1695183700; 1986661051; 2177026350; 2456956037; 2730485921; 2820302411;
   3259730800; 3345764771; 3516065817; 3600352804; 4094571909; 275423344;
   430227734; 506948616; 659060556; 883997877; 958139571; 1322822218;
   1537002063; 1747873779; 1955562222; 2024104815; 2227730452; 2361852424;
   2428436474; 2756734187; 3204031479; 3329325298
  ].

Definition H0 : list N :=
  [
   1779033703; 3144134277; 1013904242; 2773480762; 1359893119; 2600822924;
   528734635; 1541459225
  ].

Fixpoint bytes_of (s : string) : list N :=
  match s with
  | EmptyString => []
  | String c s' => N_of_ascii c :: bytes_of s'
  end.

Fixpoint string_of (bs : list N) : string :=
  match bs with
  | [] => EmptyString
  | b :: bs' => String (ascii_of_N b) (string_of bs')
  end.

(** The [k] low bytes of [n], most significant first. *)
Fixpoint big_endian (k : nat) (n : N) : list N :=
  match k with
  | O => []
  | S k' => (big_endian k' (N.shiftr n 8) ++ [N.land n 255])%list
  end.

(** The message, the byte 128, zeros up to 56 modulo 64, and the length in
    bits on 8 bytes. *)
Definition pad (bs : list N) : list N :=
  let l := N.of_nat (List.length bs) in
  let zeros := N.to_nat ((119 - l mod 64) mod 64) in
  (bs ++ 128 :: repeat 0 zeros ++ big_endian 8 (8 * l))%list.

(** The words of 4 bytes of a block. *)
Fixpoint words (bs : list N) : list N :=
  match bs with
  | a :: b :: c :: d :: rest =>
      (((a * 256 + b) * 256 + c) * 256 + d) :: words rest
  | _ => []
  end.

(** The message schedule: [n] more words after the words [w]. *)
Fixpoint schedule (n : nat) (w : list N) : list N :=
  match n with
  | O => w
  | S n' =>
      let t := List.length w in
      let at_ i := nth (t - i) w 0 in
      schedule n'
        (w ++ [add32 (add32 (sigma1 (at_ 2%nat)) (at_ 7%nat))
                     (add32 (sigma0 (at_ 15%nat)) (at_ 16%nat))])%list
  end.

Definition state : Type := (N * N * N * N * N * N * N * N)%type.

Definition round (s : state) (kw : N * N) : state :=
  let '(a, b, c, d, e, f, g, h) := s in
  let t1 := add32 (add32 (add32 h (Sigma1 e)) (add32 (Ch e f g) (fst kw)))
                  (snd kw) in
  let t2 := add32 (Sigma0 a) (Maj a b c) in
  (add32 t1 t2, a, b, c, add32 d t1, e, f, g).

Definition compress (s : state) (block : list N) : state :=
  let w := schedule 48 (words block) in
  let '(a, b, c, d, e, f, g, h) := fold_left round (combine K w) s in
  let '(a0, b0, c0, d0, e0, f0, g0, h0) := s in
  (add32 a0 a, add32 b0 b, add32 c0 c, add32 d0 d,
   add32 e0 e, add32 f0 f, add32 g0 g, add32 h0 h).

(** The blocks of 64 bytes of a padded message, at most [n] of them. *)
Fixpoint blocks (n : nat) (bs : list N) : list (list N) :=
  match n, bs with
  | S n', _ :: _ => firstn 64 bs :: blocks n' (skipn 64 bs)
  | _, _ => []
  end.

Definition sha256_bytes (bs : list N) : list N :=
  let padded := pad bs in
  let init :=
    match H0 with
    | [a; b; c; d; e; f; g; h] => (a, b, c, d, e, f, g, h)
    | _ => (0, 0, 0, 0, 0, 0, 0, 0)
    end in
  let '(a, b, c, d, e, f, g, h) :=
    fold_left compress (blocks (List.length padded) padded) init in
  flat_map (big_endian 4) [a; b; c; d; e; f; g; h].

Definition sha256 (msg : string) : string :=
  string_of (sha256_bytes (bytes_of msg)).

(** [hmac.new(key, msg, hashlib.sha256).digest()]. *)
Definition hmac_sha256 (key msg : string) : string :=
  let k := bytes_of key in
  let k := if (64 <? N.of_nat (List.length k)) then sha256_bytes k else k in
  let k := (k ++ repeat 0 (64 - List.length k))%list in
  let ipad := map (N.lxor 54) k in
  let opad := map (N.lxor 92) k in
  string_of (sha256_bytes
               (opad ++ sha256_bytes (ipad ++ bytes_of msg)))%list.

End Sha256.

(* ===================================================================== *)
(** * lib/cloudflare_fetcher.py: the constructor                          *)
(* ===================================================================== *)

Module CloudflareFetcherInit.
Import Py Env CloudflareFetcher.

(** What [subprocess.run(['op', 'read', reference], ...)] meets: the
    program ran and exited, or it could not be started ([subprocess]
    raises an [OSError], [FileNotFoundError] when [op] is not
    installed). *)
Inductive op_run : Type :=
| Exited (returncode : Z) (stdout : string)
| NotStarted (error : string).

(** What the constructor reads outside the process: the [op] command
    and the environment. *)
Record host : Type := Host {
  op_read : string -> op_run;
  environ : dict string
}.

(** [os.getenv(name, default)]. *)
Definition getenv (h : host) (name default : string) : string :=
  match dict_get (environ h) name with Some v => v | None => default end.

(** [s.split('/')[-1]]: what follows the last [/]. *)
Fixpoint last_segment (s : string) : string :=
  match s with
  | EmptyString => ""
  | String c s' =>
      if contains_char "/" s' then last_segment s'
      else if Ascii.eqb c "/" then s' else String c s'
  end.

(** [s.replace(' ', '_')]. *)
Fixpoint replace_spaces (s : string) : string :=
  match s with
  | EmptyString => ""
  | String c s' =>
      String (if Ascii.eqb c " " then "_"%char else c) (replace_spaces s')
  end.

(** [str.isspace] on one character of the range 0..255. *)
Definition isspace (c : ascii) : bool :=
  let n := N_of_ascii c in
  ((9 <=? n) && (n <=? 13) || (28 <=? n) && (n <=? 32)
   || (n =? 133) || (n =? 160))%N.

Fixpoint lstrip (s : string) : string :=
  match s with
  | EmptyString => ""
  | String c s' => if isspace c then lstrip s' else s
  end.

Fixpoint rstrip (s : string) : string :=
  match s with
  | EmptyString => ""
  | String c s' =>
      match rstrip s' with
      | EmptyString => if isspace c then "" else String c ""
      | rest => String c rest
      end
  end.

(** [s.strip()]. *)
Definition strip (s : string) : string := rstrip (lstrip s).

(** The name of the environment variable that stands in for a
    reference.  [upper] is that of ASCII text, which the references of
    the constructor are. *)
Definition variable_of (reference : string) : string :=
  replace_spaces (WebhookListener.upper (last_segment reference)).

(** [_get_secret]: the secret, or the error of the [OSError] that
    leaves the method; only [CalledProcessError], raised for an exit
    status other than 0, is handled. *)
Definition _get_secret (h : host) (reference : string) : string + string :=
  match op_read h reference with
  | Exited returncode stdout =>
      if returncode =? 0 then inr (strip stdout)
      else inr (getenv h (variable_of reference) "")
  | NotStarted error => inl error
  end.

(** [given or self._get_secret(reference)]. *)
Definition given_or_secret (h : host) (given : option string)
    (reference : string) : string + string :=
  match given with
  | Some (String c s) => inr (String c s)
  | _ => _get_secret h reference
  end.

(** [CloudflareFetcher(api_key, email, account_id)]. *)
Definition __init__ (h : host) (api_key email account_id : option string)
    : string + fetcher :=
  match given_or_secret h api_key
          "op://Claude-Code Tools/Cloudflare API KEYS/global_api_key" with
  | inl error => inl error
  | inr api_key =>
      match given_or_secret h email
              "op://Claude-Code Tools/Cloudflare API KEYS/email" with
      | inl error => inl error
      | inr email =>
          match given_or_secret h account_id
                  "op://Claude-Code Tools/Cloudflare API KEYS/account id" with
          | inl error => inl error
          | inr account_id => inr (Fetcher api_key email account_id)
          end
      end
  end.

End CloudflareFetcherInit.

(* ===================================================================== *)
(** * lib/registry_updater.py: the other methods                          *)
(* ===================================================================== *)

Module RegistryUpdaterQueries.
Import Py Env RegistryUpdater.
Local Open Scope monad_scope.

(** [self.session.get(endpoint, params=params)]. *)
Definition session_get_params (self : updater) (endpoint : string)
    (params : dict pyval) : M response :=
  http (Request "GET" endpoint (session_headers self) params None).

(** [get_registered_resources(resource_type)]; what it returns is what
    the answer holds under [resources]. *)
Definition get_registered_resources (self : updater)
    (resource_type : option string) : M pyval :=
  let endpoint := api_url self ++ "/api/resources" in
  let params := [("provider", PStr "cloudflare")] in
  let params :=
    match resource_type with
    | Some (String c s) => dict_set params "type" (PStr (String c s))
    | _ => params
    end in
  try_except
    (response <- session_get_params self endpoint params ;;
     raise_for_status response ;;;
     data <- response_json response ;;
     get data "resources" (PList []))
    is_RequestException
    (fun e =>
       print ("Error fetching registered resources: " ++ exn_str e) ;;;
       ret (PList [])).

(** [_generate_signature(payload, secret)], over the function that
    [hmac] and [hashlib] provide. *)
Definition _generate_signature (hmac_sha256 : string -> string -> string)
    (payload secret : string) : string :=
  WebhookListener.hex
    (hmac_sha256 (WebhookListener.encode secret)
                 (WebhookListener.encode payload)).

End RegistryUpdaterQueries.

(* ===================================================================== *)
(** * python/webhook_listener.py: the other handlers                      *)
(* ===================================================================== *)

Module WebhookListenerStatus.
Import Py Env WebhookListener.
Local Open Scope monad_scope.

(** [GET /health]. *)
Definition health : M (pyval * Z) :=
  stamp <- now_isoformat ;;
  ret (PDict [("status", PStr "healthy");
              ("service", PStr "cloudflare-registry-sync");
              ("timestamp", PStr stamp)], 200).

Section Status.
Variable json_loads : string -> string + pyval.

(** [GET /status].  [open] is the one statement of the [try] block that
    can raise the [FileNotFoundError] the handler catches: it does when
    there is no snapshot.  The other exceptions leave the handler. *)
Definition status : M (pyval * Z) :=
  fun w =>
    match dict_get (files w) "full_sync_snapshot.json" with
    | None =>
        ret (PDict [("status", PStr "operational");
                    ("last_sync", PNone);
                    ("message", PStr "No sync has been performed yet")], 200)
            w
    | Some text =>
        (last_sync <- match json_loads text with
                      | inr v => ret v
                      | inl msg => raise ValueError msg
                      end ;;
         stamp <- get last_sync "timestamp" PNone ;;
         summary <- get last_sync "summary" (PDict []) ;;
         total <- get summary "total" (PInt 0) ;;
         summary <- get last_sync "summary" (PDict []) ;;
         errors <- get summary "errors" (PDict []) ;;
         ret (PDict [("status", PStr "operational");
                     ("last_sync", stamp);
                     ("resources_synced", total);
                     ("errors", errors)], 200)) w
    end.

End Status.
End WebhookListenerStatus.

(* ===================================================================== *)
(** * python/sync_all.py: the command line                                *)
(* ===================================================================== *)

Module SyncAllMain.
Import Py Env.
Local Open Scope monad_scope.

(** [subprocess.CompletedProcess], as [run_hook] reads it. *)
Record completed_process : Type := CompletedProcess {
  returncode : Z;
  stdout : string;
  stderr : string
}.

(** What [parser.parse_args()] returns: the values of [--type], when the
    option is given, and whether [--hooks] is. *)
Record arguments : Type := Arguments {
  type : option (list string);
  hooks : bool
}.

(** [x in l]. *)
Definition contains (x : string) (l : list string) : bool :=
  existsb (String.eqb x) l.

(** [not args.type or 'all' in args.type]. *)
Definition wants_all (args : arguments) : bool :=
  match type args with
  | None | Some [] => true
  | Some l => contains "all" l
  end.

Section Process.

(** [sys.executable]. *)
Variable executable : string.

(** [subprocess.run(args, capture_output=True, text=True)]: what the
    program does to the world, and how it ends. *)
Variable subprocess_run : list string -> M completed_process.

Definition run_hook (hook_name : string) : M Z :=
  let hook_path := "./hooks/" ++ hook_name ++ ".py" in
  try_except
    (result <- subprocess_run [executable; hook_path] ;;
     (if returncode result =? 0 then
        print ("✓ " ++ hook_name ++ " completed successfully") ;;;
        if negb (String.eqb (stdout result) "")
        then print (stdout result) else ret tt
      else
        print ("✗ " ++ hook_name ++ " failed with code "
               ++ str_int (returncode result)) ;;;
        if negb (String.eqb (stderr result) "")
        then print (stderr result) else ret tt) ;;;
     ret (returncode result))
    is_Exception
    (fun e =>
       print ("✗ Failed to run " ++ hook_name ++ ": " ++ exn_str e) ;;;
       ret 1).

(** [main], from the parsed arguments on; [cf] is the fetcher that
    [sync_all_resources] builds. *)
Definition main (cf : CloudflareFetcher.fetcher) (args : arguments) : M Z :=
  if hooks args then
    let hooks :=
      if wants_all args then ["sync_domains"; "sync_workers"; "sync_pages"]
      else
        let chosen := match type args with Some l => l | None => [] end in
        ((if contains "domains" chosen then ["sync_domains"] else [])
         ++ (if contains "workers" chosen then ["sync_workers"] else [])
         ++ (if contains "pages" chosen then ["sync_pages"] else []))%list in
    for_each hooks 0
      (fun exit_code hook =>
         result <- run_hook hook ;;
         ret (if negb (result =? 0) then result else exit_code))
  else
    let resource_types := if wants_all args then None else type args in
    SyncAll.sync_all_resources cf resource_types.

End Process.
End SyncAllMain.

(* ===================================================================== *)
(** * python/simple_sync.py                                               *)
(* ===================================================================== *)

Module SimpleSync.
Import Py Env CloudflareFetcher.
Local Open Scope monad_scope.

(** The resources as the value handed to [json]. *)
Definition resources_value (resources : dict (list pyval)) : pyval :=
  PDict (map (fun kv => (fst kv, PList (snd kv))) resources).

Definition namespaces_url (cf : fetcher) : string :=
  "https://api.cloudflare.com/client/v4/accounts/" ++ account_id cf
  ++ "/storage/kv/namespaces".

Definition store_in_kv (cf : fetcher) (namespace_id : pyval)
    (data : dict (list pyval)) : M unit :=
  let headers := [("X-Auth-Email", email cf);
                  ("X-Auth-Key", api_key cf);
                  ("Content-Type", "application/json")] in
  let url := "https://api.cloudflare.com/client/v4/accounts/"
             ++ account_id cf ++ "/storage/kv/namespaces/"
             ++ str namespace_id ++ "/values/registry" in
  response <-
    http (Request "PUT" url headers [] (Some (resources_value data))) ;;
  if status_code response =? 200 then
    print ("✓ Stored " ++ str_int (sum (map len (dict_values data)))
           ++ " resources in KV")
  else
    print ("Failed: " ++ text response).

(** [next((ns['id'] for ns in namespaces
            if ns['title'] == 'resource-registry'), None)]. *)
Fixpoint first_registry (namespaces : list pyval) : M pyval :=
  match namespaces with
  | [] => ret PNone
  | ns :: rest =>
      title <- getitem ns "title" ;;
      match title with
      | PStr t =>
          if String.eqb t "resource-registry" then getitem ns "id"
          else first_registry rest
      | _ => first_registry rest
      end
  end.

(** The namespace of the registry: created, or looked up among the
    existing ones when the creation is refused. *)
Definition find_namespace (cf : fetcher) : M pyval :=
  response <-
    http (Request "POST" (namespaces_url cf)
                  [("X-Auth-Email", email cf);
                   ("X-Auth-Key", api_key cf);
                   ("Content-Type", "application/json")]
                  [] (Some (PDict [("title", PStr "resource-registry")]))) ;;
  if status_code response =? 200 then
    data <- response_json response ;;
    result <- getitem data "result" ;;
    namespace_id <- getitem result "id" ;;
    print ("Created KV namespace: " ++ str namespace_id) ;;;
    ret namespace_id
  else
    response <-
      http (Request "GET" (namespaces_url cf)
                    [("X-Auth-Email", email cf); ("X-Auth-Key", api_key cf)]
                    [] None) ;;
    data <- response_json response ;;
    namespaces <- getitem data "result" ;;
    namespaces <- iter namespaces ;;
    first_registry namespaces.

(** The script, for the fetcher [cf] it builds first. *)
Definition script (cf : fetcher) : M unit :=
  resources <- get_all_resources cf ;;
  namespace_id <- find_namespace cf ;;
  (if truthy namespace_id then
     store_in_kv cf namespace_id resources ;;;
     print ("Registry available at: "
            ++ "https://api.cloudflare.com/client/v4/accounts/"
            ++ account_id cf ++ "/storage/kv/namespaces/"
            ++ str namespace_id ++ "/values/registry")
   else
     print "Could not find/create KV namespace") ;;;
  write_file "registry.json"
             (json_dumps (Some 2%nat) (resources_value resources)) ;;;
  print "✓ Saved to registry.json".

End SimpleSync.

(* ===================================================================== *)
(** * Properties                                                          *)
(* ===================================================================== *)

(** Runs the operations of the monad, leaving lookups in dictionaries and
    the HTTP call as they are. *)
Ltac run_monad :=
  cbv beta iota zeta
      delta [Env.bind Env.ret Env.raise Env.diverge Env.try_except
             Env.get Env.getitem Env.iter Env.int_ge Env.print
             Env.start_thread Env.now_isoformat Env.append_file
             Env.write_file Env.response_json].

(** ** Facts about the monad *)

Module MonadFacts.
Import Py Env.
Local Open Scope monad_scope.

(** [m] stays within the bounds of its loops. *)
Definition terminates {A : Type} (m : M A) : Prop :=
  forall w, fst (m w) <> Diverge.

(** [m] returns a value: it neither raises nor exceeds a bound. *)
Definition always_returns {A : Type} (m : M A) : Prop :=
  forall w, exists a, fst (m w) = Return a.

(** [m] does not touch the world, and stays within bounds. *)
Class Pure {A : Type} (m : M A) : Prop :=
  pure : forall w, snd (m w) = w /\ fst (m w) <> Diverge.

#[export] Instance Pure_ret {A : Type} (a : A) : Pure (ret a).
Proof. intros w. split; [reflexivity | discriminate]. Qed.

#[export] Instance Pure_raise {A : Type} c msg : Pure (@raise A c msg).
Proof. intros w. split; [reflexivity | discriminate]. Qed.

#[export] Instance Pure_getitem v k : Pure (getitem v k).
Proof.
  intros w. destruct v; simpl; try (split; [reflexivity | discriminate]).
  destruct (dict_get d k); split; (reflexivity || discriminate).
Qed.

#[export] Instance Pure_get v k default : Pure (get v k default).
Proof.
  intros w. destruct v; simpl; try (split; [reflexivity | discriminate]).
  destruct (dict_get d k); split; (reflexivity || discriminate).
Qed.

#[export] Instance Pure_iter v : Pure (iter v).
Proof. intros w. destruct v; simpl; split; (reflexivity || discriminate). Qed.

#[export] Instance Pure_int_ge n v : Pure (int_ge n v).
Proof. intros w. destruct v; simpl; split; (reflexivity || discriminate). Qed.

#[export] Instance Pure_response_json r : Pure (response_json r).
Proof.
  intros w. unfold response_json.
  destruct (body r); split; (reflexivity || discriminate).
Qed.

#[export] Instance Pure_raise_for_status r : Pure (raise_for_status r).
Proof.
  intros w. unfold raise_for_status.
  destruct (_ && _); [split; (reflexivity || discriminate)|].
  destruct (_ && _); split; (reflexivity || discriminate).
Qed.

(** The three ways through [bind]. *)
Lemma bind_elim {A B : Type} (P : result B * world -> Prop)
    (m : M A) (f : A -> M B) (w : world) :
  (forall a w', m w = (Return a, w') -> P (f a w')) ->
  (forall e w', m w = (Raise e, w') -> P (Raise e, w')) ->
  (forall w', m w = (Diverge, w') -> P (Diverge, w')) ->
  P (bind m f w).
Proof.
  intros Hr He Hd. unfold bind.
  destruct (m w) as [[a|e|] w']; auto.
Qed.

(** Through [bind] after a step that is known to return. *)
Lemma bind_run {A B : Type} (m : M A) (f : A -> M B) (w w1 : world) (a : A) :
  m w = (Return a, w1) -> bind m f w = f a w1.
Proof. intros E. unfold bind. rewrite E. reflexivity. Qed.

(** Through [bind] after a step that leaves the world alone. *)
Lemma bind_pure_elim {A B : Type} (P : result B * world -> Prop)
    (m : M A) `{Pure A m} (f : A -> M B) (w : world) :
  (forall a, P (f a w)) ->
  (forall e, P (Raise e, w)) ->
  P (bind m f w).
Proof.
  intros Hr He. destruct (pure w) as [Hw Hd].
  apply bind_elim.
  - intros a w' E. rewrite E in Hw. simpl in Hw. subst. apply Hr.
  - intros e w' E. rewrite E in Hw. simpl in Hw. subst. apply He.
  - intros w' E. rewrite E in Hd. simpl in Hd. contradiction.
Qed.

(** What [http] leaves behind. *)
Lemma http_world (req : request) (w : world) :
  snd (http req w)
  = World (tl (network w)) (sent w ++ [req]) (console w) (files w)
          (clock w) (ticks w) (threads w).
Proof. unfold http. destruct (network w) as [|[r|msg] rest]; reflexivity. Qed.

Lemma http_result (req : request) (w : world) :
  fst (http req w)
  = match network w with
    | Answer r :: _ => Return r
    | Failure msg :: _ => Raise (Exn RequestException msg)
    | [] => Raise (Exn RequestException "Connection refused")
    end.
Proof. unfold http. destruct (network w) as [|[r|msg] rest]; reflexivity. Qed.

Lemma http_returns (req : request) (w w' : world) (r : response) :
  http req w = (Return r, w') ->
  exists rest,
    network w = Answer r :: rest
    /\ w' = World rest (sent w ++ [req]) (console w) (files w)
                  (clock w) (ticks w) (threads w).
Proof.
  unfold http. destruct (network w) as [|[r0|msg] rest]; intros E;
    inversion E; subst. exists rest. split; reflexivity.
Qed.

(** *** Rules for [terminates] *)

Lemma terminates_pure {A : Type} (m : M A) `{Pure A m} : terminates m.
Proof. intros w. apply pure. Qed.

Lemma terminates_bind {A B : Type} (m : M A) (f : A -> M B) :
  terminates m -> (forall a, terminates (f a)) -> terminates (bind m f).
Proof.
  intros Hm Hf w. apply bind_elim.
  - intros a w' _. apply Hf.
  - discriminate.
  - intros w' E. specialize (Hm w). rewrite E in Hm. simpl in Hm.
    contradiction.
Qed.

Lemma terminates_try_except {A : Type} (m : M A) classes handler :
  terminates m -> (forall e, terminates (handler e)) ->
  terminates (try_except m classes handler).
Proof.
  intros Hm Hh w. unfold try_except. specialize (Hm w).
  destruct (m w) as [[a|e|] w']; simpl in *; try discriminate; auto.
  destruct (classes (exn_type e)); [apply Hh | discriminate].
Qed.

Lemma terminates_for_each {A B : Type} (xs : list A) (body : B -> A -> M B) :
  (forall acc x, terminates (body acc x)) ->
  forall acc, terminates (for_each xs acc body).
Proof.
  intros Hb. induction xs as [|x xs IH]; intros acc; simpl.
  - apply terminates_pure; exact _.
  - apply terminates_bind; [apply Hb | exact IH].
Qed.

Lemma terminates_comprehension {A B : Type} (f : A -> M B) (xs : list A) :
  (forall x, terminates (f x)) -> terminates (comprehension f xs).
Proof.
  intros Hf. unfold comprehension. apply terminates_for_each.
  intros acc x. apply terminates_bind; [apply Hf|].
  intros y. apply terminates_pure; exact _.
Qed.

Lemma terminates_http (req : request) : terminates (http req).
Proof.
  intros w. rewrite http_result.
  destruct (network w) as [|[r|msg] rest]; discriminate.
Qed.

Lemma terminates_print (line : string) : terminates (print line).
Proof. intros w. discriminate. Qed.

Lemma terminates_now : terminates now_isoformat.
Proof. intros w. discriminate. Qed.

(** *** Rules for [always_returns] *)

Lemma always_returns_ret {A : Type} (a : A) : always_returns (ret a).
Proof. intros w. exists a. reflexivity. Qed.

Lemma always_returns_bind {A B : Type} (m : M A) (f : A -> M B) :
  always_returns m -> (forall a, always_returns (f a)) ->
  always_returns (bind m f).
Proof.
  intros Hm Hf w. unfold bind. destruct (Hm w) as [a Ha].
  destruct (m w) as [r w']. simpl in Ha. subst r. apply Hf.
Qed.

(** A handler for every exception turns a computation within bounds into
    one that returns. *)
Lemma always_returns_try_except {A : Type} (m : M A) classes handler :
  (forall c, classes c = true) ->
  terminates m -> (forall e, always_returns (handler e)) ->
  always_returns (try_except m classes handler).
Proof.
  intros Hc Hm Hh w. unfold try_except. specialize (Hm w).
  destruct (m w) as [[a|e|] w']; simpl in *.
  - exists a. reflexivity.
  - rewrite Hc. apply Hh.
  - contradiction.
Qed.

Lemma always_returns_for_each {A B : Type} (xs : list A)
    (body : B -> A -> M B) :
  (forall acc x, always_returns (body acc x)) ->
  forall acc, always_returns (for_each xs acc body).
Proof.
  intros Hb. induction xs as [|x xs IH]; intros acc; simpl.
  - apply always_returns_ret.
  - apply always_returns_bind; [apply Hb | exact IH].
Qed.

Lemma always_returns_print (line : string) : always_returns (print line).
Proof. intros w. exists tt. reflexivity. Qed.

Lemma always_returns_now : always_returns now_isoformat.
Proof. intros w. eexists. reflexivity. Qed.

Lemma always_returns_terminates {A : Type} (m : M A) :
  always_returns m -> terminates m.
Proof. intros H w. destruct (H w) as [a Ha]. rewrite Ha. discriminate. Qed.

(** *** Rules for [keeps_files] *)

(** [m] writes no file. *)
Definition keeps_files {A : Type} (m : M A) : Prop :=
  forall w, files (snd (m w)) = files w.

Lemma keeps_files_pure {A : Type} (m : M A) `{Pure A m} : keeps_files m.
Proof. intros w. destruct (pure w) as [Hw _]. rewrite Hw. reflexivity. Qed.

Lemma keeps_files_bind {A B : Type} (m : M A) (f : A -> M B) :
  keeps_files m -> (forall a, keeps_files (f a)) -> keeps_files (bind m f).
Proof.
  intros Hm Hf w. unfold bind. specialize (Hm w).
  destruct (m w) as [[a|e|] w']; simpl in *; try exact Hm.
  rewrite Hf. exact Hm.
Qed.

Lemma keeps_files_try_except {A : Type} (m : M A) classes handler :
  keeps_files m -> (forall e, keeps_files (handler e)) ->
  keeps_files (try_except m classes handler).
Proof.
  intros Hm Hh w. unfold try_except. specialize (Hm w).
  destruct (m w) as [[a|e|] w']; simpl in *; try exact Hm.
  destruct (classes (exn_type e)); simpl; [rewrite Hh|]; exact Hm.
Qed.

Lemma keeps_files_for_each {A B : Type} (xs : list A) (body : B -> A -> M B) :
  (forall acc x, keeps_files (body acc x)) ->
  forall acc, keeps_files (for_each xs acc body).
Proof.
  intros Hb. induction xs as [|x xs IH]; intros acc; simpl.
  - apply keeps_files_pure; exact _.
  - apply keeps_files_bind; [apply Hb | exact IH].
Qed.

Lemma keeps_files_comprehension {A B : Type} (f : A -> M B) (xs : list A) :
  (forall x, keeps_files (f x)) -> keeps_files (comprehension f xs).
Proof.
  intros Hf. unfold comprehension. apply keeps_files_for_each.
  intros acc x. apply keeps_files_bind; [apply Hf|].
  intros y. apply keeps_files_pure; exact _.
Qed.

Lemma keeps_files_http (req : request) : keeps_files (http req).
Proof. intros w. rewrite http_world. reflexivity. Qed.

Lemma keeps_files_print (line : string) : keeps_files (print line).
Proof. intros w. reflexivity. Qed.

Lemma keeps_files_now : keeps_files now_isoformat.
Proof. intros w. reflexivity. Qed.

End MonadFacts.

(** ** Worlds for concrete runs *)

(** A world with the given outcomes ahead on the network, nothing sent,
    printed, written or started yet, and a clock that stands still. *)
Definition world_of (net : list Env.outcome) : Env.world :=
  Env.World net [] [] [] (fun _ => "2025-01-01T00:00:00") 0 [].

(** ** The Registry Client converts failures of its calls into values *)

Module RegistryUpdaterSpec.
Import Py Env RegistryUpdater.
Local Open Scope monad_scope.

(** The five write operations with their arguments. *)
Inductive write_op : Type :=
| Register (resource : dict pyval)
| Update (resource_id : pyval) (updates : dict pyval)
| Delete (resource_id : pyval)
| BulkRegister (resources : list (dict pyval))
| Sync (resource_type : string) (resources : list pyval).

Definition perform (self : updater) (op : write_op) : M pyval :=
  match op with
  | Register resource => register_resource self resource
  | Update resource_id updates => update_resource self resource_id updates
  | Delete resource_id => delete_resource self resource_id
  | BulkRegister resources => bulk_register self resources
  | Sync resource_type resources => sync_resources self resource_type resources
  end.


(** The next HTTP call fails: the transport fails (or nothing answers),
    or the answer carries a 4xx or 5xx status. *)
Definition call_fails (net : list outcome) : Prop :=
  match net with
  | [] => True
  | Failure _ :: _ => True
  | Answer r :: _ => 400 <= status_code r < 600
  end.




End RegistryUpdaterSpec.

(** ** The webhook listener *)

Module WebhookListenerSpec.
Import Py Env WebhookListener.
Local Open Scope monad_scope.

Lemma isascii_app (a b : string) :
  isascii (a ++ b) = isascii a && isascii b.
Proof.
  induction a as [|c a IH]; simpl; [reflexivity|].
  rewrite IH. apply andb_assoc.
Qed.

Lemma isascii_hex_digit (n : N) : isascii (hex_digit n) = true.
Proof.
  destruct n as [|p]; [reflexivity|].
  do 4 (destruct p as [p|p|]; try reflexivity).
Qed.

(** A hexadecimal digest is ASCII text: [compare_digest] accepts it. *)
Lemma isascii_hex (digest : string) : isascii (hex digest) = true.
Proof.
  induction digest as [|c d IH]; simpl; [reflexivity|].
  unfold hex2. rewrite !isascii_app, !isascii_hex_digit, IH. reflexivity.
Qed.

(** The event type the handler reads from a decoded body:
    [data.get('event', {}).get('type', '')], when both [get] succeed. *)
Definition parsed_event_type (data : pyval) : option pyval :=
  match data with
  | PDict d =>
      match dict_get d "event" with
      | Some (PDict e) =>
          Some match dict_get e "type" with Some t => t | None => PStr "" end
      | Some _ => None
      | None => Some (PStr "")
      end
  | _ => None
  end.


Section Listener.
Variable WEBHOOK_SECRET : string.
Variable REGISTRY_API_KEY : string.
Variable hmac_sha256 : string -> string -> string.
Variable json_loads : string -> string + pyval.

(** The signature a sender who knows the secret puts in the header. *)
Definition expected_signature (payload : string) : string :=
  hex (hmac_sha256 (encode WEBHOOK_SECRET) payload).

Lemma verify_signature_ascii (payload signature : string) (w : world) :
  isascii signature = true ->
  verify_signature WEBHOOK_SECRET hmac_sha256 payload signature w
  = (Return (String.eqb (expected_signature payload) signature), w).
Proof.
  intros Hs. unfold verify_signature, compare_digest, expected_signature.
  rewrite isascii_hex, Hs. reflexivity.
Qed.

(** An ASCII header that differs from the expected signature is answered
    403; the body is not decoded (the answer is the same for every
    decoder) and the world, with its threads and files, is untouched. *)
Lemma wrong_ascii_signature_rejected (request : flask_request) (w : world) :
  let signature := header_or_empty (x_signature_256 request) in
  isascii signature = true ->
  signature <> expected_signature (get_data request) ->
  forall loads,
    cloudflare_webhook WEBHOOK_SECRET hmac_sha256 loads request w
    = (Return (PDict [("error", PStr "Invalid signature")], 403), w).
Proof.
  intros signature Hascii Hne loads. unfold cloudflare_webhook.
  unfold bind at 1. fold signature.
  rewrite (verify_signature_ascii _ _ _ Hascii).
  destruct (String.eqb_spec (expected_signature (get_data request)) signature)
    as [E|E]; [congruence | reflexivity].
Qed.



(** The event types of the table are strings.  A decoded event type
    that cannot be hashed (a JSON array or object) is a malformed
    payload: the membership test raises, the handler answers 500 and
    starts no thread. *)
Lemma unhashable_event_type_fails (request : flask_request) (w : world)
    (data t : pyval) :
  x_signature_256 request = Some (expected_signature (get_data request)) ->
  json_loads (get_data request) = inr data ->
  parsed_event_type data = Some t ->
  (exists l, t = PList l) \/ (exists d, t = PDict d) ->
  exists w',
    cloudflare_webhook WEBHOOK_SECRET hmac_sha256 json_loads request w
    = (Return (PDict [("error", PStr "Processing failed")], 500), w')
    /\ threads w' = threads w
    /\ files w' = files w.
Proof.
  intros Hsig Hload Htype Hun. unfold cloudflare_webhook.
  unfold bind at 1. rewrite Hsig. cbn [header_or_empty].
  rewrite verify_signature_ascii by apply isascii_hex.
  rewrite String.eqb_refl. cbn [negb].
  unfold try_except. rewrite Hload.
  destruct data as [| | | | |d]; try discriminate.
  unfold parsed_event_type in Htype.
  destruct (dict_get d "event") as [[| | | | |e]|] eqn:He;
    try discriminate.
  - destruct (dict_get e "type") as [t'|] eqn:Ht;
      inversion Htype; subst;
      destruct Hun as [[l Hl]|[d' Hd']]; try discriminate; subst;
      destruct (dict_get d "data") eqn:Hd;
      run_monad; rewrite He; cbv beta iota; rewrite Ht; cbv beta iota;
      rewrite Hd; eexists; repeat split; reflexivity.
  - inversion Htype; subst.
    destruct Hun as [[l Hl]|[d' Hd']]; discriminate.
Qed.

(** C2, at a header the claim covers but the code does not handle: a
    signature header with a character outside ASCII (here the single
    character of code 233) is not answered 403.  [hmac.compare_digest]
    raises [TypeError], [verify_signature] is called outside the [try]
    of the handler, and the exception leaves the handler. *)
Theorem non_ascii_signature_raises (payload : string) (w : world) :
  cloudflare_webhook WEBHOOK_SECRET hmac_sha256 json_loads
    (FlaskRequest (Some (chr 233)) None payload) w
  = (Raise (Exn TypeError
              "comparing strings with non-ASCII characters is not supported"),
     w).
Proof.
  unfold cloudflare_webhook, verify_signature, compare_digest.
  unfold bind at 1. cbn [header_or_empty x_signature_256].
  rewrite isascii_hex. reflexivity.
Qed.

(** C10.  The manual-sync handler answers 401 exactly when the
    [X-API-Key] header (['']) when absent) differs from
    [REGISTRY_API_KEY]; hence with an empty configured key a request
    without the header, or with an empty one, passes, and for a valid
    resource type it is answered 202 and one sync thread is started. *)
Theorem manual_sync_authorization (resource_type : string)
    (request : flask_request) (w : world) :
  exists body status w',
    manual_sync REGISTRY_API_KEY resource_type request w
    = (Return (body, status), w')
    /\ (status = 401 <->
        header_or_empty (x_api_key request) <> REGISTRY_API_KEY)
    /\ (REGISTRY_API_KEY = "" ->
        x_api_key request = None \/ x_api_key request = Some "" ->
        In resource_type valid_types ->
        status = 202
        /\ threads w' = (threads w ++ [RunSync resource_type])%list).
Proof.
  unfold manual_sync.
  destruct (String.eqb_spec (header_or_empty (x_api_key request))
                            REGISTRY_API_KEY) as [E|E]; cbn [negb].
  - destruct (existsb (String.eqb resource_type) valid_types) eqn:V;
      cbn [negb].
    + unfold bind, start_thread, now_isoformat, ret.
      eexists _, _, _. split; [reflexivity|]. split.
      * split; [discriminate | intros H; contradiction].
      * intros _ _ _. split; reflexivity.
    + eexists _, _, _. split; [reflexivity|]. split.
      * split; [discriminate | intros H; contradiction].
      * intros _ _ Hin. exfalso.
        assert (existsb (String.eqb resource_type) valid_types = true).
        { apply existsb_exists. exists resource_type.
          split; [exact Hin | apply String.eqb_refl]. }
        congruence.
  - eexists _, _, _. split; [reflexivity|]. split.
    + split; [intros _; exact E | reflexivity].
    + intros Hk Hh _. exfalso. apply E. rewrite Hk.
      destruct Hh as [Hh|Hh]; rewrite Hh; reflexivity.
Qed.

End Listener.

(** *** Concrete requests *)

(** The digests agree with those of [hashlib] and [hmac] on their usual
    test messages. *)
Example sha256_abc :
  hex (Sha256.sha256 "abc")
  = "ba7816bf8f01cfea414140de5dae2223b00361a396177a9cb410ff61f20015ad".
Proof. vm_compute. reflexivity. Qed.

Example hmac_sha256_fox :
  hex (Sha256.hmac_sha256 "key" "The quick brown fox jumps over the lazy dog")
  = "f7bc83f430538424b13298e6aa6fb143ef4d59a14946175997479dbc2d1a3cd8".
Proof. vm_compute. reflexivity. Qed.

(** The event of the examples, and its text as the provider sends it. *)
Definition zone_created : pyval :=
  PDict [("event", PDict [("type", PStr "zone.created")]);
         ("data", PDict [("id", PStr "z1"); ("name", PStr "example.com")])].

Definition zone_created_body : string := json_dumps None zone_created.

(** [json.loads] on the two bodies of the examples. *)
Definition loads_examples (body : string) : string + pyval :=
  if String.eqb body "{}" then inr (PDict [])
  else if String.eqb body zone_created_body then inr zone_created
  else inl "Expecting value: line 1 column 1 (char 0)".

Definition default_secret : string := "your-webhook-secret".


(** A signed [zone.created] event is answered 202 and starts the thread
    that registers the zone. *)
Example signed_zone_created_accepted :
  let signature := hex (Sha256.hmac_sha256 default_secret zone_created_body) in
  exists body w',
    cloudflare_webhook default_secret Sha256.hmac_sha256 loads_examples
                       (FlaskRequest (Some signature) None zone_created_body)
                       (world_of [])
    = (Return (body, 202), w')
    /\ threads w'
       = [HandleResourceUpdate "domain"
            (PDict [("id", PStr "z1"); ("name", PStr "example.com")])
            "create"].
Proof. vm_compute. eexists _, _. split; reflexivity. Qed.

(** The same event with the last digit of the signature changed is
    answered 403, and nothing is started. *)
Example tampered_signature_rejected :
  exists w',
    cloudflare_webhook default_secret Sha256.hmac_sha256 loads_examples
      (FlaskRequest
         (Some "3f7df3cbc19203bbd06711309e31ed5fef13b99190551f64da0fe2f06c646934")
         None "{}")
      (world_of [])
    = (Return (PDict [("error", PStr "Invalid signature")], 403), w')
    /\ threads w' = [].
Proof. vm_compute. eexists. split; reflexivity. Qed.

End WebhookListenerSpec.

(** ** The Cloudflare fetcher *)

Module CloudflareFetcherSpec.
Import Py Env CloudflareFetcher MonadFacts.
Local Open Scope monad_scope.

(** *** The loop of [_paginated_fetch] stays within its bound *)

(** Goes through a [bind] whose first step leaves the world alone. *)
Ltac pure_step :=
  match goal with
  | |- fst (bind ?m ?f ?w) <> Diverge =>
      apply (@bind_pure_elim _ _ (fun x => fst x <> Diverge) m _ f w);
      [intros ? | intros ?; discriminate]
  end.

(** A bound above the number of outcomes left on the network is never
    reached: an iteration that goes on has consumed one of them. *)
Lemma paginated_fetch_loop_total self ep params pp :
  forall bound page acc w,
    (List.length (network w) < bound)%nat ->
    fst (paginated_fetch_loop self ep params pp bound page acc w) <> Diverge.
Proof.
  induction bound as [|bound IH]; intros page acc w Hlen; [lia|].
  cbn [paginated_fetch_loop]. unfold requests_get.
  apply (bind_elim (fun x => fst x <> Diverge)).
  - intros response w' E.
    apply http_returns in E. destruct E as (rest & Hnet & ->).
    destruct (negb (status_code response =? 200)); [discriminate|].
    pure_step. pure_step.
    destruct (negb (truthy a0)).
    { pure_step. discriminate. }
    do 5 pure_step.
    destruct a5; [discriminate|].
    apply IH. rewrite Hnet in Hlen. simpl in *. lia.
  - discriminate.
  - intros w' E. apply (f_equal fst) in E. apply terminates_http in E.
    contradiction.
Qed.

Lemma paginated_fetch_terminates self ep params :
  terminates (_paginated_fetch self ep params).
Proof.
  intros w. unfold _paginated_fetch. apply paginated_fetch_loop_total. lia.
Qed.

(** Follows the structure of a computation built from the operations of
    the monad and from [_paginated_fetch]. *)
Ltac terminates_tac :=
  repeat first
    [ apply paginated_fetch_terminates
    | apply terminates_http
    | apply terminates_print
    | apply terminates_now
    | apply terminates_bind; [|intros ?]
    | apply terminates_comprehension; intros ?
    | apply terminates_for_each; intros ? ?
    | apply terminates_try_except; [|intros ?]
    | apply terminates_pure; exact _
    | match goal with
      | |- terminates (if ?b then _ else _) => destruct b
      | |- terminates (match ?x with _ => _ end) => destruct x
      end ].

Lemma get_domains_terminates self : terminates (get_domains self).
Proof. unfold get_domains. terminates_tac. Qed.

Lemma get_workers_terminates self : terminates (get_workers self).
Proof. unfold get_workers, requests_get. terminates_tac. Qed.

Lemma get_pages_terminates self : terminates (get_pages self).
Proof. unfold get_pages. terminates_tac. Qed.

Lemma get_r2_buckets_terminates self : terminates (get_r2_buckets self).
Proof. unfold get_r2_buckets, requests_get. terminates_tac. Qed.

Lemma get_kv_namespaces_terminates self :
  terminates (get_kv_namespaces self).
Proof. unfold get_kv_namespaces. terminates_tac. Qed.

Lemma get_durable_objects_terminates self :
  terminates (get_durable_objects self).
Proof. unfold get_durable_objects. terminates_tac. Qed.

(** *** Pagination *)

(** The number of requests for [total] items: one per page of 50, and one
    for an empty collection. *)
Definition pages_needed (total : Z) : Z :=
  if total <=? 0 then 1 else (total + 49) / 50.

(** The loop stops after page [page] exactly when no more page is
    needed. *)
Lemma pages_needed_spec (total page : Z) :
  0 <= total -> 1 <= page ->
  (total <=? page * 50) = (pages_needed total <=? page).
Proof.
  intros Ht Hp. unfold pages_needed.
  destruct (Z.leb_spec total 0) as [H0|H0].
  - assert (total = 0) by lia. subst.
    destruct (Z.leb_spec 0 (page * 50)), (Z.leb_spec 1 page); lia.
  - pose proof (Z.div_mod (total + 49) 50 ltac:(lia)) as Hdm.
    pose proof (Z.mod_pos_bound (total + 49) 50 ltac:(lia)) as Hm.
    destruct (Z.leb_spec total (page * 50)),
             (Z.leb_spec ((total + 49) / 50) page); lia.
Qed.

Lemma pages_needed_pos (total : Z) : 0 <= total -> 1 <= pages_needed total.
Proof.
  intros Ht. unfold pages_needed. destruct (Z.leb_spec total 0); [lia|].
  pose proof (Z.div_mod (total + 49) 50 ltac:(lia)) as Hdm.
  pose proof (Z.mod_pos_bound (total + 49) 50 ltac:(lia)) as Hm. lia.
Qed.

Lemma pages_needed_divisible (total : Z) :
  0 < total -> total mod 50 = 0 -> pages_needed total = total / 50.
Proof.
  intros Ht Hmod. unfold pages_needed.
  destruct (Z.leb_spec total 0); [lia|].
  pose proof (Z.div_mod total 50 ltac:(lia)) as Hdm.
  rewrite Hmod in Hdm.
  replace (total + 49) with (total / 50 * 50 + 49) by lia.
  rewrite Z.div_add_l by lia. rewrite (Z.div_small 49 50) by lia. lia.
Qed.

(** The [n] page numbers from [from] on. *)
Fixpoint page_numbers (from : Z) (n : nat) : list Z :=
  match n with
  | O => []
  | S n' => from :: page_numbers (from + 1) n'
  end.

Lemma len_app {A : Type} (a b : list A) : len (a ++ b) = len a + len b.
Proof. unfold len. rewrite length_app. lia. Qed.

(** Pages of [min(50, remaining)] items hold [total] items together. *)
Lemma len_concat_pages (total : Z) (pages : list (list pyval)) :
  forall (before : Z),
    0 <= before ->
    0 <= total - 50 * before \/ pages = [] ->
    (forall i p, nth_error pages i = Some p ->
                 len p = Z.min 50 (total - 50 * (before + Z.of_nat i))) ->
    Z.of_nat (List.length pages) = pages_needed total - before ->
    0 <= total ->
    len (List.concat pages) = Z.max 0 (total - 50 * before).
Proof.
  induction pages as [|p ps IH]; intros before Hb Hrem Hsize Hlen Ht.
  - cbn [List.length] in Hlen. unfold len. cbn [List.concat List.length].
    destruct (Z.eq_dec before 0) as [->|Hne].
    + pose proof (pages_needed_pos total Ht). lia.
    + pose proof (pages_needed_spec total before Ht ltac:(lia)) as Hs.
      rewrite (proj2 (Z.leb_le (pages_needed total) before)) in Hs by lia.
      apply Z.leb_le in Hs. lia.
  - cbn [List.concat]. rewrite len_app.
    pose proof (Hsize 0%nat p eq_refl) as Hp.
    change (Z.of_nat 0) with 0 in Hp. rewrite Z.add_0_r in Hp.
    cbn [List.length] in Hlen.
    assert (Hmore : 0 <= total - 50 * before).
    { destruct Hrem as [H|H]; [exact H | discriminate]. }
    rewrite (IH (before + 1)); try lia.
    + destruct (Z.leb_spec (pages_needed total) (before + 1)) as [Hd|Hm].
      * right. destruct ps; [reflexivity | cbn [List.length] in Hlen; lia].
      * left.
        pose proof (pages_needed_spec total (before + 1) Ht ltac:(lia))
          as Hs.
        rewrite (proj2 (Z.leb_gt (pages_needed total) (before + 1))) in Hs
          by lia.
        apply Z.leb_gt in Hs. lia.
    + intros i q Hq. rewrite (Hsize (S i) q Hq). f_equal. lia.
Qed.

Section Pagination.
Variable self : fetcher.
Variable endpoint : string.
Variable params : option (dict pyval).

(** The request [_paginated_fetch] sends for page [page]. *)
Definition page_request (page : Z) : request :=
  Request "GET" (base_url ++ "/" ++ endpoint) (headers self)
          match params with
          | Some (p :: ps) =>
              dict_update [("page", PInt page); ("per_page", PInt 50)]
                          (p :: ps)
          | _ => [("page", PInt page); ("per_page", PInt 50)]
          end
          None.

(** A well-formed answer of the provider that carries [items] and
    reports [total] ([None]: the answer has no [result_info]). *)
Definition page_response (total : option Z) (items : list pyval)
    (r : response) : Prop :=
  status_code r = 200
  /\ exists data success,
       body r = inr (PDict data)
       /\ dict_get data "success" = Some success
       /\ truthy success = true
       /\ dict_get data "result" = Some (PList items)
       /\ match total with
          | Some t =>
              exists info,
                dict_get data "result_info" = Some (PDict info)
                /\ dict_get info "total_count" = Some (PInt t)
          | None => dict_get data "result_info" = None
          end.

Definition after_request (w : world) (rest : list outcome) (page : Z)
    : world :=
  World rest (sent w ++ [page_request page]) (console w) (files w)
        (clock w) (ticks w) (threads w).

(** One iteration of the loop on a well-formed answer. *)
Lemma paginated_fetch_loop_step (total : option Z) (items : list pyval)
    (r : response) (rest : list outcome) (bound : nat) (page : Z)
    (acc : list pyval) (w : world) :
  network w = Answer r :: rest ->
  page_response total items r ->
  paginated_fetch_loop self endpoint params 50 (S bound) page acc w
  = if match total with Some t => t | None => 0 end <=? page * 50
    then (Return (acc ++ items)%list, after_request w rest page)
    else paginated_fetch_loop self endpoint params 50 bound (page + 1)
                              (acc ++ items)%list
                              (after_request w rest page).
Proof.
  intros Hnet (Hstatus & data & success & Hbody & Hsucc & Htrue & Hres & Hinfo).
  cbn [paginated_fetch_loop]. unfold requests_get.
  run_monad. unfold http. rewrite Hnet. cbv beta iota zeta.
  fold (page_request page). fold (after_request w rest page).
  rewrite Hstatus. cbn [Z.eqb Pos.eqb negb].
  rewrite Hbody. cbv beta iota. rewrite Hsucc. cbv beta iota.
  rewrite Htrue. cbn [negb]. rewrite Hres. cbv beta iota.
  destruct total as [t|].
  - destruct Hinfo as (info & Hi & Ht). rewrite Hi. cbv beta iota.
    rewrite Ht. cbv beta iota. destruct (t <=? page * 50); reflexivity.
  - rewrite Hinfo. cbv beta iota. cbn [dict_get].
    destruct (0 <=? page * 50); reflexivity.
Qed.

Section Honest.
Variable total : Z.
Hypothesis total_nonneg : 0 <= total.

Lemma paginated_fetch_loop_pages (pages : list (list pyval))
    (rs : list response) :
  Forall2 (page_response (Some total)) pages rs ->
  forall (page : Z) (acc : list pyval) (bound : nat) (w : world)
         (rest : list outcome),
    1 <= page <= pages_needed total ->
    Z.of_nat (List.length pages) = pages_needed total - page + 1 ->
    (List.length pages <= bound)%nat ->
    network w = (map Answer rs ++ rest)%list ->
    exists w',
      paginated_fetch_loop self endpoint params 50 bound page acc w
      = (Return (acc ++ List.concat pages)%list, w')
      /\ network w' = rest
      /\ sent w'
         = (sent w
            ++ map page_request (page_numbers page (List.length pages)))%list.
Proof.
  induction 1 as [|p r ps rs' Hp Hps IH];
    intros page acc bound w rest Hpage Hlen Hbound Hnet.
  - cbn [List.length] in Hlen. lia.
  - destruct bound as [|bound]; [cbn [List.length] in Hbound; lia|].
    cbn [map app] in Hnet.
    rewrite (paginated_fetch_loop_step (Some total) p r _ _ _ _ _ Hnet Hp).
    rewrite pages_needed_spec by lia.
    cbn [List.length] in Hlen, Hbound.
    destruct (Z.leb_spec (pages_needed total) page) as [Hdone|Hmore].
    + assert (ps = []) by (destruct ps; [reflexivity | cbn [List.length] in Hlen; lia]).
      subst ps. inversion Hps; subst.
      exists (after_request w rest page).
      split; [cbn [List.concat]; rewrite app_nil_r; reflexivity|].
      split; reflexivity.
    + destruct (IH (page + 1) (acc ++ p)%list bound
                   (after_request w (map Answer rs' ++ rest)%list page) rest)
        as (w' & Hrun & Hnet' & Hsent); try lia; [reflexivity|].
      exists w'. split; [|split].
      * rewrite Hrun. cbn [List.concat]. rewrite app_assoc. reflexivity.
      * exact Hnet'.
      * rewrite Hsent. cbn. rewrite <- app_assoc. reflexivity.
Qed.
End Honest.

(** C1.  When the provider reports [total] items and answers the
    successive requests with pages of [min(50, remaining)] items, all
    distinct, [_paginated_fetch] returns the pages in order: exactly
    [total] items without duplicates.  It sends one request per page and
    none after the last one: a single request when [total] is 0, and
    [total / 50] requests when 50 divides [total].  When the answer to the
    first request has no [result_info], that request is the only one and
    its items are returned. *)
Theorem paginated_fetch_complete :
  (forall (total : Z) (pages : list (list pyval)) (rs : list response)
          (rest : list outcome) (w : world),
      0 <= total ->
      Z.of_nat (List.length pages) = pages_needed total ->
      (forall i p, nth_error pages i = Some p ->
                   len p = Z.min 50 (total - 50 * Z.of_nat i)) ->
      NoDup (List.concat pages) ->
      Forall2 (page_response (Some total)) pages rs ->
      network w = (map Answer rs ++ rest)%list ->
      exists result w',
        _paginated_fetch self endpoint params w = (Return result, w')
        /\ result = List.concat pages
        /\ len result = total
        /\ NoDup result
        /\ network w' = rest
        /\ sent w'
           = (sent w
              ++ map page_request (page_numbers 1 (List.length pages)))%list
        /\ (total = 0 -> List.length pages = 1%nat)
        /\ (0 < total -> total mod 50 = 0 ->
            Z.of_nat (List.length pages) = total / 50))
  /\ (forall (items : list pyval) (r : response) (rest : list outcome)
             (w : world),
        page_response None items r ->
        network w = Answer r :: rest ->
        exists w',
          _paginated_fetch self endpoint params w = (Return items, w')
          /\ network w' = rest
          /\ sent w' = (sent w ++ [page_request 1])%list).
Proof.
  split.
  - intros total pages rs rest w Htotal Hcount Hsizes Hdistinct Hpages Hnet.
    pose proof (pages_needed_pos total Htotal) as Hpos.
    destruct (paginated_fetch_loop_pages total Htotal pages rs Hpages 1 []
                (S (List.length (network w))) w rest)
      as (w' & Hrun & Hnet' & Hsent); try lia; [|exact Hnet|].
    { rewrite Hnet, length_app, length_map.
      rewrite (Forall2_length Hpages). lia. }
    exists (List.concat pages), w'. unfold _paginated_fetch.
    repeat split; try assumption.
    + rewrite (len_concat_pages total pages 0); try lia.
      * intros i p Hp. rewrite (Hsizes i p Hp). reflexivity.
    + intros ->. unfold pages_needed in Hcount. cbn in Hcount. lia.
    + intros Hgt Hmod. rewrite Hcount. apply pages_needed_divisible; assumption.
  - intros items r rest w Hpage Hnet. unfold _paginated_fetch.
    rewrite (paginated_fetch_loop_step None items r rest _ 1 [] w Hnet Hpage).
    cbn [Z.leb Z.mul Z.compare Pos.mul]. eexists.
    split; [reflexivity|]. split; reflexivity.
Qed.

End Pagination.



(** A run of the theorem: 100 items served as two full pages. *)
Definition demo_item (i : nat) : pyval := PDict [("id", PInt (Z.of_nat i))].

Definition demo_answer (items : list pyval) (total : Z) : response :=
  Response 200 "OK" "" ""
           (inr (PDict [("success", PBool true);
                        ("result", PList items);
                        ("result_info", PDict [("total_count", PInt total)])])).

Definition demo_fetcher : fetcher := Fetcher "key" "ops@example.com" "acct".

Lemma demo_item_injective : Injective demo_item.
Proof.
  intros i j H. unfold demo_item in H. inversion H as [E].
  apply Nat2Z.inj. exact E.
Defined.

Lemma paginated_fetch_complete_witness :
  let pages := [map demo_item (seq 0 50); map demo_item (seq 50 50)] in
  let rs := map (fun p => demo_answer p 100) pages in
  exists result w',
    _paginated_fetch demo_fetcher "zones" None (world_of (map Answer rs))
    = (Return result, w')
    /\ len result = 100
    /\ NoDup result
    /\ network w' = []
    /\ sent w' = map (page_request demo_fetcher "zones" None) [1; 2].
Proof.
  intros pages rs.
  destruct (proj1 (paginated_fetch_complete demo_fetcher "zones" None)
              100 pages rs [] (world_of (map Answer rs)))
    as (result & w' & Hrun & _ & Hlen & Hnodup & Hnet & Hsent & _).
  - lia.
  - reflexivity.
  - intros i p. destruct i as [|[|i]]; cbn [nth_error pages];
      intros H; inversion H; try reflexivity.
    destruct i; discriminate.
  - change (List.concat pages) with (map demo_item (seq 0 100)).
    apply Injective_map_NoDup;
      [exact demo_item_injective | apply seq_NoDup].
  - repeat constructor;
      (eexists _, _; repeat split; try reflexivity;
       eexists; split; reflexivity).
  - cbn [world_of network]. rewrite app_nil_r. reflexivity.
  - exists result, w'. repeat split; assumption.
Defined.

(** *** All six kinds at once *)

Inductive kind : Type :=
| Domains | Workers | Pages | R2Buckets | KVNamespaces | DurableObjects.

Definition all_kinds : list kind :=
  [Domains; Workers; Pages; R2Buckets; KVNamespaces; DurableObjects].

(** The key of a kind in the dictionary [get_all_resources] returns. *)
Definition key_of (k : kind) : string :=
  match k with
  | Domains => "domains"
  | Workers => "workers"
  | Pages => "pages"
  | R2Buckets => "r2_buckets"
  | KVNamespaces => "kv_namespaces"
  | DurableObjects => "durable_objects"
  end.

(** How the fetch of one kind ends: an exception, or the records. *)
Definition fetch_outcome : Type := (exn + list pyval)%type.

(** A fetch method that ends as told. *)
Definition fetch_with (o : fetch_outcome) : M (list pyval) :=
  fun w => (match o with inl e => Raise e | inr l => Return l end, w).

(** What [get_all_resources] keeps of an outcome. *)
Definition fetched (o : fetch_outcome) : list pyval :=
  match o with inl _ => [] | inr l => l end.

(** [get_all_resources] on an object whose six methods end as [o] tells. *)
Definition get_all_resources_with (o : kind -> fetch_outcome)
    : M (dict (list pyval)) :=
  get_all_resources_from
    (fetch_with (o Domains)) (fetch_with (o Workers)) (fetch_with (o Pages))
    (fetch_with (o R2Buckets)) (fetch_with (o KVNamespaces))
    (fetch_with (o DurableObjects)).

Lemma dict_set_same {V : Type} (d : dict V) (k : string) (v : V) :
  dict_get d k = Some v -> dict_set d k v = d.
Proof.
  induction d as [|[k' v'] d IH]; simpl; [discriminate|].
  destruct (String.eqb_spec k' k) as [->|Hne].
  - intros E. inversion E. reflexivity.
  - intros E. rewrite (IH E). reflexivity.
Qed.

(** The name of a kind in the messages of [get_all_resources]. *)
Definition label_of (k : kind) : string :=
  match k with
  | Domains => "domains"
  | Workers => "workers"
  | Pages => "pages"
  | R2Buckets => "R2 buckets"
  | KVNamespaces => "KV namespaces"
  | DurableObjects => "Durable Objects"
  end.

(** What [get_all_resources] prints for the fetch of kind [k]. *)
Definition error_line (k : kind) (o : fetch_outcome) : list string :=
  match o with
  | inl e => ["Error fetching " ++ label_of k ++ ": " ++ exn_str e]
  | inr _ => []
  end.

Definition error_lines (o : kind -> fetch_outcome) : list string :=
  flat_map (fun k => error_line k (o k)) all_kinds.

(** The world with some more lines on the console. *)
Definition add_lines (w : world) (lines : list string) : world :=
  World (network w) (sent w) (console w ++ lines) (files w) (clock w)
        (ticks w) (threads w).

Lemma add_lines_add_lines (w : world) (l1 l2 : list string) :
  add_lines (add_lines w l1) l2 = add_lines w (l1 ++ l2).
Proof. unfold add_lines. cbn. rewrite app_assoc. reflexivity. Qed.

(** One [try] block on a fetch that ends as told, for a kind whose entry
    is still the empty list. *)
Lemma try_fetch_with (k : kind) (o : fetch_outcome)
    (resources : dict (list pyval)) (w : world) :
  dict_get resources (key_of k) = Some [] ->
  try_fetch (key_of k) (label_of k) (fetch_with o) resources w
  = (Return (dict_set resources (key_of k) (fetched o)),
     add_lines w (error_line k o)).
Proof.
  intros Hempty. unfold try_fetch, fetch_with, try_except, bind, add_lines.
  destruct o as [e|l]; cbn [fetched is_Exception exn_type error_line].
  - rewrite (dict_set_same _ _ _ Hempty). reflexivity.
  - destruct w. cbn. rewrite app_nil_r. reflexivity.
Qed.

(** With fetches that end as told, [get_all_resources] returns the six
    entries and only prints. *)
Lemma get_all_resources_with_run (o : kind -> fetch_outcome) (w : world) :
  get_all_resources_with o w
  = (Return (map (fun k => (key_of k, fetched (o k))) all_kinds),
     add_lines w (error_lines o)).
Proof.
  unfold get_all_resources_with, get_all_resources_from.
  repeat
    match goal with
    | |- context [bind (try_fetch _ _ (fetch_with (o ?k)) ?r) _ ?w0] =>
        let H := fresh "H" in
        pose proof (try_fetch_with k (o k) r w0 eq_refl) as H;
        cbn [key_of label_of] in H;
        rewrite (bind_run _ _ _ _ _ H); clear H;
        cbn [dict_set String.eqb Ascii.eqb Bool.eqb]
    end.
  rewrite !add_lines_add_lines. unfold error_lines.
  cbn [flat_map all_kinds]. rewrite app_nil_r. reflexivity.
Qed.

(** One [try] block of [get_all_resources] always returns, and leaves the
    other entries of the dictionary alone. *)
Lemma try_fetch_returns (key label : string) (m : M (list pyval))
    (resources : dict (list pyval)) (w : world) :
  terminates m ->
  exists l w',
    try_fetch key label m resources w = (Return (dict_set resources key l), w')
    \/ try_fetch key label m resources w = (Return resources, w').
Proof.
  intros Hm. unfold try_fetch, try_except, bind. specialize (Hm w).
  destruct (m w) as [[l|e|] w1]; simpl in *.
  - exists l, w1. left. reflexivity.
  - eexists [], _. right. reflexivity.
  - contradiction.
Qed.

Lemma dict_keys_set_present {V : Type} (d : dict V) (k : string) (v : V) :
  In k (dict_keys d) -> dict_keys (dict_set d k v) = dict_keys d.
Proof.
  induction d as [|[k' v'] d IH]; simpl; [contradiction|].
  intros Hin. destruct (String.eqb_spec k' k) as [->|Hne]; [reflexivity|].
  simpl. f_equal. apply IH. destruct Hin as [E|Hin]; [contradiction | exact Hin].
Qed.

Lemma try_fetch_keys (key label : string) (m : M (list pyval))
    (resources : dict (list pyval)) (w : world) (keys : list string) :
  terminates m ->
  dict_keys resources = keys ->
  In key keys ->
  exists r w',
    try_fetch key label m resources w = (Return r, w')
    /\ dict_keys r = keys.
Proof.
  intros Hm Hkeys Hin. subst keys.
  destruct (try_fetch_returns key label m resources w Hm) as (l & w' & [E|E]);
    rewrite E; eexists _, _; (split; [reflexivity|]);
    [apply dict_keys_set_present; exact Hin | reflexivity].
Qed.

Lemma get_all_resources_from_returns
    (m1 m2 m3 m4 m5 m6 : M (list pyval)) (w : world) :
  terminates m1 -> terminates m2 -> terminates m3 ->
  terminates m4 -> terminates m5 -> terminates m6 ->
  exists resources w',
    get_all_resources_from m1 m2 m3 m4 m5 m6 w = (Return resources, w')
    /\ dict_keys resources = map key_of all_kinds.
Proof.
  intros H1 H2 H3 H4 H5 H6. unfold get_all_resources_from.
  remember (map key_of all_kinds) as keys eqn:Hkeys.
  assert (K : dict_keys
                [("domains", @nil pyval); ("workers", []); ("pages", []);
                 ("r2_buckets", []); ("kv_namespaces", []);
                 ("durable_objects", [])]
              = keys) by (subst keys; reflexivity).
  assert (Hin : forall k, In (key_of k) keys).
  { intros k. subst keys. destruct k; simpl; tauto. }
  clear Hkeys.
  repeat
    (unfold bind at 1;
     match goal with
     | K0 : dict_keys ?r = keys |- context [try_fetch ?key ?label ?m ?r ?w0] =>
         let E := fresh "E" in
         let K' := fresh "K" in
         destruct (try_fetch_keys key label m r w0 keys) as (? & ? & E & K');
         [ assumption | exact K0
         | first [ apply (Hin Domains) | apply (Hin Workers) | apply (Hin Pages)
                 | apply (Hin R2Buckets) | apply (Hin KVNamespaces)
                 | apply (Hin DurableObjects) ]
         | rewrite E; clear E K0 ]
     end).
  eexists _, _. split; [reflexivity|].
  assumption.
Qed.


End CloudflareFetcherSpec.

(** ** The fetcher writes no file *)

Module CloudflareFetcherFiles.
Import Py Env CloudflareFetcher MonadFacts.
Local Open Scope monad_scope.

Ltac keeps_files_tac :=
  repeat first
    [ apply keeps_files_http
    | apply keeps_files_print
    | apply keeps_files_now
    | apply keeps_files_bind; [|intros ?]
    | apply keeps_files_comprehension; intros ?
    | apply keeps_files_for_each; intros ? ?
    | apply keeps_files_try_except; [|intros ?]
    | apply keeps_files_pure; exact _
    | match goal with
      | |- keeps_files (if ?b then _ else _) => destruct b
      | |- keeps_files (match ?x with _ => _ end) => destruct x
      end ].

Lemma paginated_fetch_loop_keeps_files self ep params pp :
  forall bound page acc,
    keeps_files (paginated_fetch_loop self ep params pp bound page acc).
Proof.
  induction bound as [|bound IH]; intros page acc.
  - intros w. reflexivity.
  - cbn [paginated_fetch_loop]. unfold requests_get.
    keeps_files_tac. apply IH.
Qed.

Lemma paginated_fetch_keeps_files self ep params :
  keeps_files (_paginated_fetch self ep params).
Proof.
  intros w. unfold _paginated_fetch. apply paginated_fetch_loop_keeps_files.
Qed.

Lemma get_all_resources_keeps_files self :
  keeps_files (get_all_resources self).
Proof.
  unfold get_all_resources, get_all_resources_from, try_fetch,
         get_domains, get_workers, get_pages, get_r2_buckets,
         get_kv_namespaces, get_durable_objects, requests_get.
  repeat first [ apply paginated_fetch_keeps_files | progress keeps_files_tac ].
Qed.

End CloudflareFetcherFiles.

(** ** The orchestrator *)

Module SyncAllSpec.
Import Py Env MonadFacts SyncAll.
Local Open Scope monad_scope.

(** *** Dictionaries *)

Lemma dict_get_set {V : Type} (d : dict V) (k k' : string) (v : V) :
  dict_get (dict_set d k v) k'
  = if String.eqb k k' then Some v else dict_get d k'.
Proof.
  induction d as [|[k0 v0] d IH]; cbn [dict_set dict_get].
  - reflexivity.
  - destruct (String.eqb_spec k0 k) as [->|Hne]; cbn [dict_get].
    + destruct (String.eqb k k'); reflexivity.
    + rewrite IH. destruct (String.eqb_spec k0 k') as [->|Hne'];
        [|reflexivity].
      destruct (String.eqb_spec k k'); [congruence | reflexivity].
Qed.

Lemma dict_mem_set {V : Type} (d : dict V) (k k' : string) (v : V) :
  dict_mem (dict_set d k v) k' = String.eqb k k' || dict_mem d k'.
Proof.
  unfold dict_mem. rewrite dict_get_set.
  destruct (String.eqb k k'); reflexivity.
Qed.

Lemma dict_mem_set_other {V : Type} (d : dict V) (k k' : string) (v : V) :
  k <> k' -> dict_mem (dict_set d k v) k' = dict_mem d k'.
Proof.
  intros Hne. rewrite dict_mem_set.
  destruct (String.eqb_spec k k'); [contradiction | reflexivity].
Qed.

Lemma append_inj_l (a b c : string) : a ++ b = a ++ c -> b = c.
Proof.
  induction a as [|x a IH]; simpl; intros E; [exact E|].
  inversion E. auto.
Qed.

(** *** One call of [sync_resources] *)

(** The request [sync_resources] sends at time stamp [stamp]. *)
Definition sync_request (registry : RegistryUpdater.updater)
    (resource_type : string) (resources : list pyval) (stamp : string)
    : request :=
  Request "POST"
          (RegistryUpdater.api_url registry ++ "/api/sync/" ++ resource_type)
          (RegistryUpdater.session_headers registry) []
          (Some (PDict [("provider", PStr "cloudflare");
                        ("resources", PList resources);
                        ("sync_mode", PStr "full");
                        ("timestamp", PStr stamp)])).

Lemma sync_resources_run (registry : RegistryUpdater.updater)
    (resource_type : string) (resources : list pyval) (w : world) :
  exists v w',
    RegistryUpdater.sync_resources registry resource_type resources w
    = (Return v, w')
    /\ sent w'
       = (sent w ++ [sync_request registry resource_type resources
                                  (clock w (ticks w))])%list
    /\ files w' = files w
    /\ threads w' = threads w.
Proof.
  unfold RegistryUpdater.sync_resources, RegistryUpdater.session_post,
         sync_request.
  unfold bind at 1. unfold now_isoformat at 1. cbv beta iota.
  unfold try_except, bind, http. cbn [network sent files threads console clock ticks].
  destruct (network w) as [|[r|msg] rest].
  - eexists _, _. repeat split; reflexivity.
  - unfold raise_for_status.
    destruct ((400 <=? status_code r) && (status_code r <? 500));
      [eexists _, _; repeat split; reflexivity|].
    destruct ((500 <=? status_code r) && (status_code r <? 600));
      [eexists _, _; repeat split; reflexivity|].
    unfold response_json, ret, raise.
    destruct (body r); eexists _, _; repeat split; reflexivity.
  - eexists _, _. repeat split; reflexivity.
Qed.

(** *** One kind *)

(** The records of a kind among the fetched resources:
    [all_resources.get(resource_key, [])]. *)
Definition records (all_resources : dict (list pyval)) (key : string)
    : list pyval :=
  match dict_get all_resources key with Some l => l | None => [] end.

(** What one iteration of the loop does: nothing but a message when the
    key is unknown or has no record; otherwise one request to the registry
    and one entry, in [synced] or in [errors]. *)
Lemma sync_kind_cases (registry : RegistryUpdater.updater)
    (all_resources : dict (list pyval)) (s : summary) (key : string)
    (w : world) :
  exists s' w',
    sync_kind registry all_resources s key w = (Return s', w')
    /\ files w' = files w
    /\ threads w' = threads w
    /\ ((s' = s /\ sent w' = sent w
         /\ (dict_get available_types key = None
             \/ records all_resources key = []))
        \/ (exists resource_type,
              dict_get available_types key = Some resource_type
              /\ records all_resources key <> []
              /\ sent w'
                 = (sent w ++ [sync_request registry resource_type
                                 (records all_resources key)
                                 (clock w (ticks w))])%list
              /\ (s' = set_synced s key (len (records all_resources key))
                  \/ exists error, s' = set_error s key error))).
Proof.
  unfold sync_kind, records.
  destruct (dict_get available_types key) as [resource_type|].
  2:{ eexists _, _. split; [reflexivity|]. split; [reflexivity|].
      split; [reflexivity|]. left. auto. }
  destruct (dict_get all_resources key) as [[|x l]|].
  1,3: eexists _, _; (split; [reflexivity|]); (split; [reflexivity|]);
       (split; [reflexivity|]); left; auto.
  set (resources := x :: l).
  unfold bind at 1. unfold print at 1. cbv beta iota.
  match goal with
  | |- context [try_except _ _ _ ?w0] =>
      destruct (sync_resources_run registry resource_type resources w0)
        as (v & w1 & Hrun & Hsent & Hfiles & Hthreads)
  end.
  cbn [sent files threads clock ticks] in Hsent, Hfiles, Hthreads.
  unfold try_except. unfold bind at 1. rewrite Hrun.
  assert (Hdone : forall s' w',
             files w' = files w1 -> threads w' = threads w1 ->
             sent w' = sent w1 ->
             (s' = set_synced s key (len resources)
              \/ exists error, s' = set_error s key error) ->
             exists s'' w'',
               (Return s', w') = (Return s'', w'')
               /\ files w'' = files w
               /\ threads w'' = threads w
               /\ (s'' = s /\ sent w'' = sent w /\
                   (Some resource_type = None \/ resources = [])
                   \/ exists resource_type0,
                        Some resource_type = Some resource_type0
                        /\ resources <> []
                        /\ sent w''
                           = (sent w ++ [sync_request registry resource_type0
                                           resources (clock w (ticks w))])%list
                        /\ (s'' = set_synced s key (len resources)
                            \/ exists error, s'' = set_error s key error))).
  { intros s' w' Hf Ht Hs Hcase. exists s', w'.
    split; [reflexivity|]. split; [congruence|]. split; [congruence|].
    right. exists resource_type. split; [reflexivity|].
    split; [discriminate|]. split; [congruence | exact Hcase]. }
  destruct v as [| | | | |d];
    try (cbn; apply Hdone; try reflexivity; right; eexists; reflexivity).
  unfold get, bind, ret.
  destruct (dict_get d "success") as [success|].
  - destruct (truthy success).
    + apply Hdone; try reflexivity. left. reflexivity.
    + destruct (dict_get d "error");
        apply Hdone; try reflexivity; right; eexists; reflexivity.
  - cbn [truthy].
    destruct (dict_get d "error");
      apply Hdone; try reflexivity; right; eexists; reflexivity.
Qed.

(** *** The loop over the requested kinds *)

(** A sync request of the loop: for a requested, known kind that has at
    least one record. *)
Definition loop_request (registry : RegistryUpdater.updater)
    (all_resources : dict (list pyval)) (types : list string) (r : request)
    : Prop :=
  exists key resource_type stamp,
    In key types
    /\ dict_get available_types key = Some resource_type
    /\ records all_resources key <> []
    /\ r = sync_request registry resource_type (records all_resources key)
                        stamp.

(** The entries of a key in the two maps are those of [s]. *)
Definition same_entries (s s' : summary) (key : string) : Prop :=
  dict_mem (synced s') key = dict_mem (synced s) key
  /\ dict_mem (errors s') key = dict_mem (errors s) key.

Lemma sync_kinds_run (registry : RegistryUpdater.updater)
    (all_resources : dict (list pyval)) :
  forall (types : list string) (s : summary) (w : world),
    exists s' w',
      sync_kinds registry all_resources types s w = (Return s', w')
      /\ files w' = files w
      /\ threads w' = threads w
      /\ timestamp s' = timestamp s
      /\ (forall r, In r (sent w') ->
                    In r (sent w)
                    \/ loop_request registry all_resources types r)
      /\ (forall key, ~ In key types \/ records all_resources key = []
                      \/ dict_get available_types key = None ->
                      same_entries s s' key).
Proof.
  unfold sync_kinds.
  induction types as [|key types IH]; intros s w; cbn [for_each].
  - exists s, w. repeat split; auto.
  - destruct (sync_kind_cases registry all_resources s key w)
      as (s1 & w1 & Hrun & Hfiles & Hthreads & Hcase).
    rewrite (bind_run _ _ _ _ _ Hrun).
    destruct (IH s1 w1) as (s' & w' & Hrun' & Hfiles' & Hthreads' & Hstamp'
                            & Hsent' & Hsame').
    exists s', w'. split; [exact Hrun'|].
    split; [congruence|]. split; [congruence|].
    assert (Hstamp1 : timestamp s1 = timestamp s).
    { destruct Hcase as [(-> & _)|(ty & _ & _ & _ & [->|(e & ->)])];
        reflexivity. }
    split; [congruence|]. split.
    + intros r Hr. destruct (Hsent' r Hr) as [Hin|(k & ty & st & Hk & Hrest)].
      * destruct Hcase as [(_ & Hs & _)|(ty & Hty & Hne & Hs & _)].
        -- left. rewrite <- Hs. exact Hin.
        -- rewrite Hs in Hin. apply in_app_or in Hin.
           destruct Hin as [Hin|[<-|[]]]; [left; exact Hin|].
           right. exists key, ty, (clock w (ticks w)).
           repeat split; auto. left. reflexivity.
      * right. exists k, ty, st. destruct Hrest as (? & ? & ?).
        repeat split; auto. right. exact Hk.
    + intros k Hk.
      assert (Hstep : same_entries s s1 k).
      { destruct Hcase as [(-> & _)|(ty & Hty & Hne & _ & Hs1)];
          [split; reflexivity|].
        assert (Hkk : key <> k).
        { intros ->. destruct Hk as [Hk|[Hk|Hk]];
            [apply Hk; left; reflexivity | contradiction | congruence]. }
        destruct Hs1 as [->|(e & ->)]; split; cbn [synced errors set_synced set_error];
          try reflexivity; apply dict_mem_set_other; exact Hkk. }
      assert (Hrest : same_entries s1 s' k).
      { apply Hsame'. destruct Hk as [Hk|[Hk|Hk]]; auto.
        left. intros Hin. apply Hk. right. exact Hin. }
      destruct Hstep, Hrest. split; congruence.
Qed.

(** No key is in both maps. *)
Definition disjoint_maps (s : summary) : Prop :=
  forall key, dict_mem (synced s) key = true ->
              dict_mem (errors s) key = true -> False.

(** The keys of [keys] are in neither map. *)
Definition untouched (s : summary) (keys : list string) : Prop :=
  forall key, In key keys ->
              dict_mem (synced s) key = false
              /\ dict_mem (errors s) key = false.

Lemma sync_kinds_disjoint (registry : RegistryUpdater.updater)
    (all_resources : dict (list pyval)) :
  forall (types : list string) (s : summary) (w : world) s' w',
    NoDup types ->
    disjoint_maps s ->
    untouched s types ->
    sync_kinds registry all_resources types s w = (Return s', w') ->
    disjoint_maps s'.
Proof.
  unfold sync_kinds.
  induction types as [|key types IH]; intros s w s' w' Hnodup Hdis Hun Hrun;
    cbn [for_each] in Hrun.
  - inversion Hrun; subst. exact Hdis.
  - destruct (sync_kind_cases registry all_resources s key w)
      as (s1 & w1 & Hrun1 & _ & _ & Hcase).
    rewrite (bind_run _ _ _ _ _ Hrun1) in Hrun.
    inversion Hnodup as [|? ? Hnotin Hnodup']; subst.
    apply (IH s1 w1 s' w' Hnodup'); [| |exact Hrun].
    + destruct Hcase as [(-> & _)|(ty & _ & _ & _ & [->|(e & ->)])];
        [exact Hdis | |];
        intros k Hs He; cbn [synced errors set_synced set_error] in Hs, He.
      * rewrite dict_mem_set in Hs.
        destruct (String.eqb_spec key k) as [Heq|Hne].
        -- subst k. destruct (Hun key (or_introl eq_refl)) as [_ Hf].
           congruence.
        -- exact (Hdis k Hs He).
      * rewrite dict_mem_set in He.
        destruct (String.eqb_spec key k) as [Heq|Hne].
        -- subst k. destruct (Hun key (or_introl eq_refl)) as [Hf _].
           congruence.
        -- exact (Hdis k Hs He).
    + intros k Hk.
      assert (Hne : key <> k) by (intros ->; contradiction).
      destruct (Hun k (or_intror Hk)) as [H1 H2].
      destruct Hcase as [(-> & _)|(ty & _ & _ & _ & [->|(e & ->)])];
        cbn [synced errors set_synced set_error];
        rewrite ?dict_mem_set_other by exact Hne; auto.
Qed.

(** *** A kind that syncs and a kind whose sync fails *)


Lemma status_tests_pass (r : response) :
  ~ 400 <= status_code r < 600 ->
  (400 <=? status_code r) && (status_code r <? 500) = false
  /\ (500 <=? status_code r) && (status_code r <? 600) = false.
Proof.
  intros H. split; apply andb_false_iff;
    rewrite Z.leb_gt, Z.ltb_ge; lia.
Qed.



(** *** A whole run *)

(** The kinds a run goes through: [types_to_sync]. *)
Definition requested (resource_types : option (list string)) : list string :=
  match resource_types with
  | Some (t :: ts) => t :: ts
  | _ => dict_keys available_types
  end.

(** The world after one reading of the clock. *)
Definition tick (w : world) : world :=
  World (network w) (sent w) (console w) (files w) (clock w) (S (ticks w))
        (threads w).

(** The text of a file, [""] when there is none. *)
Definition file_content (w : world) (path : string) : string :=
  match dict_get (files w) path with Some c => c | None => "" end.

Definition the_registry : RegistryUpdater.updater :=
  RegistryUpdater.__init__ RegistryUpdater.default_api_url None.

(** [sync_fetched] is the loop, started on an empty summary, followed by
    the total. *)
Lemma sync_fetched_run (registry : RegistryUpdater.updater)
    (all_resources : dict (list pyval))
    (resource_types : option (list string)) (w : world) :
  exists s0 w',
    sync_kinds registry all_resources (requested resource_types)
               (Summary (clock w (ticks w)) [] [] 0) (tick w)
    = (Return s0, w')
    /\ sync_fetched registry all_resources resource_types w
       = (Return (set_total s0 (sum (dict_values (synced s0)))), w')
    /\ files w' = files w
    /\ threads w' = threads w.
Proof.
  destruct (sync_kinds_run registry all_resources (requested resource_types)
              (Summary (clock w (ticks w)) [] [] 0) (tick w))
    as (s0 & w' & Hrun & Hfiles & Hthreads & _).
  exists s0, w'. split; [exact Hrun|]. split; [|split; assumption].
  unfold sync_fetched. unfold bind at 1. unfold now_isoformat at 1.
  cbv beta iota. fold (tick w). fold (requested resource_types).
  rewrite (bind_run _ _ _ _ _ Hrun). reflexivity.
Qed.

Lemma health_check_run (registry : RegistryUpdater.updater) (w : world) :
  exists healthy w',
    RegistryUpdater.health_check registry w = (Return healthy, w')
    /\ files w' = files w
    /\ threads w' = threads w.
Proof.
  unfold RegistryUpdater.health_check, RegistryUpdater.session_get,
         try_except, bind, http.
  destruct (network w) as [|[r|msg] rest];
    eexists _, _; repeat split; reflexivity.
Qed.

(** The first part of a run, for any way of fetching that returns and
    writes no file: it returns, writes no file, and its summary is the one
    the loop builds from the fetched resources. *)
Lemma summary_with_run (fetch_all : M (dict (list pyval)))
    (resource_types : option (list string)) (w : world) :
  always_returns fetch_all ->
  keeps_files fetch_all ->
  exists all s0 w0 wa wb w1,
    sync_all_resources_summary_with fetch_all resource_types w
    = (Return (all, set_total s0 (sum (dict_values (synced s0)))), w1)
    /\ files w1 = files w
    /\ fetch_all wa = (Return all, wb)
    /\ sync_kinds the_registry all (requested resource_types)
                  (Summary (clock wb (ticks wb)) [] [] 0) (tick wb)
       = (Return s0, w1)
    /\ sent w0 = sent w
    /\ (forall r, In r (sent wa) ->
                  In r (sent w)
                  \/ req_url r = RegistryUpdater.api_url the_registry ++ "/health").
Proof.
  intros Hret Hkeep. unfold sync_all_resources_summary_with.
  fold the_registry.
  do 2 (unfold bind at 1; unfold print at 1; cbv beta iota).
  unfold bind at 1. unfold now_isoformat at 1. cbv beta iota.
  do 2 (unfold bind at 1; unfold print at 1; cbv beta iota).
  cbv zeta. fold the_registry.
  match goal with
  | |- context [bind (RegistryUpdater.health_check _) _ ?w0] =>
      set (wh := w0);
      assert (Hhealth : exists healthy w',
                 RegistryUpdater.health_check the_registry wh
                 = (Return healthy, w')
                 /\ files w' = files w
                 /\ (forall r, In r (sent w') ->
                        In r (sent w)
                        \/ req_url r
                           = RegistryUpdater.api_url the_registry ++ "/health"))
  end.
  { unfold RegistryUpdater.health_check, RegistryUpdater.session_get,
           try_except, bind, http.
    subst wh. cbn [network sent files console clock ticks threads].
    destruct (network w) as [|[r|msg] rest];
      eexists _, _; (split; [reflexivity|]); (split; [reflexivity|]);
      cbn [sent]; intros q Hq; apply in_app_or in Hq;
      (destruct Hq as [Hq|[<-|[]]]; [left; exact Hq | right; reflexivity]). }
  destruct Hhealth as (healthy & w2 & Hh & Hf2 & Hs2).
  rewrite (bind_run _ _ _ _ _ Hh).
  set (w3 := if negb healthy
             then World (network w2) (sent w2)
                        (console w2 ++
                         ["⚠ Registry health check failed, continuing anyway..."])
                        (files w2) (clock w2) (ticks w2) (threads w2)
             else w2).
  assert (Hwarn : (if negb healthy
                   then print "⚠ Registry health check failed, continuing anyway..."
                   else ret tt) w2 = (Return tt, w3)).
  { subst w3. destruct healthy; reflexivity. }
  rewrite (bind_run _ _ _ _ _ Hwarn).
  assert (Hf3 : files w3 = files w) by (subst w3; destruct healthy; exact Hf2).
  assert (Hs3 : sent w3 = sent w2) by (subst w3; destruct healthy; reflexivity).
  destruct (Hret w3) as (all & Hall).
  destruct (fetch_all w3) as [ra wb] eqn:Hfetch. cbn [fst] in Hall. subst ra.
  rewrite (bind_run _ _ _ _ _ Hfetch).
  destruct (sync_fetched_run the_registry all resource_types wb)
    as (s0 & w1 & Hloop & Hfetched & Hf1 & _).
  rewrite (bind_run _ _ _ _ _ Hfetched).
  exists all, s0, wh, w3, wb, w1.
  split; [reflexivity|]. split.
  { rewrite Hf1. pose proof (Hkeep w3) as Hk. rewrite Hfetch in Hk.
    cbn [snd] in Hk. congruence. }
  split; [exact Hfetch|]. split; [exact Hloop|]. split; [reflexivity|].
  intros r Hr. rewrite Hs3 in Hr. apply Hs2. exact Hr.
Qed.

Lemma for_each_print {A : Type} (f : A -> string) (xs : list A) (w : world) :
  for_each xs tt (fun _ x => print (f x)) w
  = (Return tt,
     World (network w) (sent w) (console w ++ map f xs) (files w) (clock w)
           (ticks w) (threads w)).
Proof.
  revert w. induction xs as [|x xs IH]; intros w; cbn [for_each map].
  - destruct w. cbn. rewrite app_nil_r. reflexivity.
  - unfold bind, print at 1. rewrite IH. cbn. rewrite <- app_assoc.
    reflexivity.
Qed.



Import CloudflareFetcherSpec.

(** *** The two ways of fetching used below *)

Lemma get_all_resources_returns (cf : CloudflareFetcher.fetcher) :
  always_returns (CloudflareFetcher.get_all_resources cf).
Proof.
  intros w. unfold CloudflareFetcher.get_all_resources.
  destruct (get_all_resources_from_returns
              (CloudflareFetcher.get_domains cf)
              (CloudflareFetcher.get_workers cf)
              (CloudflareFetcher.get_pages cf)
              (CloudflareFetcher.get_r2_buckets cf)
              (CloudflareFetcher.get_kv_namespaces cf)
              (CloudflareFetcher.get_durable_objects cf) w)
    as (resources & w' & Hrun & _);
    [ apply get_domains_terminates | apply get_workers_terminates
    | apply get_pages_terminates | apply get_r2_buckets_terminates
    | apply get_kv_namespaces_terminates
    | apply get_durable_objects_terminates | ].
  exists resources. rewrite Hrun. reflexivity.
Qed.

Lemma get_all_resources_with_returns (o : kind -> fetch_outcome) :
  always_returns (get_all_resources_with o).
Proof.
  intros w. rewrite get_all_resources_with_run. eexists. reflexivity.
Qed.

Lemma get_all_resources_with_keeps_files (o : kind -> fetch_outcome) :
  keeps_files (get_all_resources_with o).
Proof. intros w. rewrite get_all_resources_with_run. reflexivity. Qed.

(** The first part of a run of [sync_all_resources] returns. *)
Lemma summary_run (cf : CloudflareFetcher.fetcher)
    (resource_types : option (list string)) (w : world) :
  exists all s0 wb w1,
    sync_all_resources_summary cf resource_types w
    = (Return (all, set_total s0 (sum (dict_values (synced s0)))), w1)
    /\ files w1 = files w
    /\ sync_kinds the_registry all (requested resource_types)
                  (Summary (clock wb (ticks wb)) [] [] 0) (tick wb)
       = (Return s0, w1).
Proof.
  destruct (summary_with_run (CloudflareFetcher.get_all_resources cf)
              resource_types w (get_all_resources_returns cf)
              (CloudflareFetcherFiles.get_all_resources_keeps_files cf))
    as (all & s0 & w0 & wa & wb & w1 & Hrun & Hfiles & _ & Hloop & _).
  exists all, s0, wb, w1. repeat split; assumption.
Qed.


(** *** Worlds for concrete runs *)

Definition ok_response (body : pyval) : response :=
  Response 200 "OK" "" "" (inr body).

Definition zone (id : string) : pyval :=
  PDict [("id", PStr id); ("name", PStr (id ++ ".example"));
         ("status", PStr "active"); ("type", PStr "full");
         ("created_on", PStr "2024-01-01"); ("modified_on", PStr "2024-01-02")].

(** A page of a list endpoint that reports its own length as the total. *)
Definition listing (items : list pyval) : response :=
  ok_response (PDict [("success", PBool true);
                      ("result", PList items);
                      ("result_info",
                       PDict [("total_count", PInt (len items))])]).

Definition accepted : response :=
  ok_response (PDict [("success", PBool true)]).

(** The registry is healthy; the account has the given zones and the five
    other fetches fail; then come the answers to the sync calls. *)
Definition zones_only (zones : list pyval) (syncs : list outcome) : world :=
  world_of ([Answer (ok_response (PDict []));
             Answer (listing zones);
             Failure "offline"; Failure "offline"; Failure "offline";
             Failure "offline"; Failure "offline"] ++ syncs).


(** A whole run of that kind on the code of the fetcher: three zones and
    one Pages project are fetched, the registry accepts the zones and
    answers the sync of the project with a 500. *)
Example partial_failure_run :
  let w := world_of [Answer (ok_response (PDict []));
                     Answer (listing [zone "a"; zone "b"; zone "c"]);
                     Failure "offline";
                     Answer (listing [PDict [("id", PStr "p1");
                                             ("name", PStr "site")]]);
                     Failure "offline"; Failure "offline"; Failure "offline";
                     Answer accepted;
                     Answer (Response 500 "Internal Server Error"
                                      "https://chitty.cc/registry/api/sync/pages"
                                      "" (inl "Expecting value"))] in
  exists all ts w1 w2,
    sync_all_resources_summary demo_fetcher (Some ["domains"; "pages"]) w
    = (Return (all,
               Summary ts [("domains", 3)]
                       [("pages",
                         PStr ("500 Server Error: Internal Server Error "
                               ++ "for url: "
                               ++ "https://chitty.cc/registry/api/sync/pages"))]
                       3), w1)
    /\ sync_all_resources demo_fetcher (Some ["domains"; "pages"]) w
       = (Return 1, w2).
Proof. vm_compute. eexists _, _, _, _. split; reflexivity. Qed.

(** *** C7 *)

(** C7 as it is stated: after every run, no kind is in both maps. *)
Definition every_run_has_disjoint_maps : Prop :=
  forall (cf : CloudflareFetcher.fetcher)
         (resource_types : option (list string)) (w : world) all s w1,
    sync_all_resources_summary cf resource_types w = (Return (all, s), w1) ->
    disjoint_maps s.

(** A run asked for [domains] twice ([--type domains domains]): the first
    sync is accepted, the second one fails, and [domains] is in both
    maps. *)
Lemma repeated_kind_in_both_maps : ~ every_run_has_disjoint_maps.
Proof.
  intros H.
  pose (w := zones_only [zone "z1"] [Answer accepted; Failure "timeout"]).
  pose (run := sync_all_resources_summary demo_fetcher
                 (Some ["domains"; "domains"]) w).
  assert (Hs : exists all ts w1,
             run = (Return (all, Summary ts [("domains", 1)]
                                        [("domains", PStr "timeout")] 1), w1)).
  { vm_compute. eexists _, _, _. reflexivity. }
  destruct Hs as (all & ts & w1 & Hrun).
  apply (H _ _ _ _ _ _ Hrun "domains"); reflexivity.
Qed.

(** C7, amended.  When no kind is requested twice (as when all kinds are
    synced by default), no kind is in both [synced] and [errors]. *)
Theorem maps_disjoint_without_repetition (cf : CloudflareFetcher.fetcher)
    (resource_types : option (list string)) (w : world)
    (all : dict (list pyval)) (s : summary) (w1 : world) :
  NoDup (requested resource_types) ->
  sync_all_resources_summary cf resource_types w = (Return (all, s), w1) ->
  disjoint_maps s.
Proof.
  intros Hnodup Hrun.
  destruct (summary_run cf resource_types w)
    as (all' & s0 & wb & w1' & Hrun' & _ & Hloop).
  rewrite Hrun' in Hrun. inversion Hrun; subst.
  assert (Hdis : disjoint_maps s0).
  { eapply sync_kinds_disjoint; [exact Hnodup | | | exact Hloop].
    - intros key Hs _. discriminate.
    - intros key _. split; reflexivity. }
  exact Hdis.
Qed.

Lemma maps_disjoint_without_repetition_witness :
  exists all s w1,
    NoDup (requested None)
    /\ sync_all_resources_summary demo_fetcher None
         (zones_only [zone "z1"] [Answer accepted]) = (Return (all, s), w1)
    /\ disjoint_maps s.
Proof.
  assert (Hnodup : NoDup (requested None)).
  { repeat constructor; simpl; intuition discriminate. }
  destruct (summary_run demo_fetcher None
              (zones_only [zone "z1"] [Answer accepted]))
    as (all & s0 & wb & w1 & Hrun & _).
  exists all, (set_total s0 (sum (dict_values (synced s0)))), w1.
  split; [exact Hnodup|]. split; [exact Hrun|].
  exact (maps_disjoint_without_repetition demo_fetcher None _ all _ w1
           Hnodup Hrun).
Defined.

(** *** C6 *)

(** The resource type under which the registry syncs a kind. *)
Definition type_of (k : kind) : string :=
  match k with
  | Domains => "domain"
  | Workers => "worker"
  | Pages => "pages"
  | R2Buckets => "r2_bucket"
  | KVNamespaces => "kv_namespace"
  | DurableObjects => "durable_object"
  end.

Lemma available_key_of (k : kind) :
  dict_get available_types (key_of k) = Some (type_of k).
Proof. destruct k; reflexivity. Qed.

Lemma dict_get_In {V : Type} (d : dict V) (k : string) (v : V) :
  dict_get d k = Some v -> In (k, v) d.
Proof.
  induction d as [|[k' v'] d IH]; simpl; [discriminate|].
  destruct (String.eqb_spec k' k) as [->|Hne].
  - intros E. inversion E. left. reflexivity.
  - intros E. right. apply IH. exact E.
Qed.

(** Different kinds are synced under different resource types. *)
Lemma available_types_injective (k1 k2 t : string) :
  dict_get available_types k1 = Some t ->
  dict_get available_types k2 = Some t ->
  k1 = k2.
Proof.
  intros H1 H2. apply dict_get_In in H1, H2. simpl in H1, H2.
  repeat match goal with
         | H : _ \/ _ |- _ => destruct H
         | H : False |- _ => contradiction
         | H : (_, _) = (_, _) |- _ => inversion H; clear H
         end; subst; try reflexivity; discriminate.
Qed.

(** The address of the sync call for a kind. *)
Definition sync_url (k : kind) : string :=
  RegistryUpdater.api_url the_registry ++ "/api/sync/" ++ type_of k.

(** A run in which the six fetches end as [o] tells. *)
Definition run_with (o : kind -> fetch_outcome)
    (resource_types : option (list string))
    : M (dict (list pyval) * summary) :=
  sync_all_resources_summary_with (get_all_resources_with o) resource_types.

Lemma dict_get_fetched (o : kind -> fetch_outcome) (k : kind) :
  dict_get (map (fun k => (key_of k, fetched (o k))) all_kinds) (key_of k)
  = Some (fetched (o k)).
Proof. destruct k; reflexivity. Qed.

(** C6 as it is stated: a requested kind with zero records is skipped,
    and a requested kind whose fetch raised is recorded in [errors]. *)
Definition zero_records_skipped_and_fetch_errors_recorded : Prop :=
  forall (o : kind -> fetch_outcome) (resource_types : option (list string))
         (w : world) all s w1 (k : kind),
    run_with o resource_types w = (Return (all, s), w1) ->
    In (key_of k) (requested resource_types) ->
    (o k = inr [] ->
     dict_mem (synced s) (key_of k) = false
     /\ dict_mem (errors s) (key_of k) = false
     /\ (forall r, In r (sent w1) -> req_url r = sync_url k -> In r (sent w)))
    /\ (forall e, o k = inl e -> dict_mem (errors s) (key_of k) = true).

(** The fetch of the domains raises, as [_paginated_fetch] does on a 500
    answer, and the other kinds have no record: [errors] stays empty. *)
Lemma fetch_error_is_not_recorded :
  ~ zero_records_skipped_and_fetch_errors_recorded.
Proof.
  intros H.
  pose (o := fun k : kind =>
               match k with
               | Domains => inl (Exn Exception "API error: 500 - down")
               | _ => inr []
               end : fetch_outcome).
  assert (Hs : exists all ts w1,
             run_with o None (world_of [])
             = (Return (all, Summary ts [] [] 0), w1)).
  { vm_compute. eexists _, _, _. reflexivity. }
  destruct Hs as (all & ts & w1 & Hrun).
  destruct (H o None (world_of []) all _ w1 Domains Hrun) as [_ Hrec].
  { left. reflexivity. }
  specialize (Hrec _ eq_refl). discriminate.
Qed.

(** The same on the code of the fetcher itself: the provider answers the
    request for the zones with a 500, [get_all_resources] prints the
    error, and the run for [domains] ends with an empty [errors] map and
    status 0. *)
Example fetch_error_run :
  let w := world_of [Answer (ok_response (PDict []));
                     Answer (Response 500 "Internal Server Error" "" "down"
                                      (inl "Expecting value"))] in
  exists w2,
    sync_all_resources demo_fetcher (Some ["domains"]) w = (Return 0, w2)
    /\ In "Error fetching domains: API error: 500 - down" (console w2)
    /\ exists all ts w1,
         sync_all_resources_summary demo_fetcher (Some ["domains"]) w
         = (Return (all, Summary ts [] [] 0), w1).
Proof.
  vm_compute. eexists. split; [reflexivity|]. split.
  - repeat (first [left; reflexivity | right]).
  - eexists _, _, _. reflexivity.
Qed.

(** C6, amended.  A kind for which [get_all_resources] has no record,
    because its fetch returned none or because its fetch raised, is
    skipped: it is in neither map of the summary, and no sync call is made
    for it.  The two cases differ only on the console, where
    [get_all_resources] prints the error of a fetch that raised.  On the
    code of the fetcher as well, a kind without record is in neither
    map. *)
Theorem zero_records_and_fetch_errors_skipped :
  (forall (o : kind -> fetch_outcome) (resource_types : option (list string))
          (w : world) all s w1 (k : kind),
      run_with o resource_types w = (Return (all, s), w1) ->
      fetched (o k) = [] ->
      dict_get all (key_of k) = Some []
      /\ dict_mem (synced s) (key_of k) = false
      /\ dict_mem (errors s) (key_of k) = false
      /\ (forall r, In r (sent w1) -> req_url r = sync_url k ->
                    In r (sent w)))
  /\ (forall (o : kind -> fetch_outcome) (w : world) (k : kind) (e : exn),
        o k = inl e ->
        fetched (o k) = []
        /\ exists all w',
             get_all_resources_with o w = (Return all, w')
             /\ dict_get all (key_of k) = Some []
             /\ In ("Error fetching " ++ label_of k ++ ": " ++ exn_str e)
                   (console w'))
  /\ (forall (cf : CloudflareFetcher.fetcher)
             (resource_types : option (list string)) (w : world) all s w1
             (key : string),
        sync_all_resources_summary cf resource_types w
        = (Return (all, s), w1) ->
        records all key = [] ->
        dict_mem (synced s) key = false /\ dict_mem (errors s) key = false).
Proof.
  split; [|split].
  - intros o resource_types w all s w1 k Hrun Hzero.
    destruct (summary_with_run (get_all_resources_with o) resource_types w
                (get_all_resources_with_returns o)
                (get_all_resources_with_keeps_files o))
      as (all' & s0 & w0 & wa & wb & w1' & Hrun' & _ & Hfetch & Hloop & _ & Hbefore).
    unfold run_with in Hrun. rewrite Hrun' in Hrun.
    inversion Hrun; subst all' s w1'. clear Hrun.
    rewrite get_all_resources_with_run in Hfetch.
    assert (Hall : all = map (fun k => (key_of k, fetched (o k))) all_kinds)
      by congruence.
    assert (Hwb : wb = add_lines wa (error_lines o)) by congruence.
    clear Hfetch.
    assert (Hget : dict_get all (key_of k) = Some []).
    { rewrite Hall, dict_get_fetched, Hzero. reflexivity. }
    assert (Hrec : records all (key_of k) = []).
    { unfold records. rewrite Hget. reflexivity. }
    destruct (sync_kinds_run the_registry all (requested resource_types)
                (Summary (clock wb (ticks wb)) [] [] 0) (tick wb))
      as (s' & w' & Hrun2 & _ & _ & _ & Hsent & Hsame).
    rewrite Hloop in Hrun2. inversion Hrun2; subst s' w'. clear Hrun2.
    destruct (Hsame (key_of k)) as [Hs He]; [right; left; exact Hrec|].
    split; [exact Hget|]. split; [exact Hs|]. split; [exact He|].
    intros r Hr Hurl.
    destruct (Hsent r Hr) as [Hin|(key & ty & stamp & _ & Hty & Hne & ->)].
    + cbn [tick sent] in Hin. rewrite Hwb in Hin. cbn [add_lines sent] in Hin.
      destruct (Hbefore r Hin) as [Hw|Hhealth]; [exact Hw|].
      exfalso. rewrite Hhealth in Hurl. unfold sync_url in Hurl.
      apply append_inj_l in Hurl. destruct k; discriminate.
    + exfalso. unfold sync_url, sync_request in Hurl. cbn [req_url] in Hurl.
      apply append_inj_l in Hurl. apply append_inj_l in Hurl. subst ty.
      rewrite (available_types_injective key (key_of k) (type_of k) Hty
                 (available_key_of k)) in Hne.
      contradiction.
  - intros o w k e Hk. split; [rewrite Hk; reflexivity|].
    eexists _, _. split; [apply get_all_resources_with_run|].
    split; [rewrite dict_get_fetched, Hk; reflexivity|].
    cbn [add_lines console]. apply in_or_app. right.
    unfold error_lines. apply in_flat_map. exists k. split.
    + destruct k; simpl; tauto.
    + rewrite Hk. left. reflexivity.
  - intros cf resource_types w all s w1 key Hrun Hrec.
    destruct (summary_run cf resource_types w)
      as (all' & s0 & wb & w1' & Hrun' & _ & Hloop).
    rewrite Hrun' in Hrun. inversion Hrun; subst all' s w1'. clear Hrun.
    destruct (sync_kinds_run the_registry all (requested resource_types)
                (Summary (clock wb (ticks wb)) [] [] 0) (tick wb))
      as (s' & w' & Hrun2 & _ & _ & _ & _ & Hsame).
    rewrite Hloop in Hrun2. inversion Hrun2; subst s' w'.
    destruct (Hsame key) as [Hs He]; [right; left; exact Hrec|].
    split; [exact Hs | exact He].
Qed.

(** The theorem at a run in which the fetch of the domains raises and
    the account has one Worker. *)
Lemma zero_records_and_fetch_errors_skipped_witness :
  let o := fun k : kind =>
             match k with
             | Domains => inl (Exn Exception "API error: 500 - down")
             | Workers => inr [PDict [("id", PStr "api")]]
             | _ => inr []
             end : fetch_outcome in
  let w := world_of [Answer (ok_response (PDict [])); Answer accepted] in
  exists all s w1,
    run_with o None w = (Return (all, s), w1)
    /\ fetched (o Domains) = []
    /\ dict_get all "domains" = Some []
    /\ dict_mem (synced s) "domains" = false
    /\ dict_mem (errors s) "domains" = false
    /\ (forall r, In r (sent w1) -> req_url r = sync_url Domains ->
                  In r (sent w)).
Proof.
  intros o w.
  destruct (summary_with_run (get_all_resources_with o) None w
              (get_all_resources_with_returns o)
              (get_all_resources_with_keeps_files o))
    as (all & s0 & _ & _ & _ & w1 & Hrun & _).
  exists all, (set_total s0 (sum (dict_values (synced s0)))), w1.
  split; [exact Hrun|]. split; [reflexivity|].
  exact (proj1 zero_records_and_fetch_errors_skipped o None w all _ w1
               Domains Hrun eq_refl).
Defined.

(** *** C8 *)

(** The number of newline characters of a text. *)
Fixpoint newlines (s : string) : nat :=
  match s with
  | EmptyString => O
  | String c s' =>
      ((if Ascii.eqb c "010" then 1 else 0) + newlines s')%nat
  end.

Lemma newlines_app (a b : string) :
  newlines (a ++ b) = (newlines a + newlines b)%nat.
Proof.
  induction a as [|c a IH]; cbn [append newlines]; [reflexivity|].
  rewrite IH. lia.
Qed.









End SyncAllSpec.

(** ** The fetcher: a refusal on any page ends the fetch *)

Module CloudflareFetcherFailures.
Import Py Env CloudflareFetcher MonadFacts CloudflareFetcherSpec.
Local Open Scope monad_scope.

(** The ways in which the answer to one request of [_paginated_fetch]
    ends the fetch, with the exception each one raises. *)
Inductive refuses : outcome -> exn -> Prop :=
| refuses_transport (msg : string) :
    refuses (Failure msg) (Exn RequestException msg)
| refuses_status (r : response) :
    status_code r <> 200 ->
    refuses (Answer r)
            (Exn Exception ("API error: " ++ str_int (status_code r)
                            ++ " - " ++ text r))
| refuses_not_json (r : response) (msg : string) :
    status_code r = 200 ->
    body r = inl msg ->
    refuses (Answer r) (Exn RequestException msg)
| refuses_no_success (r : response) (data : dict pyval) :
    status_code r = 200 ->
    body r = inr (PDict data) ->
    dict_get data "success" = None ->
    refuses (Answer r) (Exn KeyError "'success'")
| refuses_unsuccessful (r : response) (data : dict pyval)
                       (success : pyval) :
    status_code r = 200 ->
    body r = inr (PDict data) ->
    dict_get data "success" = Some success ->
    truthy success = false ->
    refuses (Answer r)
            (Exn Exception
                 ("API request failed: "
                  ++ str match dict_get data "errors" with
                         | Some errors => errors
                         | None => PStr "Unknown error"
                         end)).

Section Pagination.
Variable self : fetcher.
Variable endpoint : string.
Variable params : option (dict pyval).

(** One iteration of the loop on an answer that ends the fetch. *)
Lemma paginated_fetch_loop_refused (bad : outcome) (e : exn)
    (rest : list outcome) (bound : nat) (page : Z) (acc : list pyval)
    (w : world) :
  refuses bad e ->
  network w = bad :: rest ->
  paginated_fetch_loop self endpoint params 50 (S bound) page acc w
  = (Raise e, after_request self endpoint params w rest page).
Proof.
  intros Hbad Hnet. cbn [paginated_fetch_loop]. unfold requests_get.
  run_monad. unfold http. rewrite Hnet.
  fold (page_request self endpoint params page).
  destruct Hbad as [msg|r Hs|r msg Hs Hb|r data Hs Hb Hk
                   |r data success Hs Hb Hk Ht];
    cbv beta iota zeta.
  - reflexivity.
  - destruct (Z.eqb_spec (status_code r) 200) as [E|E]; [contradiction|].
    reflexivity.
  - rewrite Hs. cbn [Z.eqb Pos.eqb negb]. rewrite Hb. reflexivity.
  - rewrite Hs. cbn [Z.eqb Pos.eqb negb]. rewrite Hb. cbv beta iota.
    rewrite Hk. reflexivity.
  - rewrite Hs. cbn [Z.eqb Pos.eqb negb]. rewrite Hb. cbv beta iota.
    rewrite Hk. cbv beta iota. rewrite Ht. cbn [negb].
    destruct (dict_get data "errors"); reflexivity.
Qed.

Lemma paginated_fetch_loop_aborts (total : Z) (pages : list (list pyval))
    (rs : list response) (bad : outcome) (e : exn) :
  0 <= total ->
  Forall2 (page_response (Some total)) pages rs ->
  refuses bad e ->
  forall (page : Z) (acc : list pyval) (bound : nat) (w : world)
         (rest : list outcome),
    1 <= page ->
    page + Z.of_nat (List.length pages) <= pages_needed total ->
    (List.length pages < bound)%nat ->
    network w = (map Answer rs ++ bad :: rest)%list ->
    exists w',
      paginated_fetch_loop self endpoint params 50 bound page acc w
      = (Raise e, w')
      /\ network w' = rest
      /\ sent w'
         = (sent w
            ++ map (page_request self endpoint params)
                   (page_numbers page (S (List.length pages))))%list
      /\ console w' = console w
      /\ files w' = files w.
Proof.
  intros Ht Hpages Hbad.
  induction Hpages as [|p r ps rs' Hp Hps IH];
    intros page acc bound w rest Hpage Hlen Hbound Hnet.
  - destruct bound as [|bound]; [cbn [List.length] in Hbound; lia|].
    cbn [map app] in Hnet.
    rewrite (paginated_fetch_loop_refused bad e rest bound page acc w
               Hbad Hnet).
    eexists. split; [reflexivity|]. repeat split; reflexivity.
  - destruct bound as [|bound]; [cbn [List.length] in Hbound; lia|].
    cbn [map app] in Hnet. cbn [List.length] in Hlen, Hbound.
    rewrite (paginated_fetch_loop_step self endpoint params (Some total)
               p r _ _ _ _ _ Hnet Hp).
    rewrite pages_needed_spec by lia.
    destruct (Z.leb_spec (pages_needed total) page) as [Hdone|Hmore];
      [lia|].
    destruct (IH (page + 1) (acc ++ p)%list bound
                 (after_request self endpoint params w
                    (map Answer rs' ++ bad :: rest)%list page) rest)
      as (w' & Hrun & Hnet' & Hsent & Hcons & Hfiles);
      try lia; [reflexivity|].
    exists w'. split; [exact Hrun|]. split; [exact Hnet'|].
    split; [|split; assumption].
    rewrite Hsent. cbn [after_request sent].
    rewrite <- app_assoc. reflexivity.
Qed.

(** A refusal on any page ends the whole fetch with the exception of
    that page: the items of the pages before are not returned, and no
    request follows. *)
Theorem paginated_fetch_aborts (total : Z) (pages : list (list pyval))
    (rs : list response) (bad : outcome) (e : exn) (rest : list outcome)
    (w : world) :
  0 <= total ->
  Z.of_nat (List.length pages) < pages_needed total ->
  Forall2 (page_response (Some total)) pages rs ->
  refuses bad e ->
  network w = (map Answer rs ++ bad :: rest)%list ->
  exists w',
    _paginated_fetch self endpoint params w = (Raise e, w')
    /\ network w' = rest
    /\ sent w'
       = (sent w
          ++ map (page_request self endpoint params)
                 (page_numbers 1 (S (List.length pages))))%list
    /\ console w' = console w
    /\ files w' = files w.
Proof.
  intros Ht Hlen Hpages Hbad Hnet. unfold _paginated_fetch.
  apply (paginated_fetch_loop_aborts total pages rs bad e Ht Hpages Hbad);
    try lia; [|exact Hnet].
  rewrite Hnet, length_app, length_map. cbn [List.length].
  pose proof (Forall2_length Hpages). lia.
Qed.

End Pagination.

(** The theorem at a collection of 100 items whose second page is
    answered with a 500. *)
Lemma paginated_fetch_aborts_witness :
  let page := map demo_item (seq 0 50) in
  let down :=
    Response 500 "Internal Server Error" "" "down" (inl "Expecting value") in
  exists w',
    _paginated_fetch demo_fetcher "zones" None
                     (world_of [Answer (demo_answer page 100); Answer down])
    = (Raise (Exn Exception "API error: 500 - down"), w')
    /\ network w' = []
    /\ sent w' = map (page_request demo_fetcher "zones" None) [1; 2].
Proof.
  intros page down.
  destruct (paginated_fetch_aborts demo_fetcher "zones" None 100 [page]
              [demo_answer page 100] (Answer down)
              (Exn Exception "API error: 500 - down") []
              (world_of [Answer (demo_answer page 100); Answer down]))
    as (w' & Hrun & Hnet & Hsent & _).
  - lia.
  - reflexivity.
  - repeat constructor.
    eexists _, _. repeat split; try reflexivity.
    eexists. split; reflexivity.
  - apply (refuses_status down). discriminate.
  - reflexivity.
  - exists w'. repeat split; assumption.
Defined.

End CloudflareFetcherFailures.

(** ** The fetcher: the records of the zones, the buckets and the Workers *)

Module CloudflareFetcherRecords.
Import Py Env CloudflareFetcher MonadFacts CloudflareFetcherSpec.
Local Open Scope monad_scope.

(** *** Steps that leave the world alone *)

(** [m] returns [a], whatever the world, and leaves it as it is. *)
Definition yields {A : Type} (m : M A) (a : A) : Prop :=
  forall w, m w = (Return a, w).

(** [m] raises [e], whatever the world, and leaves it as it is. *)
Definition fails {A : Type} (m : M A) (e : exn) : Prop :=
  forall w, m w = (Raise e, w).

Lemma yields_ret {A : Type} (a : A) : yields (ret a) a.
Proof. intros w. reflexivity. Qed.

Lemma yields_bind {A B : Type} (m : M A) (f : A -> M B) (a : A) (b : B) :
  yields m a -> yields (f a) b -> yields (bind m f) b.
Proof. intros Hm Hf w. unfold bind. rewrite Hm. apply Hf. Qed.

Lemma fails_bind {A B : Type} (m : M A) (f : A -> M B) (e : exn) :
  fails m e -> fails (bind m f) e.
Proof. intros Hm w. unfold bind. rewrite Hm. reflexivity. Qed.

Lemma fails_after {A B : Type} (m : M A) (f : A -> M B) (a : A) (e : exn) :
  yields m a -> fails (f a) e -> fails (bind m f) e.
Proof. intros Hm Hf w. unfold bind. rewrite Hm. apply Hf. Qed.

Lemma yields_getitem (d : dict pyval) (k : string) (v : pyval) :
  dict_get d k = Some v -> yields (getitem (PDict d) k) v.
Proof. intros H w. cbn [getitem]. rewrite H. reflexivity. Qed.

Lemma fails_getitem (d : dict pyval) (k : string) :
  dict_get d k = None ->
  fails (getitem (PDict d) k) (Exn KeyError (repr_str k)).
Proof. intros H w. cbn [getitem]. rewrite H. reflexivity. Qed.

(** The value of a key, or a default: [d.get(k, default)]. *)
Definition field (d : dict pyval) (k : string) (default : pyval) : pyval :=
  match dict_get d k with Some v => v | None => default end.

Lemma yields_get (d : dict pyval) (k : string) (default : pyval) :
  yields (get (PDict d) k default) (field d k default).
Proof.
  intros w. cbn [get]. unfold field. destruct (dict_get d k); reflexivity.
Qed.

Lemma for_each_yields {A B : Type} (f : A -> M B) (g : A -> B)
    (xs : list A) :
  Forall (fun x => yields (f x) (g x)) xs ->
  forall acc,
    yields (for_each xs acc (fun acc x => y <- f x ;; ret (acc ++ [y])%list))
           (acc ++ map g xs)%list.
Proof.
  induction 1 as [|x xs Hx Hxs IH]; intros acc w; cbn [for_each map].
  - rewrite app_nil_r. reflexivity.
  - unfold bind at 1. unfold bind at 1. rewrite Hx. unfold ret at 1.
    rewrite IH. rewrite <- app_assoc. reflexivity.
Qed.

(** A comprehension whose items all yield is the list of what they
    yield. *)
Lemma comprehension_yields {A B : Type} (f : A -> M B) (g : A -> B)
    (xs : list A) :
  Forall (fun x => yields (f x) (g x)) xs ->
  yields (comprehension f xs) (map g xs).
Proof. intros H. apply (for_each_yields f g xs H []). Qed.

Lemma for_each_fails {A B : Type} (f : A -> M B) (g : A -> B)
    (xs : list A) (x : A) (ys : list A) (e : exn) :
  Forall (fun x => yields (f x) (g x)) xs ->
  fails (f x) e ->
  forall acc,
    fails (for_each (xs ++ x :: ys) acc
             (fun acc x => y <- f x ;; ret (acc ++ [y])%list)) e.
Proof.
  intros Hxs Hx. induction Hxs as [|x0 xs Hx0 Hxs IH]; intros acc w;
    cbn [for_each app].
  - unfold bind at 1. unfold bind at 1. rewrite Hx. reflexivity.
  - unfold bind at 1. unfold bind at 1. rewrite Hx0. unfold ret at 1.
    apply IH.
Qed.

(** A comprehension fails with the exception of its first item that
    fails: what the items before yielded is lost. *)
Lemma comprehension_fails {A B : Type} (f : A -> M B) (g : A -> B)
    (xs : list A) (x : A) (ys : list A) (e : exn) :
  Forall (fun x => yields (f x) (g x)) xs ->
  fails (f x) e ->
  fails (comprehension f (xs ++ x :: ys)) e.
Proof. intros Hxs Hx. apply (for_each_fails f g xs x ys e Hxs Hx []). Qed.

(** *** The records of the zones *)

Definition zone_params (self : fetcher) : dict pyval :=
  [("account.id", PStr (account_id self));
   ("status", PStr "active,pending,initializing,moved")].

(** The keys [get_domains] reads with [zone[...]], in the order in which
    it reads them. *)
Definition required_zone_keys : list string :=
  ["id"; "name"; "status"; "type"; "created_on"; "modified_on"].

(** A zone that [get_domains] can describe: an object with the required
    keys, whose [plan], when it has one, is an object. *)
Definition complete_zone (zone : pyval) : bool :=
  match zone with
  | PDict d =>
      forallb (dict_mem d) required_zone_keys
      && match dict_get d "plan" with
         | None | Some (PDict _) => true
         | Some _ => false
         end
  | _ => false
  end.

(** The record of a complete zone. *)
Definition domain_record (zone : pyval) : pyval :=
  match zone with
  | PDict d =>
      PDict [("id", field d "id" PNone);
             ("name", field d "name" PNone);
             ("status", field d "status" PNone);
             ("type", field d "type" PNone);
             ("name_servers", field d "name_servers" (PList []));
             ("created_on", field d "created_on" PNone);
             ("modified_on", field d "modified_on" PNone);
             ("plan",
              match dict_get d "plan" with
              | Some (PDict plan) => field plan "name" (PStr "free")
              | _ => PStr "free"
              end);
             ("resource_type", PStr "domain")]
  | _ => PNone
  end.

(** The first required key that a zone lacks. *)
Definition first_missing (d : dict pyval) : option string :=
  find (fun k => negb (dict_mem d k)) required_zone_keys.

(** What [get_domains] does with one zone. *)
Definition describe_zone (zone : pyval) : M pyval :=
  id <- getitem zone "id" ;;
  name <- getitem zone "name" ;;
  status <- getitem zone "status" ;;
  type <- getitem zone "type" ;;
  name_servers <- get zone "name_servers" (PList []) ;;
  created_on <- getitem zone "created_on" ;;
  modified_on <- getitem zone "modified_on" ;;
  plan <- get zone "plan" (PDict []) ;;
  plan_name <- get plan "name" (PStr "free") ;;
  ret (PDict [("id", id); ("name", name); ("status", status);
              ("type", type); ("name_servers", name_servers);
              ("created_on", created_on); ("modified_on", modified_on);
              ("plan", plan_name); ("resource_type", PStr "domain")]).

Lemma get_domains_unfold (self : fetcher) :
  get_domains self
  = (zones <- _paginated_fetch self "zones" (Some (zone_params self)) ;;
     comprehension describe_zone zones).
Proof. reflexivity. Qed.

Lemma mem_get (d : dict pyval) (k : string) :
  dict_mem d k = true -> dict_get d k = Some (field d k PNone).
Proof.
  unfold dict_mem, field. destruct (dict_get d k); [reflexivity|discriminate].
Qed.

Lemma not_mem_get (d : dict pyval) (k : string) :
  dict_mem d k = false -> dict_get d k = None.
Proof.
  unfold dict_mem. destruct (dict_get d k); [discriminate|reflexivity].
Qed.

Lemma describe_complete_zone (zone : pyval) :
  complete_zone zone = true ->
  yields (describe_zone zone) (domain_record zone).
Proof.
  destruct zone as [| | | | |d]; try discriminate.
  cbn [complete_zone forallb required_zone_keys].
  rewrite !andb_true_iff.
  intros ((Hid & Hname & Hstatus & Htype & Hcreated & Hmodified & _) & Hplan).
  assert (Hfield : exists plan,
             field d "plan" (PDict []) = PDict plan
             /\ match dict_get d "plan" with
                | Some (PDict plan) => field plan "name" (PStr "free")
                | _ => PStr "free"
                end = field plan "name" (PStr "free")).
  { unfold field at 1.
    destruct (dict_get d "plan") as [[| | | | |plan]|]; try discriminate;
      eexists; split; reflexivity. }
  destruct Hfield as (plan & Hfield & Hname').
  unfold describe_zone, domain_record. rewrite Hname'.
  repeat first
    [ eapply yields_bind; [apply yields_getitem; apply mem_get; eassumption|]
    | eapply yields_bind; [apply yields_get|]
    | rewrite Hfield ].
  apply yields_ret.
Qed.

Lemma describe_incomplete_zone (d : dict pyval) (key : string) :
  first_missing d = Some key ->
  fails (describe_zone (PDict d)) (Exn KeyError (repr_str key)).
Proof.
  unfold first_missing, describe_zone. cbn [find required_zone_keys].
  repeat
    match goal with
    | |- (if negb (dict_mem d ?k) then _ else _) = _ -> _ =>
        destruct (dict_mem d k) eqn:?; cbn [negb];
        [ | intros E; inversion E; subst;
            repeat first
              [ apply fails_bind; apply fails_getitem; apply not_mem_get;
                assumption
              | eapply fails_after;
                [ first [ apply yields_getitem; apply mem_get; eassumption
                        | apply yields_get ] | ] ] ]
    end.
  discriminate.
Qed.

(** When all the zones of the account are complete, [get_domains]
    returns one record per zone, in the order of the provider. *)
Theorem get_domains_describes_zones (self : fetcher) (zones : list pyval)
    (w w1 : world) :
  _paginated_fetch self "zones" (Some (zone_params self)) w
  = (Return zones, w1) ->
  forallb complete_zone zones = true ->
  get_domains self w = (Return (map domain_record zones), w1).
Proof.
  intros Hfetch Hall. rewrite get_domains_unfold.
  rewrite (bind_run _ _ _ _ _ Hfetch).
  apply comprehension_yields. apply Forall_forall. intros zone Hin.
  apply describe_complete_zone.
  rewrite forallb_forall in Hall. apply Hall. exact Hin.
Qed.

(** The theorem at an account with one zone. *)
Lemma get_domains_describes_zones_witness :
  exists w1,
    get_domains demo_fetcher
                (world_of [Answer (SyncAllSpec.listing [SyncAllSpec.zone "a"])])
    = (Return (map domain_record [SyncAllSpec.zone "a"]), w1).
Proof.
  eexists.
  apply (get_domains_describes_zones demo_fetcher [SyncAllSpec.zone "a"]).
  - vm_compute. reflexivity.
  - reflexivity.
Defined.

(** One zone without a required key costs all the zones: [get_domains]
    raises the [KeyError] of the first such zone, for the first key it
    lacks, and returns no record at all. *)
Theorem get_domains_all_or_nothing (self : fetcher)
    (good : list pyval) (bad : dict pyval) (others : list pyval)
    (key : string) (w w1 : world) :
  _paginated_fetch self "zones" (Some (zone_params self)) w
  = (Return (good ++ PDict bad :: others)%list, w1) ->
  forallb complete_zone good = true ->
  first_missing bad = Some key ->
  get_domains self w = (Raise (Exn KeyError (repr_str key)), w1).
Proof.
  intros Hfetch Hgood Hbad. rewrite get_domains_unfold.
  rewrite (bind_run _ _ _ _ _ Hfetch).
  apply (comprehension_fails describe_zone domain_record).
  - apply Forall_forall. intros zone Hin. apply describe_complete_zone.
    rewrite forallb_forall in Hgood. apply Hgood. exact Hin.
  - apply describe_incomplete_zone. exact Hbad.
Qed.

(** The theorem at an account whose second zone has no name. *)
Lemma get_domains_all_or_nothing_witness :
  let nameless := [("id", PStr "b")] in
  exists w1,
    get_domains demo_fetcher
      (world_of [Answer (SyncAllSpec.listing
                           [SyncAllSpec.zone "a"; PDict nameless])])
    = (Raise (Exn KeyError "'name'"), w1).
Proof.
  intros nameless. eexists.
  apply (get_domains_all_or_nothing demo_fetcher [SyncAllSpec.zone "a"]
           nameless [] "name").
  - vm_compute. reflexivity.
  - reflexivity.
  - reflexivity.
Defined.

(** *** Buckets: an answer that declines is an empty list *)

(** The one request of [get_r2_buckets]. *)
Definition r2_request (self : fetcher) : request :=
  Request "GET"
          (base_url ++ "/accounts/" ++ account_id self ++ "/r2/buckets")
          (headers self) [] None.

(** An answer that is not a listing: another status than 200, or an
    object whose [success] is missing or false. *)
Definition declines (r : response) : Prop :=
  status_code r <> 200
  \/ exists data,
       body r = inr (PDict data)
       /\ truthy (field data "success" PNone) = false.

(** Where [_paginated_fetch] raises, [get_r2_buckets] returns the empty
    list: an answer that declines is taken for an account without
    buckets, after the single request, and nothing is printed. *)
Theorem get_r2_buckets_declined (self : fetcher) (r : response)
    (rest : list outcome) (w : world) :
  network w = Answer r :: rest ->
  declines r ->
  get_r2_buckets self w
  = (Return [],
     World rest (sent w ++ [r2_request self]) (console w) (files w)
           (clock w) (ticks w) (threads w)).
Proof.
  intros Hnet Hr. unfold get_r2_buckets, requests_get, r2_request.
  unfold bind at 1. unfold http. rewrite Hnet. cbv beta iota zeta.
  destruct (Z.eqb_spec (status_code r) 200) as [E|E]; cbn [negb];
    [|reflexivity].
  destruct Hr as [Hr|(data & Hbody & Hfalse)]; [contradiction|].
  unfold response_json. rewrite Hbody. run_monad.
  unfold field in Hfalse.
  destruct (dict_get data "success"); rewrite Hfalse; reflexivity.
Qed.

(** The theorem at an account that may not list its buckets. *)
Lemma get_r2_buckets_declined_witness :
  let forbidden := Response 403 "Forbidden" "" "" (inl "Expecting value") in
  get_r2_buckets demo_fetcher (world_of [Answer forbidden])
  = (Return [],
     World [] [r2_request demo_fetcher] [] []
           (fun _ => "2025-01-01T00:00:00") 0 []).
Proof.
  intros forbidden.
  apply (get_r2_buckets_declined demo_fetcher forbidden []
           (world_of [Answer forbidden])).
  - reflexivity.
  - left. discriminate.
Defined.

(** *** Workers: one detail request per script *)















End CloudflareFetcherRecords.

(** ** The fetcher: what all its records have, and what it never does *)

Module CloudflareFetcherInvariants.
Import Py Env CloudflareFetcher MonadFacts CloudflareFetcherSpec.
Local Open Scope monad_scope.

(** *** What a computation can return *)









(** *** Every record carries the type of its kind *)













(** *** The fetcher only reads *)


















End CloudflareFetcherInvariants.

(** ** The fetcher: where its credentials come from *)

Module CloudflareFetcherInitSpec.
Import Py Env CloudflareFetcher CloudflareFetcherInit.

(** An argument that is given: not [None] and not the empty text. *)
Definition given (arg : option string) : bool :=
  match arg with Some (String _ _) => true | _ => false end.

(** The argument when it is given, or else [other]. *)
Definition given_or (arg : option string) (other : string) : string :=
  match arg with Some (String c s) => String c s | _ => other end.

(** When [op] exits with an error, every credential that is not given
    comes from the environment: [GLOBAL_API_KEY], [EMAIL] and
    [ACCOUNT_ID], the empty text standing for a variable that is not
    set. *)
Theorem credentials_fall_back_to_environment (h : host)
    (api_key email account_id : option string) :
  (forall reference, exists returncode stdout,
      op_read h reference = Exited returncode stdout /\ returncode <> 0) ->
  __init__ h api_key email account_id
  = inr (Fetcher (given_or api_key (getenv h "GLOBAL_API_KEY" ""))
                 (given_or email (getenv h "EMAIL" ""))
                 (given_or account_id (getenv h "ACCOUNT_ID" ""))).
Proof.
  intros Hop.
  assert (Hsecret : forall reference,
             _get_secret h reference
             = inr (getenv h (variable_of reference) "")).
  { intros reference. unfold _get_secret.
    destruct (Hop reference) as (code & out & -> & Hcode).
    destruct (Z.eqb_spec code 0); [contradiction | reflexivity]. }
  unfold __init__, given_or_secret. rewrite !Hsecret.
  destruct api_key as [[|? ?]|], email as [[|? ?]|],
           account_id as [[|? ?]|]; reflexivity.
Qed.

(** The theorem on a machine where [op] is not signed in: the key is
    given, the address comes from the environment and the account is not
    set. *)
Lemma credentials_fall_back_to_environment_witness :
  let h := Host (fun _ => Exited 1 "") [("EMAIL", "ops@example.com")] in
  __init__ h (Some "key") None None
  = inr (Fetcher "key" "ops@example.com" "").
Proof.
  intros h.
  apply (credentials_fall_back_to_environment h (Some "key") None None).
  intros reference. exists 1, "". split; [reflexivity | discriminate].
Defined.

(** When [op] cannot be started, the constructor succeeds only if the
    three credentials are given: otherwise the error leaves it, and the
    environment is not looked at. *)
Theorem constructor_needs_op_or_arguments (h : host)
    (api_key email account_id : option string) :
  (forall reference, exists error, op_read h reference = NotStarted error) ->
  (exists self, __init__ h api_key email account_id = inr self)
  <-> given api_key && given email && given account_id = true.
Proof.
  intros Hop.
  assert (Hsecret : forall reference,
             exists error, _get_secret h reference = inl error).
  { intros reference. unfold _get_secret.
    destruct (Hop reference) as (error & ->). eauto. }
  unfold __init__, given_or_secret.
  destruct api_key as [[|? ?]|]; cbn [given andb];
    try (match goal with
         | |- context [_get_secret h ?reference] =>
             destruct (Hsecret reference) as (e & ->)
         end;
         split; [intros (self & E); discriminate | discriminate]).
  destruct email as [[|? ?]|]; cbn [given andb];
    try (match goal with
         | |- context [_get_secret h ?reference] =>
             destruct (Hsecret reference) as (e & ->)
         end;
         split; [intros (self & E); discriminate | discriminate]).
  destruct account_id as [[|? ?]|]; cbn [given andb];
    try (match goal with
         | |- context [_get_secret h ?reference] =>
             destruct (Hsecret reference) as (e & ->)
         end;
         split; [intros (self & E); discriminate | discriminate]).
  split; [reflexivity | eauto].
Qed.

(** The theorem on a machine without [op], where the three variables are
    set: the constructor without arguments fails all the same. *)
Lemma constructor_needs_op_or_arguments_witness :
  let h := Host (fun _ => NotStarted "[Errno 2] No such file or directory")
                [("GLOBAL_API_KEY", "key"); ("EMAIL", "ops@example.com");
                 ("ACCOUNT_ID", "acct")] in
  ~ exists self, __init__ h None None None = inr self.
Proof.
  intros h Hself.
  apply (constructor_needs_op_or_arguments h None None None) in Hself.
  - discriminate.
  - intros reference. eexists. reflexivity.
Defined.

End CloudflareFetcherInitSpec.

(** ** The registry client: its address and its calls *)

Module RegistryUpdaterCalls.
Import Py Env RegistryUpdater RegistryUpdaterQueries MonadFacts.
Import RegistryUpdaterSpec.
Local Open Scope monad_scope.

(** *** The address of the registry *)

(** The last character of a text. *)
Fixpoint last_char (s : string) : option ascii :=
  match s with
  | EmptyString => None
  | String c EmptyString => Some c
  | String _ s' => last_char s'
  end.

Lemma rstrip_slash_last (s : string) :
  last_char (rstrip_slash s) <> Some "/"%char.
Proof.
  induction s as [|c s IH]; cbn [rstrip_slash]; [discriminate|].
  destruct (rstrip_slash s) as [|c' rest] eqn:E.
  - destruct (Ascii.eqb_spec c "/"); cbn; congruence.
  - cbn [last_char] in *. exact IH.
Qed.

Lemma rstrip_slash_slashes (s : string) :
  exists n, s = rstrip_slash s ++ SyncAll.repeat_string "/" n.
Proof.
  induction s as [|c s (n & IH)]; cbn [rstrip_slash].
  - exists O. reflexivity.
  - destruct (rstrip_slash s) as [|c' rest] eqn:E.
    + destruct (Ascii.eqb_spec c "/") as [->|Hne].
      * exists (S n). cbn. rewrite IH at 1. reflexivity.
      * exists n. cbn. rewrite IH at 1. reflexivity.
    + exists n. cbn. rewrite IH at 1. reflexivity.
Qed.

Lemma rstrip_slash_app_slash (s : string) :
  rstrip_slash (s ++ "/") = rstrip_slash s.
Proof.
  induction s as [|c s IH]; [reflexivity|].
  cbn [append rstrip_slash]. rewrite IH. reflexivity.
Qed.

(** The client does not depend on slashes at the end of the address it
    is given: they are removed, all of them, and nothing else is. *)
Theorem registry_address_loses_trailing_slashes (address : string)
    (key : option string) :
  __init__ (address ++ "/") key = __init__ address key
  /\ last_char (api_url (__init__ address key)) <> Some "/"%char
  /\ exists n,
       address
       = api_url (__init__ address key) ++ SyncAll.repeat_string "/" n.
Proof.
  unfold __init__. cbn [api_url]. rewrite rstrip_slash_app_slash.
  split; [reflexivity|]. split.
  - apply rstrip_slash_last.
  - apply rstrip_slash_slashes.
Qed.

(** *** The health check *)

Definition health_request (self : updater) : request :=
  Request "GET" (api_url self ++ "/health") (session_headers self) [] None.

(** [health_check] never raises: it tells whether the registry answers
    its one request with status 200, and a failure of the transport is
    an answer [False]. *)
Theorem health_check_tells_status (self : updater) (w : world) :
  health_check self w
  = (Return match network w with
            | Answer r :: _ => status_code r =? 200
            | _ => false
            end,
     World (tl (network w)) (sent w ++ [health_request self]) (console w)
           (files w) (clock w) (ticks w) (threads w)).
Proof.
  unfold health_check, session_get, health_request, try_except, bind, http.
  destruct (network w) as [|[r|msg] rest]; reflexivity.
Qed.

(** *** The write operations: one request each *)






(** An answer without error status is passed on as it is: the operation
    returns the JSON document of the answer, whatever it holds. *)
Theorem write_operations_pass_answers (self : updater) (op : write_op)
    (r : response) (rest : list outcome) (v : pyval) (w : world) :
  network w = Answer r :: rest ->
  ~ 400 <= status_code r < 600 ->
  body r = inr v ->
  fst (perform self op w) = Return v.
Proof.
  intros Hnet Hstatus Hbody.
  destruct (SyncAllSpec.status_tests_pass r Hstatus) as [H4 H5].
  destruct op; cbn [perform];
    unfold register_resource, update_resource, delete_resource,
           bulk_register, sync_resources,
           session_post, session_patch, session_delete;
    try (unfold bind at 1; unfold now_isoformat at 1; cbv beta iota);
    unfold try_except, bind, http; cbn [network]; rewrite Hnet;
    unfold raise_for_status; rewrite H4, H5; unfold response_json;
    rewrite Hbody; reflexivity.
Qed.

(** The theorem at a deletion that the registry confirms. *)
Lemma write_operations_pass_answers_witness :
  let confirmed := PDict [("deleted", PBool true)] in
  fst (perform SyncAllSpec.the_registry (Delete (PStr "z1"))
         (world_of [Answer (SyncAllSpec.ok_response confirmed)]))
  = Return confirmed.
Proof.
  intros confirmed.
  apply (write_operations_pass_answers SyncAllSpec.the_registry
           (Delete (PStr "z1")) (SyncAllSpec.ok_response confirmed) []).
  - reflexivity.
  - cbn. lia.
  - reflexivity.
Defined.

(** *** The registered resources *)

Definition query_request (self : updater) (resource_type : option string)
    : request :=
  Request "GET" (api_url self ++ "/api/resources") (session_headers self)
          (("provider", PStr "cloudflare")
           :: match resource_type with
              | Some (String c s) => [("type", PStr (String c s))]
              | _ => []
              end)
          None.

(** A call that fails gives the empty list, after one line on the
    console: the caller cannot tell it from a registry that holds no
    resource. *)
Theorem registered_resources_failure_is_empty_list (self : updater)
    (resource_type : option string) (w : world) :
  call_fails (network w) ->
  exists msg,
    get_registered_resources self resource_type w
    = (Return (PList []),
       World (tl (network w))
             (sent w ++ [query_request self resource_type])
             (console w ++ ["Error fetching registered resources: " ++ msg])
             (files w) (clock w) (ticks w) (threads w)).
Proof.
  intros Hfail. unfold get_registered_resources, session_get_params,
    query_request.
  assert (Hparams :
            match resource_type with
            | Some (String c s) =>
                dict_set [("provider", PStr "cloudflare")] "type"
                         (PStr (String c s))
            | _ => [("provider", PStr "cloudflare")]
            end
            = ("provider", PStr "cloudflare")
              :: match resource_type with
                 | Some (String c s) => [("type", PStr (String c s))]
                 | _ => []
                 end).
  { destruct resource_type as [[|c s]|]; reflexivity. }
  cbv zeta. rewrite Hparams.
  unfold try_except, bind, http, print, ret.
  unfold call_fails in Hfail.
  destruct (network w) as [|[r|msg] rest];
    cbn [network sent console files clock ticks threads tl].
  - eexists. reflexivity.
  - unfold raise_for_status.
    destruct (Z.leb_spec 400 (status_code r)); [|lia].
    destruct (Z.ltb_spec (status_code r) 500); cbn [andb].
    + eexists. reflexivity.
    + destruct (Z.leb_spec 500 (status_code r)); [|lia].
      destruct (Z.ltb_spec (status_code r) 600); [|lia].
      eexists. reflexivity.
  - eexists. reflexivity.
Qed.

(** The theorem at a registry that does not answer in time. *)
Lemma registered_resources_failure_is_empty_list_witness :
  exists msg w',
    get_registered_resources SyncAllSpec.the_registry (Some "domain")
                             (world_of [Failure "timeout"])
    = (Return (PList []), w')
    /\ console w' = ["Error fetching registered resources: " ++ msg].
Proof.
  destruct (registered_resources_failure_is_empty_list
              SyncAllSpec.the_registry (Some "domain")
              (world_of [Failure "timeout"]) I) as (msg & Hrun).
  exists msg. eexists. split; [exact Hrun | reflexivity].
Defined.

End RegistryUpdaterCalls.

(** ** The listener: requests that are turned away *)

Module WebhookListenerRequests.
Import Py Env WebhookListener MonadFacts WebhookListenerSpec.
Import RegistryUpdaterQueries.
Local Open Scope monad_scope.

(** *** The length of a signature *)

Lemma length_append (a b : string) :
  String.length (a ++ b) = (String.length a + String.length b)%nat.
Proof.
  induction a as [|c a IH]; cbn; [reflexivity | rewrite IH; reflexivity].
Qed.

Lemma length_hex_digit (n : N) : String.length (hex_digit n) = 1%nat.
Proof.
  unfold hex_digit.
  repeat match goal with
         | |- context [match ?x with _ => _ end] => destruct x
         end; reflexivity.
Qed.

Lemma length_hex (digest : string) :
  String.length (hex digest) = (2 * String.length digest)%nat.
Proof.
  induction digest as [|c d IH]; [reflexivity|].
  cbn [hex]. unfold hex2. rewrite !length_append, !length_hex_digit, IH.
  cbn [String.length]. lia.
Qed.

Lemma length_string_of (bs : list N) :
  String.length (Sha256.string_of bs) = List.length bs.
Proof.
  induction bs as [|b bs IH]; cbn; [reflexivity | rewrite IH; reflexivity].
Qed.

Lemma length_big_endian (k : nat) (n : N) :
  List.length (Sha256.big_endian k n) = k.
Proof.
  revert n. induction k as [|k IH]; intros n; cbn [Sha256.big_endian];
    [reflexivity|].
  rewrite length_app, IH. cbn. lia.
Qed.

Lemma length_sha256_bytes (bs : list N) :
  List.length (Sha256.sha256_bytes bs) = 32%nat.
Proof.
  unfold Sha256.sha256_bytes.
  destruct (fold_left _ _ _) as [[[[[[[a b] c] d] e] f] g] h].
  cbn [flat_map]. rewrite !length_app, !length_big_endian. reflexivity.
Qed.

(** A digest of HMAC-SHA256 has 32 bytes. *)
Lemma length_hmac_sha256 (key msg : string) :
  String.length (Sha256.hmac_sha256 key msg) = 32%nat.
Proof.
  unfold Sha256.hmac_sha256. rewrite length_string_of.
  apply length_sha256_bytes.
Qed.

Section Listener.
Variable WEBHOOK_SECRET : string.
Variable json_loads : string -> string + pyval.

(** A signature that does not have the 64 characters of a SHA-256 digest
    in hexadecimal is answered 403, and nothing else happens; so is a
    request without the header, whose signature is the empty text. *)
Theorem short_signature_rejected (request : flask_request) (w : world) :
  isascii (header_or_empty (x_signature_256 request)) = true ->
  String.length (header_or_empty (x_signature_256 request)) <> 64%nat ->
  cloudflare_webhook WEBHOOK_SECRET Sha256.hmac_sha256 json_loads request w
  = (Return (PDict [("error", PStr "Invalid signature")], 403), w).
Proof.
  intros Hascii Hlen.
  apply wrong_ascii_signature_rejected; [exact Hascii|].
  intros E. apply Hlen. rewrite E.
  unfold expected_signature. rewrite length_hex, length_hmac_sha256.
  reflexivity.
Qed.

End Listener.

(** The theorem at a request that carries no signature. *)
Lemma short_signature_rejected_witness :
  cloudflare_webhook default_secret Sha256.hmac_sha256 loads_examples
                     (FlaskRequest None None "{}") (world_of [])
  = (Return (PDict [("error", PStr "Invalid signature")], 403), world_of []).
Proof.
  apply (short_signature_rejected default_secret loads_examples
           (FlaskRequest None None "{}") (world_of [])).
  - reflexivity.
  - discriminate.
Defined.

Section AnyHmac.
Variable WEBHOOK_SECRET : string.
Variable REGISTRY_API_KEY : string.
Variable hmac_sha256 : string -> string -> string.
Variable json_loads : string -> string + pyval.

(** What [_generate_signature] of the registry client computes for a
    text under the secret of the listener is a signature that
    [verify_signature] accepts for the bytes of that text. *)
Theorem generated_signature_verifies (payload : string) (w : world) :
  verify_signature WEBHOOK_SECRET hmac_sha256 (encode payload)
    (_generate_signature hmac_sha256 payload WEBHOOK_SECRET) w
  = (Return true, w).
Proof.
  unfold _generate_signature.
  rewrite verify_signature_ascii by apply isascii_hex.
  unfold expected_signature. rewrite String.eqb_refl. reflexivity.
Qed.

(** A body that is not the JSON text of an object whose [event], if
    any, is an object; with the text of the exception it causes. *)
Definition malformed (body : string) (error : string) : Prop :=
  json_loads body = inl error
  \/ (exists v,
        json_loads body = inr v
        /\ (forall d, v <> PDict d)
        /\ error = "'" ++ type_name v ++ "' object has no attribute 'get'")
  \/ (exists d event,
        json_loads body = inr (PDict d)
        /\ dict_get d "event" = Some event
        /\ (forall e, event <> PDict e)
        /\ error = "'" ++ type_name event
                   ++ "' object has no attribute 'get'").

(** A malformed body with a valid signature is answered 500: the error
    is printed, no thread is started and the caller learns only that the
    processing failed. *)
Theorem malformed_body_fails (request : flask_request) (error : string)
    (w : world) :
  x_signature_256 request
  = Some (expected_signature WEBHOOK_SECRET hmac_sha256 (get_data request)) ->
  malformed (get_data request) error ->
  cloudflare_webhook WEBHOOK_SECRET hmac_sha256 json_loads request w
  = (Return (PDict [("error", PStr "Processing failed")], 500),
     World (network w) (sent w)
           (console w ++ ["Error processing webhook: " ++ error])
           (files w) (clock w) (ticks w) (threads w)).
Proof.
  intros Hsig Hbad. unfold cloudflare_webhook.
  unfold bind at 1. rewrite Hsig. cbn [header_or_empty].
  rewrite verify_signature_ascii by apply isascii_hex.
  unfold expected_signature. rewrite String.eqb_refl. cbn [negb].
  unfold try_except.
  destruct Hbad as [Hload|[(v & Hload & Hv & ->)
                          |(d & event & Hload & Hevent & He & ->)]];
    rewrite Hload.
  - reflexivity.
  - destruct v as [| | | | |d]; try reflexivity.
    exfalso. apply (Hv d). reflexivity.
  - run_monad. rewrite Hevent. cbv beta iota.
    destruct event as [| | | | |e]; try reflexivity.
    exfalso. apply (He e). reflexivity.
Qed.

(** What the handler may leave behind: nothing but lines on the console
    and at most one thread, for an event of the table. *)
Definition left_behind (w w' : world) : Prop :=
  network w' = network w
  /\ sent w' = sent w
  /\ files w' = files w
  /\ ticks w' = ticks w
  /\ (threads w' = threads w
      \/ exists event resource_type resource_data action,
           dict_get event_mapping event = Some (resource_type, action)
           /\ threads w'
              = (threads w ++ [HandleResourceUpdate resource_type
                                 resource_data action])%list).

Lemma left_behind_refl (w : world) : left_behind w w.
Proof. unfold left_behind. auto 10. Qed.

Lemma left_behind_line (w : world) (line : string) :
  left_behind w (World (network w) (sent w) (console w ++ [line]) (files w)
                       (clock w) (ticks w) (threads w)).
Proof. unfold left_behind. cbn. auto 10. Qed.

(** Whatever the request, the handler answers on the spot: it sends no
    request, writes no file and does not read the clock; all it can
    leave behind is a line on the console or one thread, for an event of
    the table. *)
Theorem webhook_answers_on_the_spot (request : flask_request) (w : world) :
  left_behind w (snd (cloudflare_webhook WEBHOOK_SECRET hmac_sha256
                        json_loads request w)).
Proof.
  unfold cloudflare_webhook, verify_signature, compare_digest.
  unfold bind at 1.
  destruct (isascii _ && isascii _); [|apply left_behind_refl].
  unfold ret at 1. cbv beta iota.
  destruct (negb _); [apply left_behind_refl|].
  unfold try_except.
  destruct (json_loads (get_data request)) as [msg|data];
    [apply left_behind_line|].
  destruct data as [| | | | |d]; try apply left_behind_line.
  run_monad.
  destruct (dict_get d "event") as [[| | | | |e]|]; cbv beta iota;
    try apply left_behind_line.
  - destruct (dict_get e "type") as [t|]; cbv beta iota;
      destruct (dict_get d "data"); cbv beta iota.
    all: try (destruct t as [| | |s| |]); cbn [lookup_event]; run_monad;
      cbn [is_Exception exn_type snd]; try apply left_behind_line.
    all: destruct (dict_get event_mapping s) as [[ty act]|] eqn:E;
      [|apply left_behind_line].
    all: unfold left_behind; cbn [network sent files ticks threads snd];
      repeat split; right; eexists _, _, _, _; split; [exact E|reflexivity].
  - cbn [dict_get]. cbv beta iota.
    destruct (dict_get d "data"); cbv beta iota; apply left_behind_line.
Qed.

(** With the key of the listener in the header, [manual_sync] starts a
    sync for [domains], [workers], [pages] and [all] only: any other
    resource type, the other kinds of [sync_all.py] among them, is
    answered 400 and starts nothing. *)
Theorem manual_sync_validates_type (resource_type : string)
    (request : flask_request) (w : world) :
  header_or_empty (x_api_key request) = REGISTRY_API_KEY ->
  manual_sync REGISTRY_API_KEY resource_type request w
  = if existsb (String.eqb resource_type)
               ["domains"; "workers"; "pages"; "all"]
    then (Return (PDict [("status", PStr "sync_started");
                         ("resource_type", PStr resource_type);
                         ("timestamp", PStr (clock w (ticks w)))], 202),
          World (network w) (sent w) (console w) (files w) (clock w)
                (S (ticks w)) (threads w ++ [RunSync resource_type]))
    else (Return (PDict [("error",
                          PStr ("Invalid resource type. Must be one of: "
                                ++ "['domains', 'workers', 'pages', 'all']"))],
                  400), w).
Proof.
  intros Hkey. unfold manual_sync. rewrite Hkey, String.eqb_refl.
  cbn [negb]. change valid_types with ["domains"; "workers"; "pages"; "all"].
  destruct (existsb _ _); reflexivity.
Qed.

End AnyHmac.

(** The theorem at a signed body that is not JSON. *)
Lemma malformed_body_fails_witness :
  let signature :=
    expected_signature default_secret Sha256.hmac_sha256 "oops" in
  cloudflare_webhook default_secret Sha256.hmac_sha256 loads_examples
                     (FlaskRequest (Some signature) None "oops") (world_of [])
  = (Return (PDict [("error", PStr "Processing failed")], 500),
     World [] []
           ["Error processing webhook: "
            ++ "Expecting value: line 1 column 1 (char 0)"]
           [] (fun _ => "2025-01-01T00:00:00") 0 []).
Proof.
  intros signature.
  apply (malformed_body_fails default_secret Sha256.hmac_sha256 loads_examples
           (FlaskRequest (Some signature) None "oops")
           "Expecting value: line 1 column 1 (char 0)" (world_of [])).
  - reflexivity.
  - left. vm_compute. reflexivity.
Defined.

(** The theorem at a request for the buckets, with the key of the
    listener. *)
Lemma manual_sync_validates_type_witness :
  manual_sync "secret" "r2_buckets" (FlaskRequest None (Some "secret") "")
              (world_of [])
  = (Return (PDict [("error",
                     PStr ("Invalid resource type. Must be one of: "
                           ++ "['domains', 'workers', 'pages', 'all']"))],
             400), world_of []).
Proof.
  exact (manual_sync_validates_type "secret" "r2_buckets"
           (FlaskRequest None (Some "secret") "") (world_of []) eq_refl).
Defined.

End WebhookListenerRequests.

(** ** The listener: the thread of an event, and the status *)

Module WebhookListenerThreads.
Import Py Env WebhookListener MonadFacts WebhookListenerSpec.
Import WebhookListenerStatus.
Local Open Scope monad_scope.

(** *** Texts on one line *)

Import SyncAllSpec.

Lemma newlines_hex_digit (n : N) : newlines (hex_digit n) = 0%nat.
Proof.
  unfold hex_digit.
  repeat match goal with
         | |- context [match ?x with _ => _ end] => destruct x
         end; reflexivity.
Qed.

Lemma newlines_json_escape (s : string) : newlines (json_escape s) = 0%nat.
Proof.
  induction s as [|c s IH]; [reflexivity|].
  cbn [json_escape]. rewrite newlines_app, IH, Nat.add_0_r.
  repeat match goal with
         | |- context [if ?b then _ else _] =>
             let E := fresh "E" in destruct b eqn:E; [reflexivity|]
         end.
  destruct (_ && _) eqn:Hp.
  - cbn [newlines]. rewrite E1. reflexivity.
  - unfold hex2. rewrite !newlines_app, !newlines_hex_digit. reflexivity.
Qed.

Lemma newlines_json_string (s : string) : newlines (json_string s) = 0%nat.
Proof.
  unfold json_string. rewrite !newlines_app, newlines_json_escape.
  reflexivity.
Qed.

Lemma newlines_uint (d : Decimal.uint) :
  newlines (NilEmpty.string_of_uint d) = 0%nat.
Proof. induction d; cbn; auto. Qed.

Lemma newlines_str_int (z : Z) : newlines (str_int z) = 0%nat.
Proof.
  unfold str_int, NilZero.string_of_int, NilZero.string_of_uint.
  destruct (Z.to_int z) as [d|d]; destruct d; cbn; auto using newlines_uint.
Qed.

Lemma newlines_join_none (sep : string) (l : list string) :
  newlines sep = 0%nat ->
  Forall (fun x => newlines x = 0%nat) l ->
  newlines (join sep l) = 0%nat.
Proof.
  intros Hsep Hl. induction Hl as [|x l Hx Hl IH]; [reflexivity|].
  destruct l as [|y l]; [exact Hx|].
  change (join sep (x :: y :: l)) with (x ++ sep ++ join sep (y :: l)).
  rewrite !newlines_app, Hx, Hsep, IH. reflexivity.
Qed.

(** [json.dumps] without [indent] writes its document on one line. *)
Lemma dumps_one_line :
  forall (v : pyval) (depth : nat), newlines (dumps_at None depth v) = 0%nat.
Proof.
  fix IH 1. intros v depth. destruct v as [|b|z|s|l|d].
  - reflexivity.
  - destruct b; reflexivity.
  - apply newlines_str_int.
  - apply newlines_json_string.
  - destruct l as [|x l]; [reflexivity|].
    cbn [dumps_at]. rewrite !newlines_app.
    rewrite newlines_join_none; [reflexivity | reflexivity |].
    constructor; [apply IH|].
    induction l as [|y l IHl]; constructor; [apply IH | exact IHl].
  - destruct d as [|kv d]; [reflexivity|].
    cbn [dumps_at]. rewrite !newlines_app.
    rewrite newlines_join_none; [reflexivity | reflexivity |].
    constructor.
    + destruct kv as [k y]. cbn [fst snd].
      rewrite !newlines_app, newlines_json_string, IH. reflexivity.
    + induction d as [|[k y] d IHd]; constructor; [|exact IHd].
      cbn [fst snd].
      rewrite !newlines_app, newlines_json_string, IH. reflexivity.
Qed.

(** *** The thread of an event *)

Section Thread.
Variable REGISTRY_API_KEY : string.

(** The client the thread builds. *)
Definition thread_registry : RegistryUpdater.updater :=
  RegistryUpdater.__init__ RegistryUpdater.default_api_url
                           (Some REGISTRY_API_KEY).

(** The request of the thread for [action] on the data [d]. *)
Definition thread_request (resource_type action : string) (d : dict pyval)
    (stamp : string) : request :=
  if String.eqb action "delete" then
    Request "DELETE"
            ("https://chitty.cc/registry/api/resources/"
             ++ str (RegistryUpdater.dget d "id"))
            (RegistryUpdater.session_headers thread_registry) [] None
  else
    Request "POST" "https://chitty.cc/registry/api/resources"
            (RegistryUpdater.session_headers thread_registry) []
            (Some (PDict
                     (RegistryUpdater.resource_entry
                        (dict_set d "resource_type" (PStr resource_type))
                      ++ [("timestamp", PStr stamp)])%list)).

Lemma delete_resource_run (self : RegistryUpdater.updater) (id : pyval)
    (w : world) :
  exists v,
    RegistryUpdater.delete_resource self id w
    = (Return v,
       World (tl (network w))
             (sent w ++ [Request "DELETE"
                           (RegistryUpdater.api_url self
                            ++ "/api/resources/" ++ str id)
                           (RegistryUpdater.session_headers self) [] None])
             (console w) (files w) (clock w) (ticks w) (threads w)).
Proof.
  unfold RegistryUpdater.delete_resource, RegistryUpdater.session_delete,
         try_except, bind, http.
  destruct (network w) as [|[r|msg] rest]; cbn [tl];
    try (eexists; reflexivity).
  unfold raise_for_status.
  destruct ((400 <=? status_code r) && (status_code r <? 500));
    [eexists; reflexivity|].
  destruct ((500 <=? status_code r) && (status_code r <? 600));
    [eexists; reflexivity|].
  unfold response_json. destruct (body r); eexists; reflexivity.
Qed.

Lemma register_resource_run (self : RegistryUpdater.updater)
    (resource : dict pyval) (w : world) :
  exists v,
    RegistryUpdater.register_resource self resource w
    = (Return v,
       World (tl (network w))
             (sent w
              ++ [Request "POST"
                    (RegistryUpdater.api_url self ++ "/api/resources")
                    (RegistryUpdater.session_headers self) []
                    (Some (PDict
                             (RegistryUpdater.resource_entry resource
                              ++ [("timestamp",
                                   PStr (clock w (ticks w)))])%list))])
             (console w) (files w) (clock w) (S (ticks w)) (threads w)).
Proof.
  unfold RegistryUpdater.register_resource, RegistryUpdater.session_post.
  unfold bind at 1. unfold now_isoformat at 1. cbv beta iota.
  unfold try_except, bind, http.
  cbn [network sent console files clock ticks threads].
  destruct (network w) as [|[r|msg] rest]; cbn [tl];
    try (eexists; reflexivity).
  unfold raise_for_status.
  destruct ((400 <=? status_code r) && (status_code r <? 500));
    [eexists; reflexivity|].
  destruct ((500 <=? status_code r) && (status_code r <? 600));
    [eexists; reflexivity|].
  unfold response_json. destruct (body r); eexists; reflexivity.
Qed.

(** The three actions of the table. *)
Definition known_action (action : string) : bool :=
  String.eqb action "delete" || String.eqb action "create"
  || String.eqb action "update".

(** What the thread does for an action of the table on data that are an
    object: one request, one line on the console, one line in the
    log. *)
Lemma thread_run (resource_type action : string) (d : dict pyval)
    (w : world) :
  known_action action = true ->
  exists entry line,
    handle_resource_update REGISTRY_API_KEY resource_type (PDict d) action w
    = (Return tt,
       World (tl (network w))
             (sent w ++ [thread_request resource_type action d
                                        (clock w (ticks w))])
             (console w ++ [line])
             (dict_set (files w) "webhook_events.log"
                       (file_content w "webhook_events.log"
                        ++ entry ++ newline))
             (clock w)
             (if String.eqb action "delete" then S (S (ticks w))
              else S (S (S (ticks w))))
             (threads w))
    /\ newlines entry = 0%nat.
Proof.
  unfold known_action, handle_resource_update, thread_request.
  fold thread_registry.
  destruct (String.eqb action "delete") eqn:Hdel; cbn [orb].
  - intros _.
    unfold try_except. unfold bind at 1. cbn [get].
    assert (Hid : (match dict_get d "id" with
                   | Some x => ret x
                   | None => ret PNone
                   end) w = (Return (RegistryUpdater.dget d "id"), w)).
    { unfold RegistryUpdater.dget. destruct (dict_get d "id"); reflexivity. }
    rewrite Hid.
    destruct (delete_resource_run thread_registry
                (RegistryUpdater.dget d "id") w) as (v & Hrun).
    rewrite (bind_run _ _ _ _ _ Hrun).
    unfold bind, now_isoformat, print, append_file, ret.
    cbn [network sent console files clock ticks threads].
    destruct (dict_get d "id"); destruct (dict_get d "name");
      (eexists _, _; split; [reflexivity | apply dumps_one_line]).
  - intros Hknown. rewrite Hknown.
    unfold try_except. unfold bind at 1. cbn [setitem]. unfold ret at 1.
    destruct (register_resource_run thread_registry
                (dict_set d "resource_type" (PStr resource_type)) w)
      as (v & Hrun).
    rewrite (bind_run _ _ _ _ _ Hrun).
    unfold bind, now_isoformat, print, append_file, ret, get.
    cbn [network sent console files clock ticks threads].
    destruct (dict_get (dict_set d "resource_type" (PStr resource_type)) "id");
      destruct (dict_get (dict_set d "resource_type" (PStr resource_type))
                         "name");
      (eexists _, _; split; [reflexivity | apply dumps_one_line]).
Qed.


(** When the data of the event are not an object, the thread of an
    action of the table ends on the exception: it prints the error, and
    nothing reaches the registry or the log. *)
Theorem unusable_event_data_is_dropped (resource_type action : string)
    (resource_data : pyval) (w : world) :
  known_action action = true ->
  (forall d, resource_data <> PDict d) ->
  exists error,
    handle_resource_update REGISTRY_API_KEY resource_type resource_data
                           action w
    = (Return tt,
       World (network w) (sent w)
             (console w ++ ["Error handling resource update: " ++ error])
             (files w) (clock w) (ticks w) (threads w)).
Proof.
  unfold known_action, handle_resource_update.
  intros Hknown Hdata.
  destruct (String.eqb action "delete"); cbn [orb] in Hknown.
  - destruct resource_data as [| | | | |d];
      try (eexists; reflexivity).
    exfalso. apply (Hdata d). reflexivity.
  - rewrite Hknown.
    destruct resource_data as [| | | | |d];
      try (eexists; reflexivity).
    exfalso. apply (Hdata d). reflexivity.
Qed.

(** The thread lets no exception escape; for an action that is not of
    the table it prints one line and does nothing else. *)
Theorem resource_update_never_raises (resource_type action : string)
    (resource_data : pyval) (w : world) :
  (exists w',
      handle_resource_update REGISTRY_API_KEY resource_type resource_data
                             action w = (Return tt, w'))
  /\ (known_action action = false ->
      handle_resource_update REGISTRY_API_KEY resource_type resource_data
                             action w
      = (Return tt,
         World (network w) (sent w)
               (console w ++ ["Unknown action: " ++ action])
               (files w) (clock w) (ticks w) (threads w))).
Proof.
  assert (Hunknown : known_action action = false ->
            handle_resource_update REGISTRY_API_KEY resource_type
                                   resource_data action w
            = (Return tt,
               World (network w) (sent w)
                     (console w ++ ["Unknown action: " ++ action])
                     (files w) (clock w) (ticks w) (threads w))).
  { unfold known_action, handle_resource_update. intros H.
    apply orb_false_iff in H. destruct H as [H Hu].
    apply orb_false_iff in H. destruct H as [Hd Hc].
    rewrite Hd, Hc, Hu. reflexivity. }
  split; [|exact Hunknown].
  destruct (known_action action) eqn:Hknown.
  - destruct resource_data as [| | | | |d].
    6: { destruct (thread_run resource_type action d w Hknown)
           as (entry & line & Hrun & _).
         eexists. exact Hrun. }
    all: unfold known_action in Hknown; unfold handle_resource_update;
      destruct (String.eqb action "delete"); cbn [orb] in Hknown;
      [|rewrite Hknown]; eexists; reflexivity.
  - eexists. apply Hunknown. reflexivity.
Qed.

End Thread.


(** The theorem at an event whose data are [null]. *)
Lemma unusable_event_data_is_dropped_witness :
  exists error w',
    handle_resource_update "" "domain" PNone "create" (world_of [])
    = (Return tt, w')
    /\ console w' = ["Error handling resource update: " ++ error]
    /\ sent w' = []
    /\ files w' = [].
Proof.
  destruct (unusable_event_data_is_dropped "" "domain" "create" PNone
              (world_of []) eq_refl) as (error & Hrun).
  - intros d. discriminate.
  - exists error. eexists. split; [exact Hrun|]. repeat split.
Defined.

(** *** The status of the last sync *)

Section Status.
Variable json_loads : string -> string + pyval.

(** The document [sync_all_resources] writes to its snapshot. *)
Definition snapshot (stamp : string) (all_resources : dict (list pyval))
    (s : SyncAll.summary) : pyval :=
  PDict [("timestamp", PStr stamp);
         ("resources",
          PDict (map (fun kv => (fst kv, PList (snd kv))) all_resources));
         ("summary", SyncAll.summary_value s)].

(** The end of a run leaves its snapshot in [full_sync_snapshot.json],
    in place of what the file held. *)
Lemma finish_snapshot (all_resources : dict (list pyval))
    (s : SyncAll.summary) (w : world) :
  dict_get (files (snd (SyncAll.sync_all_resources_finish all_resources s w)))
           "full_sync_snapshot.json"
  = Some (json_dumps (Some 2%nat)
            (snapshot (clock w (ticks w)) all_resources s)).
Proof.
  unfold SyncAll.sync_all_resources_finish, snapshot.
  set (block := json_dumps (Some 2%nat) (SyncAll.summary_value s) ++ newline).
  unfold bind at 1. unfold append_file at 1. cbv beta iota.
  unfold bind at 1. unfold now_isoformat at 1. cbv beta iota.
  cbn [network sent console files clock ticks threads].
  set (doc := json_dumps (Some 2%nat) _).
  unfold bind at 1. unfold write_file at 1. cbv beta iota.
  cbn [network sent console files clock ticks threads].
  do 3 (unfold bind at 1; unfold print at 1; cbv beta iota;
        cbn [network sent console files clock ticks threads]).
  unfold bind at 1.
  rewrite (for_each_print
             (fun kv => "  • " ++ fst kv ++ ": " ++ str_int (snd kv))).
  cbn [network sent console files clock ticks threads].
  unfold bind at 1.
  match goal with
  | |- context [match SyncAll.errors s with [] => ret tt | _ => _ end ?w0] =>
      assert (Herr : exists w1,
                 match SyncAll.errors s with
                 | [] => ret tt
                 | _ :: _ =>
                     print (newline ++ "✗ Errors encountered:") ;;;
                     for_each (SyncAll.errors s) tt
                       (fun _ kv =>
                          print ("  • " ++ fst kv ++ ": " ++ str (snd kv)))
                 end w0 = (Return tt, w1)
                 /\ files w1 = files w0)
  end.
  { destruct (SyncAll.errors s) as [|e es].
    - eexists. split; reflexivity.
    - unfold bind, print at 1.
      rewrite (for_each_print
                 (fun kv => "  • " ++ fst kv ++ ": " ++ str (snd kv))).
      eexists. split; reflexivity. }
  destruct Herr as (w1 & Herr & Hf1). rewrite Herr.
  cbn [files] in Hf1.
  unfold bind, now_isoformat, print, ret. cbn [snd files]. rewrite Hf1.
  rewrite dict_get_set, String.eqb_refl. reflexivity.
Qed.

(** After a run of [sync_all_resources], [/status] tells of that run:
    the time of its snapshot, its total and its errors.  The decoder is
    asked to read back the snapshot the run wrote. *)
Theorem status_reports_last_run (all_resources : dict (list pyval))
    (s : SyncAll.summary) (w : world) :
  let w1 := snd (SyncAll.sync_all_resources_finish all_resources s w) in
  let doc := snapshot (clock w (ticks w)) all_resources s in
  json_loads (json_dumps (Some 2%nat) doc) = inr doc ->
  status json_loads w1
  = (Return (PDict [("status", PStr "operational");
                    ("last_sync", PStr (clock w (ticks w)));
                    ("resources_synced", PInt (SyncAll.total s));
                    ("errors", PDict (SyncAll.errors s))], 200), w1).
Proof.
  intros w1 doc Hloads. unfold status. subst w1.
  rewrite finish_snapshot. fold doc. rewrite Hloads.
  reflexivity.
Qed.

(** Without a snapshot [/status] says that no sync was performed; with
    one, it changes nothing: it only reads. *)
Theorem status_only_reads (w : world) :
  snd (status json_loads w) = w
  /\ (dict_get (files w) "full_sync_snapshot.json" = None ->
      status json_loads w
      = (Return (PDict [("status", PStr "operational");
                        ("last_sync", PNone);
                        ("message", PStr "No sync has been performed yet")],
                 200), w)).
Proof.
  unfold status.
  destruct (dict_get (files w) "full_sync_snapshot.json") as [text|].
  - split; [|discriminate].
    destruct (json_loads text) as [msg|v]; [reflexivity|].
    unfold bind at 1. unfold ret at 1.
    destruct v as [| | | | |d]; try reflexivity.
    run_monad.
    destruct (dict_get d "timestamp"); cbv beta iota;
      (destruct (dict_get d "summary") as [[| | | | |sm]|]; try reflexivity;
       cbv beta iota; cbn [dict_get];
       try (destruct (dict_get sm "total"); destruct (dict_get sm "errors"));
       reflexivity).
  - split; [reflexivity | intros _; reflexivity].
Qed.

End Status.

(** A decoder that reads back one document. *)
Definition loads_back (doc : pyval) (text : string) : string + pyval :=
  if String.eqb text (json_dumps (Some 2%nat) doc) then inr doc
  else inl "Expecting value: line 1 column 1 (char 0)".

(** The theorem after a run that synced one zone. *)
Lemma status_reports_last_run_witness :
  let all := [("domains", [zone "a"])] in
  let s := SyncAll.Summary "2025-01-01T00:00:00" [("domains", 1)] [] 1 in
  let doc := snapshot "2025-01-01T00:00:00" all s in
  let w1 := snd (SyncAll.sync_all_resources_finish all s (world_of [])) in
  status (loads_back doc) w1
  = (Return (PDict [("status", PStr "operational");
                    ("last_sync", PStr "2025-01-01T00:00:00");
                    ("resources_synced", PInt 1);
                    ("errors", PDict [])], 200), w1).
Proof.
  intros all s doc w1.
  apply (status_reports_last_run (loads_back doc) all s (world_of [])).
  unfold loads_back.
  change (clock (world_of []) (ticks (world_of [])))
    with "2025-01-01T00:00:00".
  fold doc. rewrite String.eqb_refl. reflexivity.
Defined.

End WebhookListenerThreads.

(** ** The listener: from the request to the registry *)

Module WebhookListenerEvents.
Import Py Env WebhookListener MonadFacts WebhookListenerSpec.
Import SyncAllSpec WebhookListenerThreads.
Local Open Scope monad_scope.


Section Listener.
Variable WEBHOOK_SECRET : string.
Variable REGISTRY_API_KEY : string.
Variable hmac_sha256 : string -> string -> string.
Variable json_loads : string -> string + pyval.


End Listener.


End WebhookListenerEvents.

(** ** The orchestrator: the hooks *)

Module SyncAllMainSpec.
Import Py Env MonadFacts SyncAllMain.
Local Open Scope monad_scope.

(** A program that ends as told and leaves the world alone. *)
Definition subprocess_with (ends : list string -> exn + completed_process)
    : list string -> M completed_process :=
  fun args w =>
    (match ends args with inl e => Raise e | inr p => Return p end, w).

(** The exit status after hooks that returned [statuses]: that of the
    last one that failed, or 0. *)
Definition last_failure (statuses : list Z) : Z :=
  fold_left (fun code status => if status =? 0 then code else status)
            statuses 0.

Lemma fold_failure_zero (statuses : list Z) (code : Z) :
  fold_left (fun code status => if status =? 0 then code else status)
            statuses code = 0
  <-> code = 0 /\ Forall (fun status => status = 0) statuses.
Proof.
  revert code. induction statuses as [|s l IH]; intros code; cbn [fold_left].
  - split; [|intros [H _]; exact H].
    intros ->. split; [reflexivity | constructor].
  - rewrite IH. destruct (Z.eqb_spec s 0) as [->|Hs].
    + split; intros [H F]; (split; [exact H|]).
      * constructor; [reflexivity | exact F].
      * inversion F; subst. assumption.
    + split; intros [H F]; [contradiction|].
      inversion F; subst. contradiction.
Qed.

Lemma last_failure_zero (statuses : list Z) :
  last_failure statuses = 0 <-> Forall (fun status => status = 0) statuses.
Proof.
  unfold last_failure. rewrite fold_failure_zero. tauto.
Qed.

(** The hooks that exist, with the kind each one syncs. *)
Definition hook_table : list (string * string) :=
  [("domains", "sync_domains"); ("workers", "sync_workers");
   ("pages", "sync_pages")].

(** The hooks that [--hooks] runs for the given [--type]. *)
Definition selected (types : option (list string)) : list string :=
  map snd
      (filter (fun entry =>
                 wants_all (Arguments types true)
                 || contains (fst entry)
                             match types with Some l => l | None => [] end)
              hook_table).

Section Hooks.
Variable executable : string.
Variable ends : list string -> exn + completed_process.

(** The status [run_hook] returns for a hook. *)
Definition status_of (hook : string) : Z :=
  match ends [executable; "./hooks/" ++ hook ++ ".py"] with
  | inl _ => 1
  | inr p => returncode p
  end.

(** [w'] is [w] with more lines on the console. *)
Definition printed (w w' : world) : Prop :=
  exists lines,
    w' = World (network w) (sent w) (console w ++ lines) (files w)
               (clock w) (ticks w) (threads w).

Lemma printed_refl (w : world) : printed w w.
Proof. exists []. destruct w. cbn. rewrite app_nil_r. reflexivity. Qed.

Lemma printed_trans (w1 w2 w3 : world) :
  printed w1 w2 -> printed w2 w3 -> printed w1 w3.
Proof.
  intros (l1 & ->) (l2 & ->). exists (l1 ++ l2)%list. cbn.
  rewrite app_assoc. reflexivity.
Qed.

Lemma printed_line (w : world) (line : string) :
  printed w (World (network w) (sent w) (console w ++ [line]) (files w)
                   (clock w) (ticks w) (threads w)).
Proof. exists [line]. reflexivity. Qed.

Lemma printed_lines (w : world) (a b : string) :
  printed w (World (network w) (sent w) ((console w ++ [a]) ++ [b])
                   (files w) (clock w) (ticks w) (threads w)).
Proof. exists [a; b]. rewrite <- app_assoc. reflexivity. Qed.

Lemma run_hook_with (hook : string) (w : world) :
  exists w',
    run_hook executable (subprocess_with ends) hook w
    = (Return (status_of hook), w')
    /\ printed w w'.
Proof.
  unfold run_hook, status_of, subprocess_with, try_except.
  unfold bind at 1.
  destruct (ends _) as [e|p]; cbn [is_Exception exn_type].
  - eexists. split; [reflexivity | apply printed_line].
  - destruct (returncode p =? 0).
    + destruct (negb (String.eqb (stdout p) ""));
        (eexists; split; [reflexivity|]);
        cbn [network sent console files clock ticks threads];
        [apply printed_lines | apply printed_line].
    + destruct (negb (String.eqb (stderr p) ""));
        (eexists; split; [reflexivity|]);
        cbn [network sent console files clock ticks threads];
        [apply printed_lines | apply printed_line].
Qed.

Lemma run_hooks_with (hooks : list string) :
  forall (code : Z) (w : world),
    exists w',
      for_each hooks code
        (fun exit_code hook =>
           result <- run_hook executable (subprocess_with ends) hook ;;
           ret (if negb (result =? 0) then result else exit_code)) w
      = (Return
           (fold_left (fun code status => if status =? 0 then code else status)
                      (map status_of hooks) code), w')
      /\ printed w w'.
Proof.
  induction hooks as [|hook hooks IH]; intros code w;
    cbn [for_each map fold_left].
  - exists w. split; [reflexivity | apply printed_refl].
  - destruct (run_hook_with hook w) as (w1 & Hrun & Hp1).
    unfold bind at 1. unfold bind at 1. rewrite Hrun. unfold ret at 1.
    destruct (IH (if negb (status_of hook =? 0) then status_of hook else code)
                 w1) as (w' & Hrest & Hp2).
    exists w'. split; [|exact (printed_trans _ _ _ Hp1 Hp2)].
    rewrite Hrest. destruct (status_of hook =? 0); reflexivity.
Qed.

Lemma selected_hooks (types : option (list string)) :
  (if wants_all (Arguments types true)
   then ["sync_domains"; "sync_workers"; "sync_pages"]
   else
     let chosen := match types with Some l => l | None => [] end in
     ((if contains "domains" chosen then ["sync_domains"] else [])
      ++ (if contains "workers" chosen then ["sync_workers"] else [])
      ++ (if contains "pages" chosen then ["sync_pages"] else []))%list)
  = selected types.
Proof.
  unfold selected, hook_table. cbn [filter fst].
  destruct (wants_all (Arguments types true)); cbn [orb]; [reflexivity|].
  cbv zeta.
  destruct (contains "domains" _), (contains "workers" _),
           (contains "pages" _); reflexivity.
Qed.

(** With [--hooks], [main] runs the hooks of the kinds asked for, in
    the order domains, workers, pages, whatever the order of [--type];
    the kinds that have no hook are passed over.  It returns the status
    of the last hook that failed, and 0 exactly when there is none: a
    hook that could not be started counts as failed with status 1.
    [main] itself sends no request and writes no file. *)
Theorem hooks_exit_status (cf : CloudflareFetcher.fetcher)
    (types : option (list string)) (w : world) :
  exists code w',
    main executable (subprocess_with ends) cf (Arguments types true) w
    = (Return code, w')
    /\ code = last_failure (map status_of (selected types))
    /\ (code = 0 <->
        forall hook, In hook (selected types) -> status_of hook = 0)
    /\ printed w w'.
Proof.
  unfold main. cbn [hooks type]. cbv zeta.
  rewrite selected_hooks.
  destruct (run_hooks_with (selected types) 0 w) as (w' & Hrun & Hp).
  eexists _, w'. split; [exact Hrun|]. split; [reflexivity|].
  split; [|exact Hp].
  fold (last_failure (map status_of (selected types))).
  rewrite last_failure_zero, Forall_forall. split.
  - intros H hook Hin. apply H. apply in_map. exact Hin.
  - intros H status Hin. apply in_map_iff in Hin.
    destruct Hin as (hook & <- & Hin). apply H. exact Hin.
Qed.

End Hooks.
End SyncAllMainSpec.

(** ** The orchestrator: its calls to the registry *)

Module SyncAllCalls.
Import Py Env MonadFacts SyncAll SyncAllSpec.
Local Open Scope monad_scope.

(** A kind the loop syncs: one of the table for which records were
    fetched. *)
Definition syncable (all_resources : dict (list pyval)) (key : string)
    : bool :=
  match dict_get available_types key with
  | Some _ => match records all_resources key with [] => false | _ => true end
  | None => false
  end.

(** The call of the loop for [key]. *)
Definition call_for (registry : RegistryUpdater.updater)
    (all_resources : dict (list pyval)) (key : string) (r : request)
    : Prop :=
  exists resource_type stamp,
    dict_get available_types key = Some resource_type
    /\ r = sync_request registry resource_type (records all_resources key)
                        stamp.

Lemma sync_kinds_calls (registry : RegistryUpdater.updater)
    (all_resources : dict (list pyval)) :
  forall (types : list string) (s : summary) (w : world),
    exists s' w' requests,
      sync_kinds registry all_resources types s w = (Return s', w')
      /\ sent w' = (sent w ++ requests)%list
      /\ Forall2 (call_for registry all_resources)
                 (filter (syncable all_resources) types) requests.
Proof.
  unfold sync_kinds.
  induction types as [|key types IH]; intros s w; cbn [for_each filter].
  - exists s, w, []. rewrite app_nil_r. repeat split. constructor.
  - destruct (sync_kind_cases registry all_resources s key w)
      as (s1 & w1 & Hrun & _ & _ & Hcase).
    rewrite (bind_run _ _ _ _ _ Hrun).
    destruct (IH s1 w1) as (s' & w' & requests & Hrest & Hsent & Hcalls).
    destruct Hcase as [(_ & Hs & Hskip)|(ty & Hty & Hne & Hs & _)].
    + exists s', w', requests. split; [exact Hrest|].
      split; [congruence|].
      assert (E : syncable all_resources key = false).
      { unfold syncable. destruct Hskip as [-> | ->]; [reflexivity|].
        destruct (dict_get available_types key); reflexivity. }
      rewrite E. exact Hcalls.
    + exists s', w',
        (sync_request registry ty (records all_resources key)
                      (clock w (ticks w)) :: requests).
      split; [exact Hrest|]. split.
      * rewrite Hsent, Hs, <- app_assoc. reflexivity.
      * assert (E : syncable all_resources key = true).
        { unfold syncable. rewrite Hty.
          destruct (records all_resources key); [contradiction|reflexivity]. }
        rewrite E. constructor; [|exact Hcalls].
        exists ty, (clock w (ticks w)). split; [exact Hty | reflexivity].
Qed.

(** The loop calls the registry once for every requested kind of the
    table that has records, in the order of the request, and for no
    other: each call is a [POST] to [/api/sync/<type>] that carries all
    the records fetched for the kind. *)
Theorem one_sync_call_per_kind (registry : RegistryUpdater.updater)
    (all_resources : dict (list pyval))
    (resource_types : option (list string)) (w : world) :
  exists s w' requests,
    sync_fetched registry all_resources resource_types w = (Return s, w')
    /\ sent w' = (sent w ++ requests)%list
    /\ Forall2 (call_for registry all_resources)
               (filter (syncable all_resources) (requested resource_types))
               requests.
Proof.
  destruct (sync_kinds_calls registry all_resources
              (requested resource_types)
              (Summary (clock w (ticks w)) [] [] 0) (tick w))
    as (s0 & w' & requests & Hrun & Hsent & Hcalls).
  exists (set_total s0 (sum (dict_values (synced s0)))), w', requests.
  split; [|split; [exact Hsent | exact Hcalls]].
  unfold sync_fetched. unfold bind at 1. unfold now_isoformat at 1.
  cbv beta iota. fold (tick w). fold (requested resource_types).
  rewrite (bind_run _ _ _ _ _ Hrun). reflexivity.
Qed.

End SyncAllCalls.

(** ** The orchestrator: all the requests of a run *)

Module SyncAllRequests.
Import Py Env MonadFacts SyncAll SyncAllSpec.
Import CloudflareFetcherInvariants.
Local Open Scope monad_scope.




End SyncAllRequests.

(** ** The KV script: the local copy *)

Module SimpleSyncSpec.
Import Py Env MonadFacts CloudflareFetcher SimpleSync.
Import CloudflareFetcherSpec CloudflareFetcherFiles.
Local Open Scope monad_scope.










End SimpleSyncSpec.

(** ** The KV script: without a namespace *)

Module SimpleSyncNamespace.
Import Py Env MonadFacts CloudflareFetcher SimpleSync.
Local Open Scope monad_scope.

(** A namespace that is not the one of the registry: an object whose
    title is another one. *)
Definition other_namespace (ns : pyval) : Prop :=
  exists d title,
    ns = PDict d
    /\ dict_get d "title" = Some title
    /\ title <> PStr "resource-registry".

Lemma first_registry_none (namespaces : list pyval) (w : world) :
  Forall other_namespace namespaces ->
  first_registry namespaces w = (Return PNone, w).
Proof.
  induction 1 as [|ns rest (d & title & -> & Htitle & Hne) Hrest IH];
    cbn [first_registry]; [reflexivity|].
  unfold bind. cbn [getitem]. rewrite Htitle. unfold ret at 1.
  destruct title as [| | |t| |]; try exact IH.
  destruct (String.eqb_spec t "resource-registry") as [->|_];
    [contradiction | exact IH].
Qed.

Definition create_request (cf : fetcher) : request :=
  Request "POST" (namespaces_url cf)
          [("X-Auth-Email", email cf); ("X-Auth-Key", api_key cf);
           ("Content-Type", "application/json")]
          [] (Some (PDict [("title", PStr "resource-registry")])).

Definition list_request (cf : fetcher) : request :=
  Request "GET" (namespaces_url cf)
          [("X-Auth-Email", email cf); ("X-Auth-Key", api_key cf)]
          [] None.

(** When the creation of the namespace is refused and the namespaces
    that are listed do not have one titled [resource-registry], nothing
    is stored in KV: after the fetch the script sends the two requests
    about the namespace and no other, says so, and writes the local
    copy. *)
Theorem no_namespace_no_upload (cf : fetcher) (resources : dict (list pyval))
    (refused listing : response) (data : dict pyval)
    (namespaces : list pyval) (rest : list outcome) (w w1 : world) :
  get_all_resources cf w = (Return resources, w1) ->
  network w1 = Answer refused :: Answer listing :: rest ->
  status_code refused <> 200 ->
  body listing = inr (PDict data) ->
  dict_get data "result" = Some (PList namespaces) ->
  Forall other_namespace namespaces ->
  script cf w
  = (Return tt,
     World rest
           (sent w1 ++ [create_request cf; list_request cf])
           (console w1 ++ ["Could not find/create KV namespace";
                           "✓ Saved to registry.json"])
           (dict_set (files w1) "registry.json"
                     (json_dumps (Some 2%nat) (resources_value resources)))
           (clock w1) (ticks w1) (threads w1)).
Proof.
  intros Hfetch Hnet Hrefused Hbody Hresult Hnone.
  unfold script. rewrite (bind_run _ _ _ _ _ Hfetch).
  assert (Hfind : find_namespace cf w1
                  = (Return PNone,
                     World rest
                           (sent w1 ++ [create_request cf; list_request cf])
                           (console w1) (files w1) (clock w1) (ticks w1)
                           (threads w1))).
  { unfold find_namespace, create_request, list_request.
    unfold bind at 1. unfold http at 1. rewrite Hnet. cbv beta iota zeta.
    destruct (Z.eqb_spec (status_code refused) 200) as [E|_];
      [contradiction|].
    unfold bind at 1. unfold http at 1.
    cbn [network sent console files clock ticks threads].
    unfold response_json. rewrite Hbody.
    run_monad. rewrite Hresult. cbv beta iota.
    rewrite first_registry_none by exact Hnone.
    rewrite <- app_assoc. reflexivity. }
  rewrite (bind_run _ _ _ _ _ Hfind). cbn [truthy].
  unfold bind, print, write_file.
  cbn [network sent console files clock ticks threads].
  rewrite <- app_assoc. reflexivity.
Qed.

(** The theorem at an account that may not create namespaces and has
    one, for something else. *)
Lemma no_namespace_no_upload_witness :
  let refused := Response 403 "Forbidden" "" "" (inl "Expecting value") in
  let cache := PDict [("id", PStr "n1"); ("title", PStr "cache")] in
  let listing :=
    SyncAllSpec.ok_response
      (PDict [("success", PBool true); ("result", PList [cache])]) in
  let w := world_of [Failure "offline"; Failure "offline"; Failure "offline";
                     Failure "offline"; Failure "offline"; Failure "offline";
                     Answer refused; Answer listing] in
  exists w',
    script CloudflareFetcherSpec.demo_fetcher w = (Return tt, w')
    /\ network w' = []
    /\ dict_mem (files w') "registry.json" = true
    /\ In "Could not find/create KV namespace" (console w').
Proof.
  intros refused cache listing w.
  set (cf := CloudflareFetcherSpec.demo_fetcher).
  pose proof (no_namespace_no_upload cf
                [("domains", []); ("workers", []); ("pages", []);
                 ("r2_buckets", []); ("kv_namespaces", []);
                 ("durable_objects", [])]
                refused listing
                [("success", PBool true); ("result", PList [cache])]
                [cache] [] w (snd (get_all_resources cf w))) as H.
  eexists. split; [apply H|].
  - vm_compute. reflexivity.
  - vm_compute. reflexivity.
  - discriminate.
  - reflexivity.
  - reflexivity.
  - constructor; [|constructor]. eexists _, _.
    split; [reflexivity|]. split; [reflexivity | discriminate].
  - split; [reflexivity|]. split; [reflexivity|].
    cbn [console]. apply in_or_app. right. left. reflexivity.
Defined.

End SimpleSyncNamespace.
